(** * Cumulus move-granules task: file placement and duplicate resolution

    Shallow embedding of [tasks/move-granules/index.js].  Storage is an
    explicit world threaded through a state-and-error monad; JavaScript
    objects become records, objects used as dictionaries become finite
    maps or insertion-ordered association lists, read through the
    look-up and the key order JavaScript gives plain objects. *)

From Stdlib Require Import NArith Ascii String.
From stdpp Require Import base option list sorting strings gmap fin_maps.

Local Open Scope string_scope.
Set Warnings "-register-all".

(** ** JavaScript strings *)

Module Js.

(** A string in boolean position: the empty string is falsy. *)
Definition truthy (s : string) : bool :=
  match s with
  | EmptyString => false
  | String _ _ => true
  end.

(** [a || b] where [a] may be undefined and [b] is a string. *)
Definition or_else (a : option string) (b : string) : string :=
  match a with
  | Some s => if truthy s then s else b
  | None => b
  end.

(** [a || b] where both may be undefined: the first truthy operand,
    otherwise the last operand. *)
Definition or_opt (a b : option string) : option string :=
  match a with
  | Some s => if truthy s then Some s else b
  | None => b
  end.

(** [s.match('lit')] for a literal without metacharacters is truthy
    exactly when [lit] occurs in [s]. *)
Fixpoint includes (lit s : string) : bool :=
  String.prefix lit s
  || match s with
     | EmptyString => false
     | String _ s' => includes lit s'
     end.

(** [s.match(/.*lit$/)] for a literal [lit] (given reversed). *)
Definition ends_with (lit s : string) : bool :=
  String.prefix (String.rev lit) (String.rev s).

(** *** Plain objects used as dictionaries *)

(** The names every plain object inherits from [Object.prototype].  A
    look-up [o[key]] that finds no own property under one of them yields
    the inherited value: a function, or for [__proto__] the prototype
    itself.  Each of them is truthy and has neither a [files] nor a
    [type] property. *)
Definition inheritedNames : list string :=
  ["constructor"; "__defineGetter__"; "__defineSetter__"; "hasOwnProperty";
   "__lookupGetter__"; "__lookupSetter__"; "isPrototypeOf";
   "propertyIsEnumerable"; "toString"; "valueOf"; "__proto__";
   "toLocaleString"].

Definition inherited (key : string) : bool := bool_decide (key ∈ inheritedNames).

(** The [name] property of the inherited value: the functions carry
    their own name, the constructor is [Object], and the prototype found
    under [__proto__] has no [name]. *)
Definition inheritedValueName (key : string) : option string :=
  if bool_decide (key = "__proto__") then None
  else if bool_decide (key = "constructor") then Some "Object"
  else Some key.

(** What [o[key]] finds, given the own property of [o] under [key]. *)
Inductive Property (A : Type) :=
| Own (a : A)
| Inherited
| Undefined.
Arguments Own {A} a.
Arguments Inherited {A}.
Arguments Undefined {A}.

Definition property {A} (own : option A) (key : string) : Property A :=
  match own with
  | Some a => Own a
  | None => if inherited key then Inherited else Undefined
  end.

(** A key is an array index when it is the canonical decimal numeral of
    an integer below [2^32 - 1]. *)
Definition digit (c : ascii) : option N :=
  let n := N_of_ascii c in
  if ((48 <=? n) && (n <=? 57))%N then Some (n - 48)%N else None.

Fixpoint digits (acc : N) (s : string) : option N :=
  match s with
  | EmptyString => Some acc
  | String c rest =>
      match digit c with
      | Some d => digits (acc * 10 + d)%N rest
      | None => None
      end
  end.

Definition arrayIndex (key : string) : option N :=
  match key with
  | EmptyString => None
  | String c rest =>
      if Ascii.eqb c "0"%char && truthy rest then None
      else match digits 0 key with
           | Some n => if (n <? 4294967295)%N then Some n else None
           | None => None
           end
  end.

(** [Object.keys(o)] and every other enumeration of a plain object list
    the own properties that are array indices first, in ascending numeric
    order, and then the other ones in the order they were created. *)
Definition indexOf {A} (entry : string * A) : N := default 0%N (arrayIndex entry.1).

Fixpoint insertByIndex {A} (entry : string * A) (sorted : list (string * A))
    : list (string * A) :=
  match sorted with
  | [] => [entry]
  | next :: rest =>
      if (indexOf entry <=? indexOf next)%N then entry :: sorted
      else next :: insertByIndex entry rest
  end.

Definition sortByIndex {A} (entries : list (string * A)) : list (string * A) :=
  foldr insertByIndex [] entries.

Definition ownEntries {A} (o : list (string * A)) : list (string * A) :=
  (sortByIndex (filter (fun entry => is_Some (arrayIndex entry.1)) o)
     ++ filter (fun entry => arrayIndex entry.1 = None) o)%list.

(** The same order on the keys alone. *)
Definition ownKeys (keys : list string) : list string :=
  map fst (ownEntries (map (fun key => (key, tt)) keys)).

End Js.

(** ** Errors *)

(** The three ways [validateMatch] rejects a file. *)
Inductive MatchFailure :=
| MatchedMoreThanOne
| DidNotMatchAny
| UnknownBucketKey (key : string).

(** Exceptions the task can raise.  [StorageError] and [TemplateError]
    come from collaborators; [TypeError] is the JavaScript runtime's. *)
Inductive Error :=
| DuplicateFile (message : string)
| InvalidArgument (why : MatchFailure)
| TypeError (what : string)
| StorageError (code : string)
| TemplateError (template : string).

Inductive Result (A : Type) :=
| Ok (a : A)
| Err (e : Error).
Arguments Ok {A} a.
Arguments Err {A} e.

(** ** Object storage *)

Module S3.

(** A location is a bucket and a key. *)
Abbreviation Loc := (string * string)%type.

Record Object := {
  Body : string;
  ACL : option string;
  LastModified : nat
}.

(** Requests that change the store, in the order they were issued. *)
Inductive Request :=
| PutObject (at_ : Loc)
| CopyObject (from to : Loc)
| DeleteObject (at_ : Loc).

Record World := {
  objects : gmap Loc Object;
  clock : nat;
  requests : list Request
}.

End S3.

(** ** The task monad: state over the storage world, with exceptions.
    An exception keeps the world as it was when it was thrown. *)

Definition Task (A : Type) : Type := S3.World -> Result A * S3.World.

Definition ret {A} (a : A) : Task A := fun w => (Ok a, w).
Definition throw {A} (e : Error) : Task A := fun w => (Err e, w).
Definition bind {A B} (m : Task A) (k : A -> Task B) : Task B :=
  fun w => match m w with
           | (Ok a, w') => k a w'
           | (Err e, w') => (Err e, w')
           end.
Definition lift {A} (r : Result A) : Task A := fun w => (r, w).

(** Code that touches no storage only needs the exceptions. *)
Definition rbind {A B} (r : Result A) (k : A -> Result B) : Result B :=
  match r with
  | Ok a => k a
  | Err e => Err e
  end.

Declare Scope task_scope.
Delimit Scope task_scope with task.
Notation "x <- m ;; k" := (bind m (fun x => k))
  (at level 100, m at next level, right associativity) : task_scope.
Notation "m ;;; k" := (bind m (fun _ => k))
  (at level 100, right associativity) : task_scope.
Notation "x <-? r ;; k" := (rbind r (fun x => k))
  (at level 100, r at next level, right associativity) : task_scope.
Local Open Scope task_scope.

(** ** Data model *)

Module Bucket.
(** An entry of the bucket map: [{ name, type }]. *)
Record t := { name : string; type : string }.
End Bucket.

Module Staged.
(** A granule file as the task receives it: [bucket] is still the name
    of the bucket the file was staged in. *)
Record file := {
  name : string;
  bucket : string;
  filename : string;
  url_path : option string;
  fileStagingDir : option string;
  duplicate_found : option bool;
  fileSize : option nat
}.
End Staged.

Module Target.
(** A granule file once its destination is known.  [B] is the bucket
    object during the task and the bucket name in the task's output. *)
Record file (B : Type) := {
  name : string;
  bucket : B;
  filepath : string;
  filename : string;
  url_path : option string;
  fileStagingDir : option string;
  duplicate_found : option bool;
  fileSize : option nat
}.
Arguments name {B} _.
Arguments bucket {B} _.
Arguments filepath {B} _.
Arguments filename {B} _.
Arguments url_path {B} _.
Arguments fileStagingDir {B} _.
Arguments duplicate_found {B} _.
Arguments fileSize {B} _.
End Target.

Record Granule (F : Type) := {
  granuleId : string;
  files : list F
}.
Arguments granuleId {F} _.
Arguments files {F} _.

(** A granules object: granules keyed by id, in the order the keys were
    first assigned.  Code that walks the object does so through
    [Js.ownEntries]. *)
Definition Granules (F : Type) : Type := list (string * Granule F).

(** Parsed XML as xml2js hands it over.  An array may carry named
    properties besides its items, as any JavaScript array can.  The keys
    of an object are element names, which are no array indices: they are
    listed in the order of the document. *)
Inductive JsVal :=
| JStr (s : string)
| JArr (items : list JsVal) (props : list (string * JsVal))
| JObj (fields : list (string * JsVal)).

(** [cmrFile.metadataObject]: the document root with its [Granule]
    element, when there is one. *)
Record Metadata := {
  Granule_ : option (list (string * JsVal))
}.

Record CmrFile := {
  cmr_filename : string;
  cmr_granuleId : string;
  metadataObject : Metadata;
  s3Tags : list (string * string);
  metadata : option string
}.

(** One rule of [collection.files]. *)
Module FileSpec.
Record t := {
  regex : string;
  bucket : string;
  url_path : option string
}.
End FileSpec.

Record Collection := {
  collection_files : list FileSpec.t;
  collection_url_path : option string;
  collection_duplicateHandling : option string
}.

Record Config := {
  config_bucket : string;
  buckets : gmap string Bucket.t;
  granuleIdExtraction : option string;
  input_granules : option (list (Granule Staged.file));
  distribution_endpoint : string;
  moveStagedFiles : option bool;
  config_collection : Collection;
  config_duplicateHandling : option string
}.

(** The task's input envelope.  [event_collection] is a [collection]
    property on the event itself, next to [config];
    [forceDuplicateOverwrite] is the value found at
    [cumulus_config.cumulus_context.forceDuplicateOverwrite]. *)
Record Event := {
  config : option Config;
  event_collection : option Collection;
  forceDuplicateOverwrite : option bool;
  input : option (list string)
}.

(** ** Collaborators

    Functions the task calls and this development does not look inside:
    the JavaScript regular expressions, Node's [path], [url-join],
    [xml2js], and the helpers of [@cumulus/ingest] and [@cumulus/cmrjs]
    that are not among the sources ([unversionFilename],
    [urlPathTemplate], [getCmrFiles], [getGranuleId], [parseS3Uri],
    [s3TagSetToQueryString]).  Everything below holds for any choice of
    them. *)
Class Collaborators := {
  (** [subject.match(pattern)] is truthy *)
  regexp_match : string -> string -> bool;
  (** the file name without its version suffix *)
  unversionFilename : string -> string;
  (** expansion of a URL path template against the file, its granule and
      the catalog metadata; raises on a token it cannot resolve *)
  urlPathTemplate :
    string -> Staged.file -> Granule Staged.file -> Metadata -> Result string;
  path_join : string -> string -> string;
  path_basename : string -> string;
  urljoin : string -> string -> string;
  (** the checksum of an object's content *)
  cksum : string -> N;
  (** the rendering of a modification time in a renamed key *)
  formatTimestamp : nat -> string;
  (** the catalog files among the staged URIs, with their parsed content
      read from storage *)
  getCmrFiles :
    list string -> string -> gmap S3.Loc S3.Object -> Result (list CmrFile);
  getGranuleId : string -> string -> Result string;
  parseS3Uri : string -> Result S3.Loc;
  (** xml2js [Builder.buildObject] *)
  buildObject : Metadata -> string;
  s3TagSetToQueryString : list (string * string) -> string
}.

(** Modelled from the spec: [buildS3Uri] of [@cumulus/common/aws], which
    is not among the sources; a destination URI is
    [scheme://bucket.name/key]. *)
Definition buildS3Uri (bucket key : string) : string :=
  "s3://" +:+ bucket +:+ "/" +:+ key.

(** ** Storage operations

    The helpers of [@cumulus/common/aws] and [@cumulus/ingest/granule]
    that the task calls are not among the sources. *)

Section Storage.
Context `{Collaborators}.

Definition missing {A} : Result A := Err (StorageError "NoSuchKey").

(** Modelled from the spec: [s3ObjectExists] of [@cumulus/common/aws],
    the object-exists check, a read-only probe. *)
Definition s3ObjectExists (target : S3.Loc) : Task bool :=
  fun w => (Ok (bool_decide (is_Some (S3.objects w !! target))), w).

(** Modelled from the spec: [checksumS3Objects] of [@cumulus/common/aws],
    checksum-of-object, a content checksum of the object at the key;
    there is nothing to sum when the key holds no object. *)
Definition checksumS3Objects (bucket key : string) : Task N :=
  fun w => match S3.objects w !! (bucket, key) with
           | Some o => (Ok (cksum (S3.Body o)), w)
           | None => (missing, w)
           end.

(** Modelled from the spec: [deleteS3Object] of [@cumulus/common/aws],
    delete.  Deleting an absent key succeeds, as the storage service
    has it. *)
Definition deleteS3Object (bucket key : string) : Task unit :=
  fun w => (Ok tt,
            {| S3.objects := delete (bucket, key) (S3.objects w);
               S3.clock := S3.clock w;
               S3.requests := S3.requests w ++ [S3.DeleteObject (bucket, key)] |}).

(** Modelled from the spec: [promiseS3Upload] of [@cumulus/common/aws],
    upload-with-tags; the object at the key is replaced by the uploaded
    body. *)
Definition promiseS3Upload (Bucket Key Body : string) (Tagging : string)
    (ACL : option string) : Task unit :=
  fun w => (Ok tt,
            {| S3.objects :=
                 <[(Bucket, Key) :=
                     {| S3.Body := Body; S3.ACL := ACL;
                        S3.LastModified := S3.clock w |}]> (S3.objects w);
               S3.clock := S (S3.clock w);
               S3.requests := S3.requests w ++ [S3.PutObject (Bucket, Key)] |}).

(** Modelled from the spec: [moveGranuleFile] of [@cumulus/ingest/granule],
    move/copy-with-optional-ACL; the move is a copy of the source onto
    the target followed by the deletion of the source, and fails when
    there is no source. *)
Definition moveGranuleFile (source target : S3.Loc) (options : option string)
    : Task unit :=
  fun w => match S3.objects w !! source with
           | None => (missing, w)
           | Some o =>
               (Ok tt,
                {| S3.objects :=
                     delete source
                       (<[target := {| S3.Body := S3.Body o; S3.ACL := options;
                                       S3.LastModified := S3.clock w |}]>
                          (S3.objects w));
                   S3.clock := S (S3.clock w);
                   S3.requests :=
                     S3.requests w
                       ++ [S3.CopyObject source target; S3.DeleteObject source] |})
           end.

(** Modelled from the spec: the key an object is renamed to by
    [renameS3FileWithTimestamp], the key with a timestamp suffix; the
    suffix is a version marker followed by the object's modification
    time. *)
Definition versionPrefix (key : string) : string := key +:+ ".v".

Definition renamedKey (key : string) (o : S3.Object) : string :=
  versionPrefix key +:+ formatTimestamp (S3.LastModified o).

(** Modelled from the spec: [renameS3FileWithTimestamp] of
    [@cumulus/ingest/granule]; rename the existing object by appending a
    timestamp suffix, preserving it as a new sibling. *)
Definition renameS3FileWithTimestamp (bucket key : string) : Task unit :=
  fun w => match S3.objects w !! (bucket, key) with
           | None => (missing, w)
           | Some o => moveGranuleFile (bucket, key) (bucket, renamedKey key o) None w
           end.

(** An entry of a listing. *)
Record Listed := {
  Listed_Bucket : string;
  Listed_Key : string;
  Listed_fileSize : nat
}.

Definition isRenamedOf (bucket key : string) (entry : S3.Loc * S3.Object) : Prop :=
  entry.1.1 = bucket /\ String.prefix (versionPrefix key) entry.1.2 = true.

#[local] Instance isRenamedOf_dec bucket key entry : Decision (isRenamedOf bucket key entry).
Proof. unfold isRenamedOf. apply _. Defined.

(** Modelled from the spec: the renamed siblings of a key, the objects
    of the bucket found at the key's version prefix. *)
Definition siblings (bucket key : string) (store : gmap S3.Loc S3.Object)
    : gmap S3.Loc S3.Object :=
  filter (isRenamedOf bucket key) store.

(** Modelled from the spec: the listing [getRenamedS3File] returns, one
    entry with key and size for each renamed sibling. *)
Definition listRenamed (bucket key : string) (store : gmap S3.Loc S3.Object)
    : list Listed :=
  map (fun entry : S3.Loc * S3.Object =>
         {| Listed_Bucket := bucket;
            Listed_Key := entry.1.2;
            Listed_fileSize := String.length (S3.Body entry.2) |})
      (map_to_list (siblings bucket key store)).

(** Modelled from the spec: [getRenamedS3File] of
    [@cumulus/ingest/granule], list-objects-by-prefix, for discovering
    the renamed siblings of a key. *)
Definition getRenamedS3File (bucket key : string) : Task (list Listed) :=
  fun w => (Ok (listRenamed bucket key (S3.objects w)), w).

End Storage.

(** ** Moving one file *)

Section Move.
Context `{Collaborators}.

#[local] Abbreviation TFile := (Target.file Bucket.t).

(** [delete fileMoved.fileStagingDir] on a copy of the file. *)
Definition withoutStagingDir (file : TFile) : TFile :=
  {| Target.name := Target.name file;
     Target.bucket := Target.bucket file;
     Target.filepath := Target.filepath file;
     Target.filename := Target.filename file;
     Target.url_path := Target.url_path file;
     Target.fileStagingDir := None;
     Target.duplicate_found := Target.duplicate_found file;
     Target.fileSize := Target.fileSize file |}.

(** [fileMoved.duplicate_found = true]. *)
Definition markDuplicate (file : TFile) : TFile :=
  {| Target.name := Target.name file;
     Target.bucket := Target.bucket file;
     Target.filepath := Target.filepath file;
     Target.filename := Target.filename file;
     Target.url_path := Target.url_path file;
     Target.fileStagingDir := Target.fileStagingDir file;
     Target.duplicate_found := Some true;
     Target.fileSize := Target.fileSize file |}.

(** The descriptor returned for a renamed sibling. *)
Definition renamedFile (file : TFile) (f : Listed) : TFile :=
  {| Target.name := path_basename (Listed_Key f);
     Target.bucket := Target.bucket file;
     Target.filepath := Listed_Key f;
     Target.filename := buildS3Uri (Listed_Bucket f) (Listed_Key f);
     Target.url_path := Target.url_path file;
     Target.fileStagingDir := None;
     Target.duplicate_found := None;
     Target.fileSize := Some (Listed_fileSize f) |}.

Definition sourceOf (file : TFile) (sourceBucket : string) : S3.Loc :=
  (sourceBucket,
   Js.or_else (Target.fileStagingDir file) "file-staging" +:+ "/" +:+ Target.name file).

Definition targetOf (file : TFile) : S3.Loc :=
  (Bucket.name (Target.bucket file), Target.filepath file).

Definition moveFileRequest (file : TFile) (sourceBucket duplicateHandling : string)
    : Task (list TFile) :=
  let source := sourceOf file sourceBucket in
  let target := targetOf file in
  let fileMoved := withoutStagingDir file in
  s3ObjAlreadyExists <- s3ObjectExists target ;;
  let fileMoved := if s3ObjAlreadyExists : bool then markDuplicate fileMoved else fileMoved in
  if s3ObjAlreadyExists && bool_decide (duplicateHandling = "error") then
    throw (DuplicateFile (target.2 +:+ " already exists in " +:+ target.1 +:+ " bucket"))
  else if s3ObjAlreadyExists && bool_decide (duplicateHandling = "skip") then
    ret [fileMoved]
  else
    let options :=
      if Js.includes "public" (Bucket.type (Target.bucket file))
      then Some "public-read" else None in
    (if s3ObjAlreadyExists && bool_decide (duplicateHandling = "version") then
       existingFileSum <- checksumS3Objects target.1 target.2 ;;
       stagedFileSum <- checksumS3Objects source.1 source.2 ;;
       if N.eqb existingFileSum stagedFileSum then
         deleteS3Object source.1 source.2
       else
         (renameS3FileWithTimestamp target.1 target.2 ;;;
          moveGranuleFile source target options)
     else
       moveGranuleFile source target options) ;;;
    renamedFiles <- (if bool_decide (duplicateHandling = "version")
                     then getRenamedS3File target.1 target.2 else ret []) ;;
    ret (fileMoved :: map (renamedFile file) renamedFiles).

(** *** Outcomes of a placement, named for the statements below *)

(** The descriptor of the placed file when the destination was there. *)
Definition duplicateOf (file : TFile) : TFile := markDuplicate (withoutStagingDir file).

(** What the store holds after the existing object was renamed and the
    staged one moved in. *)
Definition versionedStore (file : TFile) (sourceBucket : string)
    (existing staged : S3.Object) (w : S3.World) : gmap S3.Loc S3.Object :=
  let target := targetOf file in
  let options :=
    if Js.includes "public" (Bucket.type (Target.bucket file))
    then Some "public-read" else None in
  delete (sourceOf file sourceBucket)
    (<[target := {| S3.Body := S3.Body staged; S3.ACL := options;
                    S3.LastModified := S (S3.clock w) |}]>
       (delete target
          (<[(target.1, renamedKey target.2 existing) :=
               {| S3.Body := S3.Body existing; S3.ACL := None;
                  S3.LastModified := S3.clock w |}]> (S3.objects w)))).

(** The world after such a placement: two moves, each a copy and a
    deletion. *)
Definition versionedWorld (file : TFile) (sourceBucket : string)
    (existing staged : S3.Object) (w : S3.World) : S3.World :=
  let source := sourceOf file sourceBucket in
  let target := targetOf file in
  {| S3.objects := versionedStore file sourceBucket existing staged w;
     S3.clock := S (S (S3.clock w));
     S3.requests :=
       (S3.requests w
          ++ [S3.CopyObject target (target.1, renamedKey target.2 existing);
              S3.DeleteObject target])
         ++ [S3.CopyObject source target; S3.DeleteObject source] |}.

(** The world after the staged source was discarded. *)
Definition discardedWorld (file : TFile) (sourceBucket : string) (w : S3.World)
    : S3.World :=
  {| S3.objects := delete (sourceOf file sourceBucket) (S3.objects w);
     S3.clock := S3.clock w;
     S3.requests := S3.requests w ++ [S3.DeleteObject (sourceOf file sourceBucket)] |}.

(** What is returned under the [version] policy: the placed file and one
    descriptor for each renamed sibling found in the store. *)
Definition versionedFiles (file : TFile) (store : gmap S3.Loc S3.Object)
    : list TFile :=
  duplicateOf file
    :: map (renamedFile file) (listRenamed (targetOf file).1 (targetOf file).2 store).

(** ** Moving the files of every granule *)

(** [Promise.all] over requests that are started in list order.  The
    order in which the storage answers them is not the program's to
    choose; this is the schedule in which each request runs to
    completion before the next one starts.  No request is cancelled when
    another one fails, and the results come back in list order; the
    rejection is the first failure of this schedule, as it was thrown.
    What is stated below of a whole batch is what holds in every
    schedule: which objects may change, the shape of the results, the
    kinds of errors. *)
Fixpoint promiseAll {A} (requests : list (Task A)) : Task (list A) :=
  match requests with
  | [] => ret []
  | request :: rest =>
      fun w =>
        match request w with
        | (Ok a, w1) =>
            match promiseAll rest w1 with
            | (Ok others, w2) => (Ok (a :: others), w2)
            | (Err e, w2) => (Err e, w2)
            end
        | (Err e, w1) => (Err e, (promiseAll rest w1).2)
        end
  end.

Definition isCmrFile (name : string) : bool := Js.ends_with ".cmr.xml" name.

(** The callback run for one granule: move what is not a catalog file and
    put the catalog files back at the end of the list. *)
Definition moveFilesOfGranule (granule : Granule TFile)
    (sourceBucket duplicateHandling : string) : Task (Granule TFile) :=
  let filesToMove := filter (fun file => negb (isCmrFile (Target.name file)) = true)
                            (files granule) in
  let cmrFile := filter (fun file => isCmrFile (Target.name file) = true)
                        (files granule) in
  filesMoved <- promiseAll (map (fun file => moveFileRequest file sourceBucket duplicateHandling)
                                filesToMove) ;;
  ret {| granuleId := granuleId granule;
         files := concat filesMoved ++ cmrFile |}.

Definition moveFilesForAllGranules (granulesObject : Granules TFile)
    (sourceBucket duplicateHandling : string) : Task (Granules TFile) :=
  promiseAll (map (fun entry : string * Granule TFile =>
                     granule <- moveFilesOfGranule entry.2 sourceBucket duplicateHandling ;;
                     ret (entry.1, granule))
                  (Js.ownEntries granulesObject)).

End Move.

(** ** Planning: which bucket and key each file goes to *)

Section Plan.
Context `{Collaborators}.

#[local] Abbreviation TFile := (Target.file Bucket.t).

(** [{}], passed as [cmrMetadata] when the granule has no catalog file. *)
Definition noMetadata : Metadata := {| Granule_ := None |}.

Definition fileObjectFromS3URI (s3URI : string) : Result Staged.file :=
  uriParsed <-? parseS3Uri s3URI ;;
  Ok {| Staged.name := path_basename s3URI;
        Staged.bucket := uriParsed.1;
        Staged.filename := s3URI;
        Staged.url_path := None;
        Staged.fileStagingDir := None;
        Staged.duplicate_found := None;
        Staged.fileSize := None |}.

(** Property access and assignment on an object used as a dictionary.
    Keys keep the position of their first assignment. *)
Fixpoint obj_get {A} (k : string) (o : list (string * A)) : option A :=
  match o with
  | [] => None
  | (k', v) :: rest => if decide (k' = k) then Some v else obj_get k rest
  end.

Fixpoint obj_set {A} (k : string) (v : A) (o : list (string * A)) : list (string * A) :=
  match o with
  | [] => [(k, v)]
  | (k', v') :: rest =>
      if decide (k' = k) then (k, v) :: rest else (k', v') :: obj_set k v rest
  end.

(** The first loop of [addInputFilesToGranules]: the hash of the
    granules and the hash from file name to granule id.  Assigning under
    the key [__proto__] adds no key to a plain object (it replaces the
    prototype); the hash of a roster with a granule of that name is not
    followed here, and the statements about the keys of the hash take a
    roster without one. *)
Definition hashGranules (granules : list (Granule Staged.file))
    : Granules Staged.file * gmap string string :=
  fold_left
    (fun (acc : Granules Staged.file * gmap string string) g =>
       (obj_set (granuleId g) g acc.1,
        fold_left (fun (filesHash : gmap string string) f =>
                     <[Staged.filename f := granuleId g]> filesHash)
                  (files g) acc.2))
    granules ([], ∅).

(** [filesHash[f]] in boolean position.  [filesHash] is a plain object:
    a name it inherits is found when no file of the roster has it, and
    the prototype is found under [__proto__] whatever was assigned
    there. *)
Definition knownFile (filesHash : gmap string string) (f : string) : bool :=
  if bool_decide (f = "__proto__") then true
  else match Js.property (filesHash !! f) f with
       | Js.Own id => Js.truthy id
       | Js.Inherited => true
       | Js.Undefined => false
       end.

(** The second loop: one staged URI.  [granulesHash[granuleId]] is a
    look-up on a plain object too: under an inherited name it finds a
    value without [files]. *)
Definition addInputFile (filesHash : gmap string string) (regex : string)
    (granulesHash : Granules Staged.file) (f : string)
    : Result (Granules Staged.file) :=
  if Js.truthy f && negb (knownFile filesHash f) then
    id <-? getGranuleId f regex ;;
    match Js.property (obj_get id granulesHash) id with
    | Js.Undefined => Err (TypeError "Cannot read property 'files' of undefined")
    | Js.Inherited => Err (TypeError "Cannot read property 'push' of undefined")
    | Js.Own g =>
        fileObject <-? fileObjectFromS3URI f ;;
        Ok (obj_set id
                    {| granuleId := granuleId g;
                       files := files g ++ [fileObject] |}
                    granulesHash)
    end
  else Ok granulesHash.

Definition addInputFilesToGranules (input : list string)
    (granules : list (Granule Staged.file)) (regex : string)
    : Result (Granules Staged.file) :=
  let hashes := hashGranules granules in
  fold_left (fun acc f => granulesHash <-? acc ;; addInputFile hashes.2 regex granulesHash f)
            input (Ok hashes.1).

(** [buckets[key]]: the bucket map is a plain object, its entries are
    its own properties. *)
Definition bucketProperty (buckets : gmap string Bucket.t) (key : string)
    : Js.Property Bucket.t :=
  Js.property (buckets !! key) key.

Definition validateMatch (match_ : list FileSpec.t)
    (buckets : gmap string Bucket.t) : Result unit :=
  if Nat.ltb 1 (length match_) then Err (InvalidArgument MatchedMoreThanOne)
  else if Nat.eqb (length match_) 0 then Err (InvalidArgument DidNotMatchAny)
  else match match_ with
       | [] => Ok tt
       | match0 :: _ =>
           match bucketProperty buckets (FileSpec.bucket match0) with
           | Js.Undefined =>
               Err (InvalidArgument (UnknownBucketKey (FileSpec.bucket match0)))
           | Js.Own _ | Js.Inherited => Ok tt
           end
       end.

(** The rules of the collection whose pattern the unversioned name matches. *)
Definition matching (fileSpecs : list FileSpec.t) (file : Staged.file)
    : list FileSpec.t :=
  filter (fun cf => regexp_match (unversionFilename (Staged.name file))
                                 (FileSpec.regex cf) = true)
         fileSpecs.

(** [file.url_path || match[0].url_path || collection.url_path || ''] *)
Definition URLPathTemplate (file : Staged.file) (match0 : FileSpec.t)
    (collection : Collection) : string :=
  Js.or_else
    (Js.or_opt (Js.or_opt (Staged.url_path file) (FileSpec.url_path match0))
               (collection_url_path collection))
    "".

(** The bucket object a file is planned into when the rule's bucket key
    is a name the bucket map only inherits: the inherited function, of
    which the plan reads the [name].  Such a value has no [type]; it is
    rendered here with the empty type, and what the later steps of the
    task do with such a file lies outside this development. *)
Definition inheritedBucket (functionName : string) : Bucket.t :=
  {| Bucket.name := functionName; Bucket.type := "" |}.

(** The callback [updateGranuleMetadata] runs for one file of a granule. *)
Definition updateFileMetadata (collection : Collection) (cmrFiles : list CmrFile)
    (buckets : gmap string Bucket.t) (id : string) (granule : Granule Staged.file)
    (file : Staged.file) : Result TFile :=
  let match_ := matching (collection_files collection) file in
  _ <-? validateMatch match_ buckets ;;
  match match_ with
  | [] => Err (TypeError "Cannot read property 'url_path' of undefined")
  | match0 :: _ =>
      let cmrFile := List.find (fun f => bool_decide (cmr_granuleId f = id)) cmrFiles in
      urlPath <-? urlPathTemplate (URLPathTemplate file match0 collection) file granule
                    (match cmrFile with
                     | Some c => metadataObject c
                     | None => noMetadata
                     end) ;;
      let planned (bucket : Bucket.t) : TFile :=
        let filepath := path_join urlPath (Staged.name file) in
        {| Target.name := Staged.name file;
           Target.bucket := bucket;
           Target.filepath := filepath;
           Target.filename := "s3://" +:+ path_join (Bucket.name bucket) filepath;
           Target.url_path := Staged.url_path file;
           Target.fileStagingDir := Staged.fileStagingDir file;
           Target.duplicate_found := Staged.duplicate_found file;
           Target.fileSize := Staged.fileSize file |} in
      match bucketProperty buckets (FileSpec.bucket match0) with
      | Js.Undefined => Err (TypeError "Cannot read property 'name' of undefined")
      | Js.Own bucket => Ok (planned bucket)
      | Js.Inherited =>
          match Js.inheritedValueName (FileSpec.bucket match0) with
          | Some functionName => Ok (planned (inheritedBucket functionName))
          | None => Err (TypeError "Path must be a string. Received undefined")
          end
      end
  end.

(** The destination computed from the one matching rule, a bucket and
    an expanded path. *)
Definition destinationOf (file : Staged.file) (bucket : Bucket.t) (urlPath : string)
    : TFile :=
  {| Target.name := Staged.name file;
     Target.bucket := bucket;
     Target.filepath := path_join urlPath (Staged.name file);
     Target.filename :=
       "s3://" +:+ path_join (Bucket.name bucket) (path_join urlPath (Staged.name file));
     Target.url_path := Staged.url_path file;
     Target.fileStagingDir := Staged.fileStagingDir file;
     Target.duplicate_found := Staged.duplicate_found file;
     Target.fileSize := Staged.fileSize file |}.

(** [forEach] with a callback that may throw: stop at the first throw. *)
Fixpoint forEach {A B} (f : A -> Result B) (l : list A) : Result (list B) :=
  match l with
  | [] => Ok []
  | a :: rest =>
      b <-? f a ;;
      bs <-? forEach f rest ;;
      Ok (b :: bs)
  end.

Definition updateGranuleMetadata (granulesObject : Granules Staged.file)
    (collection : Collection) (cmrFiles : list CmrFile)
    (buckets : gmap string Bucket.t) : Result (Granules TFile) :=
  forEach (fun entry : string * Granule Staged.file =>
             updatedFiles <-? forEach (updateFileMetadata collection cmrFiles buckets
                                                          entry.1 entry.2)
                                      (files entry.2) ;;
             Ok (entry.1, {| granuleId := granuleId entry.2; files := updatedFiles |}))
          (Js.ownEntries granulesObject).

End Plan.

(** ** Rewriting the catalog metadata *)

Section Catalog.
Context `{Collaborators}.

#[local] Abbreviation TFile := (Target.file Bucket.t).

Record UrlObj := {
  URL : string;
  URLDescription : string
}.

(** The entry the loop over [granule.files] pushes for one file, if any. *)
Definition accessURL (distEndpoint : string) (file : TFile) : option UrlObj :=
  if Js.includes "protected" (Bucket.type (Target.bucket file)) then
    let extension := urljoin (Bucket.name (Target.bucket file)) (Target.filepath file) in
    Some {| URL := urljoin distEndpoint extension;
            URLDescription := "File to download" |}
  else if Js.includes "public" (Bucket.type (Target.bucket file)) then
    Some {| URL := "https://" +:+ Bucket.name (Target.bucket file)
                   +:+ ".s3.amazonaws.com/" +:+ Target.filepath file;
            URLDescription := "File to download" |}
  else None.

(** [urls] after the loop. *)
Definition accessURLs (distEndpoint : string) (granuleFiles : list TFile)
    : list UrlObj :=
  omap (accessURL distEndpoint) granuleFiles.

Definition urlValue (u : UrlObj) : JsVal :=
  JObj [("URL", JStr (URL u)); ("URLDescription", JStr (URLDescription u))].

(** One step of the loop over the keys of the metadata granule. *)
Definition copyKey (updatedGranule : list (string * JsVal)) (entry : string * JsVal)
    : list (string * JsVal) :=
  let updatedGranule :=
    if bool_decide (entry.1 = "OnlineResources") || bool_decide (entry.1 = "Orderable")
    then obj_set "OnlineAccessURLs" (JObj []) updatedGranule
    else updatedGranule in
  obj_set entry.1 entry.2 updatedGranule.

(** [updatedGranule.OnlineAccessURLs.OnlineAccessURL = urls], in strict mode. *)
Definition setOnlineAccessURL (updatedGranule : list (string * JsVal))
    (urls : list UrlObj) : Result (list (string * JsVal)) :=
  let value := JArr (map urlValue urls) [] in
  match obj_get "OnlineAccessURLs" updatedGranule with
  | None => Err (TypeError "Cannot set property 'OnlineAccessURL' of undefined")
  | Some (JStr _) => Err (TypeError "Cannot create property 'OnlineAccessURL' on string")
  | Some (JArr items props) =>
      Ok (obj_set "OnlineAccessURLs"
                  (JArr items (obj_set "OnlineAccessURL" value props)) updatedGranule)
  | Some (JObj fields) =>
      Ok (obj_set "OnlineAccessURLs"
                  (JObj (obj_set "OnlineAccessURL" value fields)) updatedGranule)
  end.

(** The metadata object of a catalog file after the splice. *)
Definition updatedMetadata (cmrFile : CmrFile) (urls : list UrlObj) : Result Metadata :=
  match Granule_ (metadataObject cmrFile) with
  | None => Err (TypeError "Cannot convert undefined or null to object")
  | Some metadataGranule =>
      updatedGranule <-? setOnlineAccessURL (fold_left copyKey metadataGranule []) urls ;;
      Ok {| Granule_ := Some updatedGranule |}
  end.

(** The callback [updateCmrFileAccessURLs] runs for one catalog file. *)
Definition updateCmrFile (granulesObject : Granules TFile) (distEndpoint : string)
    (cmrFile : CmrFile) : Task unit :=
  match Js.property (obj_get (cmr_granuleId cmrFile) granulesObject)
                    (cmr_granuleId cmrFile) with
  | Js.Undefined => throw (TypeError "Cannot read property 'files' of undefined")
  | Js.Inherited => throw (TypeError "Cannot read property 'forEach' of undefined")
  | Js.Own granule =>
      let urls := accessURLs distEndpoint (files granule) in
      updated <- lift (updatedMetadata cmrFile urls) ;;
      let xml := buildObject updated in
      let tagsQueryString := s3TagSetToQueryString (s3Tags cmrFile) in
      match List.find (fun f => isCmrFile (Target.filename f)) (files granule) with
      | None => throw (TypeError "Cannot read property 'bucket' of undefined")
      | Some updatedCmrFile =>
          let paramsBucket := Bucket.name (Target.bucket updatedCmrFile) in
          let paramsKey := Target.filepath updatedCmrFile in
          (if Js.includes "public" (Bucket.type (Target.bucket updatedCmrFile))
           then promiseS3Upload paramsBucket paramsKey xml tagsQueryString
                                (Some "public-read")
           else promiseS3Upload paramsBucket paramsKey xml tagsQueryString None) ;;;
          old <- lift (parseS3Uri (cmr_filename cmrFile)) ;;
          deleteS3Object old.1 old.2
      end
  end.

Definition updateCmrFileAccessURLs (cmrFiles : list CmrFile)
    (granulesObject : Granules TFile) (distEndpoint : string) : Task unit :=
  promiseAll (map (updateCmrFile granulesObject distEndpoint) cmrFiles) ;;;
  ret tt.

End Catalog.

(** ** The task *)

Section TaskEntry.
Context `{Collaborators}.

#[local] Abbreviation TFile := (Target.file Bucket.t).

(** [get(object, 'duplicateHandling', defaultValue)] on an object that
    may itself be undefined. *)
Definition get_or {O} (object : option O) (field : O -> option string)
    (defaultValue : string) : string :=
  match object with
  | Some o => match field o with
              | Some v => v
              | None => defaultValue
              end
  | None => defaultValue
  end.

Definition duplicateHandlingType (event : Event) : string :=
  let config := config event in
  let collection := event_collection event in
  let duplicateHandling :=
    get_or config config_duplicateHandling
           (get_or collection collection_duplicateHandling "error") in
  match forceDuplicateOverwrite event with
  | Some true => "replace"
  | _ => duplicateHandling
  end.

(** The file as it leaves the task: only the name of its bucket. *)
Definition bucketNameOnly (f : TFile) : Target.file string :=
  {| Target.name := Target.name f;
     Target.bucket := Bucket.name (Target.bucket f);
     Target.filepath := Target.filepath f;
     Target.filename := Target.filename f;
     Target.url_path := Target.url_path f;
     Target.fileStagingDir := Target.fileStagingDir f;
     Target.duplicate_found := Target.duplicate_found f;
     Target.fileSize := Target.fileSize f |}.

(** [Object.keys(movedGranules).map(...)]; [movedGranules] is undefined
    unless it has been assigned. *)
Definition output (movedGranules : option (Granules TFile))
    : Result (list (Granule (Target.file string))) :=
  match movedGranules with
  | None => Err (TypeError "Cannot convert undefined or null to object")
  | Some granules =>
      Ok (map (fun entry : string * Granule TFile =>
                 {| granuleId := granuleId entry.2;
                    files := map bucketNameOnly (files entry.2) |})
              (Js.ownEntries granules))
  end.

Definition moveGranules (event : Event)
    : Task (list (Granule (Target.file string))) :=
  match config event with
  | None => throw (TypeError "Cannot read property 'collection' of undefined")
  | Some config =>
      let bucket := config_bucket config in
      let buckets := buckets config in
      let regex := default "(.*)" (granuleIdExtraction config) in
      let distEndpoint := distribution_endpoint config in
      let moveStagedFiles := default true (moveStagedFiles config) in
      let collection := config_collection config in
      let duplicateHandling := duplicateHandlingType event in
      let input := default [] (input event) in
      cmrFiles <- (fun w => (getCmrFiles input regex (S3.objects w), w)) ;;
      match input_granules config with
      | None => throw (TypeError "granules.forEach is not a function")
      | Some inputGranules =>
          allGranules <- lift (addInputFilesToGranules input inputGranules regex) ;;
          targetedGranules <-
            lift (updateGranuleMetadata allGranules collection cmrFiles buckets) ;;
          movedGranules <-
            (if moveStagedFiles : bool then
               movedGranules <-
                 moveFilesForAllGranules targetedGranules bucket duplicateHandling ;;
               updateCmrFileAccessURLs cmrFiles movedGranules distEndpoint ;;;
               ret (Some movedGranules)
             else ret None) ;;
          lift (output movedGranules)
      end
  end.

End TaskEntry.

(** ** The specification's reading of two choices, for comparison *)

(** The first defined candidate, otherwise the empty string. *)
Fixpoint firstDefined (candidates : list (option string)) : string :=
  match candidates with
  | [] => ""
  | Some s :: _ => s
  | None :: rest => firstDefined rest
  end.

(** The first candidate that is defined and not the empty string,
    otherwise the empty string. *)
Fixpoint firstNonEmpty (candidates : list (option string)) : string :=
  match candidates with
  | [] => ""
  | Some s :: rest => if Js.truthy s then s else firstNonEmpty rest
  | None :: rest => firstNonEmpty rest
  end.

(** The access URL the specification gives a published file: through
    the distribution endpoint when its bucket is protected, straight
    from storage otherwise. *)
Definition publishedURL `{Collaborators} (distEndpoint : string)
    (file : Target.file Bucket.t) : UrlObj :=
  if bool_decide (Bucket.type (Target.bucket file) = "protected") then
    {| URL := urljoin distEndpoint
                (urljoin (Bucket.name (Target.bucket file)) (Target.filepath file));
       URLDescription := "File to download" |}
  else
    {| URL := "https://" +:+ Bucket.name (Target.bucket file)
              +:+ ".s3.amazonaws.com/" +:+ Target.filepath file;
       URLDescription := "File to download" |}.

(** The files the specification publishes: those in protected or public
    buckets. *)
Definition isPublished (file : Target.file Bucket.t) : Prop :=
  Bucket.type (Target.bucket file) = "protected"
  \/ Bucket.type (Target.bucket file) = "public".

(** The four bucket types of the data model. *)
Definition knownBucketType (file : Target.file Bucket.t) : Prop :=
  Bucket.type (Target.bucket file) ∈ ["internal"; "private"; "protected"; "public"].

(** The value found under [OnlineAccessURLs.OnlineAccessURL] in a
    metadata granule. *)
Definition onlineAccessURL (metadataGranule : list (string * JsVal)) : option JsVal :=
  match obj_get "OnlineAccessURLs" metadataGranule with
  | Some (JObj fields) => obj_get "OnlineAccessURL" fields
  | Some (JArr _ props) => obj_get "OnlineAccessURL" props
  | _ => None
  end.

(** ** A concrete set of collaborators

    Simple stand-ins, enough to run the task on examples: patterns and
    templates without metacharacters, slash-separated paths. *)

Module Sample.

Fixpoint basename_from (acc s : string) : string :=
  match s with
  | EmptyString => acc
  | String c rest =>
      if Ascii.eqb c "/"%char then basename_from rest rest
      else basename_from acc rest
  end.

Definition basename (s : string) : string := basename_from s s.

Definition join (a b : string) : string :=
  if Js.truthy a then a +:+ "/" +:+ b else b.

Fixpoint byteSum (s : string) : N :=
  match s with
  | EmptyString => 0%N
  | String c rest => (N.of_nat (Ascii.nat_of_ascii c) + byteSum rest)%N
  end.

Fixpoint splitAtSlash (s : string) : option (string * string) :=
  match s with
  | EmptyString => None
  | String c rest =>
      if Ascii.eqb c "/"%char then Some (EmptyString, rest)
      else match splitAtSlash rest with
           | Some (b, k) => Some (String c b, k)
           | None => None
           end
  end.

Definition parseUri (uri : string) : Result S3.Loc :=
  if String.prefix "s3://" uri then
    match splitAtSlash (String.substring 5 (String.length uri - 5) uri) with
    | Some loc => Ok loc
    | None => Err (TypeError "uri must be a S3 uri")
    end
  else Err (TypeError "uri must be a S3 uri").

Fixpoint tally (n : nat) : string :=
  match n with
  | O => EmptyString
  | S m => String "I"%char (tally m)
  end.

#[export] Instance collaborators : Collaborators := {|
  regexp_match subject pattern := Js.includes pattern subject;
  unversionFilename name := name;
  urlPathTemplate template _ _ _ := Ok template;
  path_join := join;
  path_basename := basename;
  urljoin a b := a +:+ "/" +:+ b;
  cksum := byteSum;
  formatTimestamp := tally;
  getCmrFiles _ _ _ := Ok [];
  getGranuleId f _ := Ok (basename f);
  parseS3Uri := parseUri;
  buildObject _ := "<Granule/>";
  s3TagSetToQueryString _ := ""
|}.

End Sample.

(** ** Concrete inputs

    A granule file bound for a protected bucket, staged in the default
    staging directory, and a few states of the store around it. *)

Module Scenario.
Import Sample.

Definition protectedBucket : Bucket.t :=
  {| Bucket.name := "archive"; Bucket.type := "protected" |}.

Definition publicBucket : Bucket.t :=
  {| Bucket.name := "browse"; Bucket.type := "public" |}.

Definition internalBucket : Bucket.t :=
  {| Bucket.name := "system"; Bucket.type := "internal" |}.

Definition fileIn (bucket : Bucket.t) (name : string) : Target.file Bucket.t :=
  {| Target.name := name;
     Target.bucket := bucket;
     Target.filepath := "data/" +:+ name;
     Target.filename := buildS3Uri (Bucket.name bucket) ("data/" +:+ name);
     Target.url_path := None;
     Target.fileStagingDir := None;
     Target.duplicate_found := None;
     Target.fileSize := None |}.

Definition granuleFile : Target.file Bucket.t := fileIn protectedBucket "A.hdf".

Definition object (body : string) (modified : nat) : S3.Object :=
  {| S3.Body := body; S3.ACL := None; S3.LastModified := modified |}.

Definition world (entries : list (S3.Loc * S3.Object)) : S3.World :=
  {| S3.objects := list_to_map entries; S3.clock := 7; S3.requests := [] |}.

Definition destination : S3.Loc := ("archive", "data/A.hdf").
Definition stagedSource : S3.Loc := ("staging", "file-staging/A.hdf").

(** The destination holds what is staged. *)
Definition identical : S3.World :=
  world [(destination, object "same bytes" 3); (stagedSource, object "same bytes" 5)].

(** The destination holds something else. *)
Definition changed : S3.World :=
  world [(destination, object "old bytes" 3); (stagedSource, object "new bytes!" 5)].

(** The destination holds what is staged, and an earlier version of it
    was renamed in a previous run. *)
Definition identicalWithEarlierVersion : S3.World :=
  world [(destination, object "same bytes" 3);
         (("archive", "data/A.hdf.vI"), object "first bytes" 1);
         (stagedSource, object "same bytes" 5)].

(** A staged file that carries an empty [url_path] of its own, and a
    rule and a collection that both have a template. *)
Definition stagedWithEmptyPath : Staged.file :=
  {| Staged.name := "A.hdf";
     Staged.bucket := "staging";
     Staged.filename := "s3://staging/file-staging/A.hdf";
     Staged.url_path := Some "";
     Staged.fileStagingDir := None;
     Staged.duplicate_found := None;
     Staged.fileSize := None |}.

Definition hdfRule : FileSpec.t :=
  {| FileSpec.regex := "hdf";
     FileSpec.bucket := "protected";
     FileSpec.url_path := Some "by-rule" |}.

Definition collectionWithPath : Collection :=
  {| collection_files := [hdfRule];
     collection_url_path := Some "by-collection";
     collection_duplicateHandling := Some "skip" |}.

Definition bucketMap : gmap string Bucket.t :=
  {[ "protected" := protectedBucket ]}.

Definition stagedGranule : Granule Staged.file :=
  {| granuleId := "A"; files := [stagedWithEmptyPath] |}.

(** A task configuration that asks not to move the staged files; its
    collection asks for the [skip] policy and the task configuration
    itself names none. *)
Definition dryRunConfig : Config :=
  {| config_bucket := "staging";
     buckets := bucketMap;
     granuleIdExtraction := None;
     input_granules := Some [stagedGranule];
     distribution_endpoint := "https://distribution.example";
     moveStagedFiles := Some false;
     config_collection := collectionWithPath;
     config_duplicateHandling := None |}.

Definition dryRunEvent : Event :=
  {| config := Some dryRunConfig;
     event_collection := None;
     forceDuplicateOverwrite := None;
     input := Some [] |}.

(** A granule after the move: one file in each kind of bucket. *)
Definition movedFiles : list (Target.file Bucket.t) :=
  [fileIn protectedBucket "A.hdf"; fileIn publicBucket "A.jpg";
   fileIn internalBucket "A.log"].

(** A catalog file that already lies where the collection places it. *)
Definition catalogTarget : Target.file Bucket.t := fileIn protectedBucket "A.cmr.xml".

Definition catalogLocation : S3.Loc := ("archive", "data/A.cmr.xml").

Definition catalogFile : CmrFile :=
  {| cmr_filename := "s3://archive/data/A.cmr.xml";
     cmr_granuleId := "A";
     metadataObject :=
       {| Granule_ := Some [("GranuleUR", JStr "A"); ("Orderable", JStr "true")] |};
     s3Tags := [];
     metadata := None |}.

Definition movedGranules : Granules (Target.file Bucket.t) :=
  [("A", {| granuleId := "A"; files := [granuleFile; catalogTarget] |})].

Definition catalogInPlace : S3.World :=
  world [(destination, object "bytes" 3); (catalogLocation, object "<Granule/>" 4)].

(** The same task configuration with the move left on, and a store in
    which the planned destination of the staged file is taken. *)
Definition errorConfig : Config :=
  {| config_bucket := "staging";
     buckets := bucketMap;
     granuleIdExtraction := None;
     input_granules := Some [stagedGranule];
     distribution_endpoint := "https://distribution.example";
     moveStagedFiles := None;
     config_collection := collectionWithPath;
     config_duplicateHandling := Some "error" |}.

Definition errorEvent : Event :=
  {| config := Some errorConfig;
     event_collection := None;
     forceDuplicateOverwrite := None;
     input := Some [] |}.

Definition occupied : S3.World :=
  world [(("archive", "by-rule/A.hdf"), object "old bytes" 3);
         (stagedSource, object "new bytes!" 5)].

(** The same catalog file as the task receives it, and a collection
    whose rule for catalog files places them at that very location. *)
Definition stagedCatalog : Staged.file :=
  {| Staged.name := "A.cmr.xml";
     Staged.bucket := "archive";
     Staged.filename := "s3://archive/data/A.cmr.xml";
     Staged.url_path := None;
     Staged.fileStagingDir := None;
     Staged.duplicate_found := None;
     Staged.fileSize := None |}.

Definition catalogRule : FileSpec.t :=
  {| FileSpec.regex := "cmr.xml";
     FileSpec.bucket := "protected";
     FileSpec.url_path := Some "data" |}.

Definition collectionInPlace : Collection :=
  {| collection_files := [catalogRule];
     collection_url_path := None;
     collection_duplicateHandling := None |}.

End Scenario.

(** ** Further concrete inputs *)

Module Cases.
Import Sample Scenario.

(** The staged file is there and its destination is free. *)
Definition fresh : S3.World :=
  world [(stagedSource, object "new bytes!" 5);
         (("archive", "data/B.hdf"), object "other bytes" 2)].

(** The destination is taken, nothing is staged. *)
Definition unstaged : S3.World :=
  world [(destination, object "old bytes" 3)].

(** The destination holds something else than what is staged, and an
    earlier version of it was renamed in a previous run. *)
Definition changedWithEarlierVersion : S3.World :=
  world [(destination, object "old bytes" 3);
         (("archive", "data/A.hdf.vI"), object "first bytes" 1);
         (stagedSource, object "new bytes!" 5)].

(** A file that is staged where it is to be placed: its staging
    directory is the directory of its destination key. *)
Definition fileStagedInPlace : Target.file Bucket.t :=
  {| Target.name := "A.hdf";
     Target.bucket := protectedBucket;
     Target.filepath := "data/A.hdf";
     Target.filename := "s3://archive/data/A.hdf";
     Target.url_path := None;
     Target.fileStagingDir := Some "data";
     Target.duplicate_found := None;
     Target.fileSize := None |}.

Definition stagedInPlace : S3.World :=
  world [(destination, object "same bytes" 3)].

(** A file that is staged under the key its destination's current
    object would be renamed to. *)
Definition fileStagedAsVersion : Target.file Bucket.t :=
  {| Target.name := "A.hdf.vIII";
     Target.bucket := protectedBucket;
     Target.filepath := "data/A.hdf";
     Target.filename := "s3://archive/data/A.hdf";
     Target.url_path := None;
     Target.fileStagingDir := Some "data";
     Target.duplicate_found := None;
     Target.fileSize := None |}.

Definition stagedAsVersion : S3.World :=
  world [(destination, object "old bytes" 3);
         (("archive", "data/A.hdf.vIII"), object "new bytes!" 5)].

Definition bystander : S3.Loc := ("archive", "data/B.hdf").

(** A collision between differing contents, next to an unrelated object. *)
Definition changedWithBystander : S3.World :=
  world [(destination, object "old bytes" 3);
         (stagedSource, object "new bytes!" 5);
         (bystander, object "other bytes" 2)].

(** A roster with one granule and no file, and a staged file for it. *)
Definition emptyGranule : Granule Staged.file :=
  {| granuleId := "B.hdf"; files := [] |}.

Definition stagedUri : string := "s3://staging/file-staging/B.hdf".

Definition stagedObject : Staged.file :=
  {| Staged.name := "B.hdf";
     Staged.bucket := "staging";
     Staged.filename := stagedUri;
     Staged.url_path := None;
     Staged.fileStagingDir := None;
     Staged.duplicate_found := None;
     Staged.fileSize := None |}.

(** A second staged file for the granule of [Scenario.stagedGranule]. *)
Definition extraUri : string := "s3://staging/file-staging/A".

Definition extraObject : Staged.file :=
  {| Staged.name := "A";
     Staged.bucket := "staging";
     Staged.filename := extraUri;
     Staged.url_path := None;
     Staged.fileStagingDir := None;
     Staged.duplicate_found := None;
     Staged.fileSize := None |}.

(** A roster whose granule ids are numerals, one of them twice, and no
    file to move. *)
Definition numberedConfig : Config :=
  {| config_bucket := "staging";
     buckets := bucketMap;
     granuleIdExtraction := None;
     input_granules :=
       Some [{| granuleId := "10"; files := [] |};
             {| granuleId := "9"; files := [] |};
             {| granuleId := "10"; files := [] |}];
     distribution_endpoint := "https://distribution.example";
     moveStagedFiles := None;
     config_collection := collectionWithPath;
     config_duplicateHandling := None |}.

Definition numberedEvent : Event :=
  {| config := Some numberedConfig;
     event_collection := None;
     forceDuplicateOverwrite := None;
     input := Some [] |}.

(** The plan for the roster of [Scenario.stagedGranule]. *)
Definition plannedFile : Target.file Bucket.t :=
  destinationOf stagedWithEmptyPath protectedBucket "by-rule".

Definition plannedGranules : Granules (Target.file Bucket.t) :=
  [("A", {| granuleId := "A"; files := [plannedFile] |})].

(** A rule whose bucket key names no bucket of [Scenario.bucketMap] but
    a method every object has, and a collection with that rule. *)
Definition ruleIntoToString : FileSpec.t :=
  {| FileSpec.regex := "hdf";
     FileSpec.bucket := "toString";
     FileSpec.url_path := Some "by-rule" |}.

Definition collectionIntoToString : Collection :=
  {| collection_files := [ruleIntoToString];
     collection_url_path := None;
     collection_duplicateHandling := None |}.

(** A collection without any rule. *)
Definition collectionWithoutRules : Collection :=
  {| collection_files := [];
     collection_url_path := None;
     collection_duplicateHandling := None |}.

Definition unplannableConfig : Config :=
  {| config_bucket := "staging";
     buckets := bucketMap;
     granuleIdExtraction := None;
     input_granules := Some [stagedGranule];
     distribution_endpoint := "https://distribution.example";
     moveStagedFiles := None;
     config_collection := collectionWithoutRules;
     config_duplicateHandling := None |}.

Definition unplannableEvent : Event :=
  {| config := Some unplannableConfig;
     event_collection := None;
     forceDuplicateOverwrite := None;
     input := Some [] |}.

(** A catalog file whose metadata has nothing to anchor the access URLs
    on, and one whose own URI is not an S3 URI. *)
Definition catalogFileBare : CmrFile :=
  {| cmr_filename := "s3://staging/file-staging/A.cmr.xml";
     cmr_granuleId := "A";
     metadataObject := {| Granule_ := Some [("GranuleUR", JStr "A")] |};
     s3Tags := [];
     metadata := None |}.

Definition catalogFileAstray : CmrFile :=
  {| cmr_filename := "A.cmr.xml";
     cmr_granuleId := "A";
     metadataObject :=
       {| Granule_ := Some [("GranuleUR", JStr "A"); ("Orderable", JStr "true")] |};
     s3Tags := [];
     metadata := None |}.

(** The metadata of [Scenario.catalogFile] after the splice. *)
Definition splicedGranule : list (string * JsVal) :=
  [("GranuleUR", JStr "A");
   ("OnlineAccessURLs",
    JObj [("OnlineAccessURL",
           JArr [urlValue {| URL := "https://distribution.example/archive/data/A.hdf";
                             URLDescription := "File to download" |}]
                [])]);
   ("Orderable", JStr "true")].

End Cases.

(** ** Notions used in the statements *)

(** A computation leaves alone every object whose location satisfies [P]. *)
Definition leavesAlone {A} (P : S3.Loc -> Prop) (m : Task A) : Prop :=
  forall w loc, P loc -> S3.objects (m w).2 !! loc = S3.objects w !! loc.

(** The locations one placement may write: the staged source, the
    destination and the destination's renamed siblings. *)
Definition writableBy `{Collaborators} (file : Target.file Bucket.t)
    (sourceBucket : string) (loc : S3.Loc) : Prop :=
  loc = sourceOf file sourceBucket
  \/ loc = targetOf file
  \/ (loc.1 = (targetOf file).1
      /\ String.prefix (versionPrefix (targetOf file).2) loc.2 = true).

(** What the descriptor of a renamed sibling of [file] looks like in a
    store: it sits in the file's bucket under a key that extends the
    destination key by the version marker, names an object of the store
    and carries its size. *)
Definition describesSibling `{Collaborators} (file : Target.file Bucket.t)
    (store : gmap S3.Loc S3.Object) (f : Target.file Bucket.t) : Prop :=
  Target.bucket f = Target.bucket file
  /\ Target.url_path f = Target.url_path file
  /\ String.prefix (versionPrefix (Target.filepath file)) (Target.filepath f) = true
  /\ Target.name f = path_basename (Target.filepath f)
  /\ Target.filename f
     = buildS3Uri (Bucket.name (Target.bucket file)) (Target.filepath f)
  /\ exists o, store !! (Bucket.name (Target.bucket file), Target.filepath f) = Some o
              /\ Target.fileSize f = Some (String.length (S3.Body o)).

(** [cmrMetadata: cmrFile ? cmrFile.metadataObject : {}], the catalog
    metadata a path template is expanded against for the granule [id]. *)
Definition cmrMetadata (cmrFiles : list CmrFile) (id : string) : Metadata :=
  match List.find (fun f => bool_decide (cmr_granuleId f = id)) cmrFiles with
  | Some c => metadataObject c
  | None => noMetadata
  end.

(** A granules object is keyed by id when no key occurs twice and every
    granule sits under its own [granuleId]. *)
Definition keyedById {F} (granulesObject : Granules F) : Prop :=
  NoDup (map fst granulesObject)
  /\ Forall (fun entry => granuleId entry.2 = entry.1) granulesObject.

(** The staged URIs the second loop of [addInputFilesToGranules] passes
    over: the empty string and the file names of the roster. *)
Definition passedOver (granules : list (Granule Staged.file)) (f : string) : Prop :=
  f = ""
  \/ exists g file, g ∈ granules /\ file ∈ files g /\ Staged.filename file = f.

(** What the two loops of [addInputFilesToGranules] do, said from the
    roster alone.  The granule found under [id] after the first loop is
    the last granule of the roster with that id, and the id recorded for
    a file name is that of the last granule listing the name. *)
Definition rosterGranule (granules : list (Granule Staged.file)) (id : string)
    : option (Granule Staged.file) :=
  last (filter (fun g => granuleId g = id) granules).

Definition recordedId (granules : list (Granule Staged.file)) (f : string)
    : option string :=
  granuleId <$> last (filter (fun g => f ∈ map Staged.filename (files g)) granules).

(** The staged URIs the second loop skips: the empty string, a name the
    roster lists for a granule with a non-empty id, and, when the roster
    does not list them, the names every object inherits. *)
Definition skipped (granules : list (Granule Staged.file)) (f : string) : bool :=
  negb (Js.truthy f)
  || bool_decide (f = "__proto__")
  || match recordedId granules f with
     | Some id => Js.truthy id
     | None => Js.inherited f
     end.

(** The file objects the second loop adds to the granule [id]: one for
    each staged URI that is not skipped and whose extracted granule id
    is [id], in the order of the input. *)
Definition additions `{Collaborators} (input : list string)
    (granules : list (Granule Staged.file)) (regex id : string) : list Staged.file :=
  omap (fun uri =>
          if skipped granules uri then None
          else match getGranuleId uri regex, fileObjectFromS3URI uri with
               | Ok id', Ok fileObject =>
                   if bool_decide (id' = id) then Some fileObject else None
               | _, _ => None
               end)
       input.

(** Entries in ascending order of their array index. *)
Definition byIndex {A} (a b : string * A) : Prop := (Js.indexOf a <= Js.indexOf b)%N.

(** The distinct ids of a list, each at its first occurrence. *)
Fixpoint firstSeen (ids : list string) : list string :=
  match ids with
  | [] => []
  | id :: rest => id :: filter (fun other => other <> id) (firstSeen rest)
  end.

(** A string mentions a literal when the literal occurs in it. *)
Definition mentions (lit s : string) : Prop := exists a b, s = a +:+ lit +:+ b.

(** The descriptor a placement of [file] returns for a renamed sibling,
    whatever the store holds: the bucket and [url_path] of the file, a
    key that extends the destination key by the version marker, the name
    and the URI made from that key, a size, and neither a staging
    directory nor a duplicate flag. *)
Definition siblingOf `{Collaborators} (file f : Target.file Bucket.t) : Prop :=
  Target.bucket f = Target.bucket file
  /\ Target.url_path f = Target.url_path file
  /\ String.prefix (versionPrefix (Target.filepath file)) (Target.filepath f) = true
  /\ Target.name f = path_basename (Target.filepath f)
  /\ Target.filename f
     = buildS3Uri (Bucket.name (Target.bucket file)) (Target.filepath f)
  /\ Target.fileStagingDir f = None
  /\ Target.duplicate_found f = None
  /\ is_Some (Target.fileSize f).

(** What the placement of [file] contributes to its granule's new file
    list: the file itself without its staging directory, flagged or not,
    and then, under the [version] policy only, descriptors of renamed
    siblings. *)
Definition placedFor `{Collaborators} (duplicateHandling : string)
    (file : Target.file Bucket.t) (chunk : list (Target.file Bucket.t)) : Prop :=
  exists fileMoved extras,
    chunk = fileMoved :: extras
    /\ (fileMoved = withoutStagingDir file \/ fileMoved = duplicateOf file)
    /\ (duplicateHandling <> "version" -> extras = [])
    /\ Forall (siblingOf file) extras.

(** [moved] is [entry] after the move: same key and id, the
    contributions of the files that are not catalog files in their
    order, then the catalog files as they were. *)
Definition movedGranule `{Collaborators} (duplicateHandling : string)
    (entry moved : string * Granule (Target.file Bucket.t)) : Prop :=
  moved.1 = entry.1
  /\ granuleId moved.2 = granuleId entry.2
  /\ exists chunks,
      files moved.2
      = (concat chunks
           ++ filter (fun file => isCmrFile (Target.name file) = true) (files entry.2))%list
      /\ Forall2 (placedFor duplicateHandling)
                 (filter (fun file => negb (isCmrFile (Target.name file)) = true)
                         (files entry.2))
                 chunks.

(** The errors a placement of [file] throws: [DuplicateFile] with the
    destination key and bucket of the file, under the [error] policy
    only, and the storage's error for an object that is not there. *)
Definition placementError (duplicateHandling : string) (file : Target.file Bucket.t)
    (e : Error) : Prop :=
  (duplicateHandling = "error"
   /\ e = DuplicateFile (Target.filepath file +:+ " already exists in "
                         +:+ Bucket.name (Target.bucket file) +:+ " bucket"))
  \/ e = StorageError "NoSuchKey".

(** [targeted] is [file] with its destination: the fields of the file
    kept, the key made of the expansion of the file's path template
    joined with the name, the URI made of the bucket name and the key;
    the bucket is the one the bucket map holds under the key of the
    single matching rule or, when it holds none and the key is a name
    every object inherits, a bucket named after what is inherited. *)
Definition plannedFile `{Collaborators} (collection : Collection)
    (cmrFiles : list CmrFile) (buckets : gmap string Bucket.t)
    (id : string) (granule : Granule Staged.file) (file : Staged.file)
    (targeted : Target.file Bucket.t) : Prop :=
  Target.name targeted = Staged.name file
  /\ Target.url_path targeted = Staged.url_path file
  /\ Target.fileStagingDir targeted = Staged.fileStagingDir file
  /\ Target.duplicate_found targeted = Staged.duplicate_found file
  /\ Target.fileSize targeted = Staged.fileSize file
  /\ exists cf urlPath,
      matching (collection_files collection) file = [cf]
      /\ urlPathTemplate (URLPathTemplate file cf collection) file granule
                         (cmrMetadata cmrFiles id) = Ok urlPath
      /\ Target.filepath targeted = path_join urlPath (Staged.name file)
      /\ Target.filename targeted
         = "s3://" +:+ path_join (Bucket.name (Target.bucket targeted))
                                (Target.filepath targeted)
      /\ match buckets !! FileSpec.bucket cf with
         | Some bucket => Target.bucket targeted = bucket
         | None =>
             Js.inherited (FileSpec.bucket cf) = true
             /\ Js.inheritedValueName (FileSpec.bucket cf)
                = Some (Bucket.name (Target.bucket targeted))
         end.

(** [target] is [entry] planned: same key and id, file by file. *)
Definition plannedGranule `{Collaborators} (collection : Collection)
    (cmrFiles : list CmrFile) (buckets : gmap string Bucket.t)
    (entry : string * Granule Staged.file)
    (target : string * Granule (Target.file Bucket.t)) : Prop :=
  target.1 = entry.1
  /\ granuleId target.2 = granuleId entry.2
  /\ Forall2 (plannedFile collection cmrFiles buckets entry.1 entry.2)
             (files entry.2) (files target.2).

(** * Properties *)

(** ** Strings *)

Lemma prefix_append (p s : string) : String.prefix p (p +:+ s) = true.
Proof.
  induction p as [|c p IH]; simpl.
  - destruct s; reflexivity.
  - destruct (ascii_dec c c); [exact IH | congruence].
Qed.

Lemma prefix_length (p s : string) :
  String.prefix p s = true -> String.length p <= String.length s.
Proof.
  revert p. induction s as [|b s IH]; intros [|a p]; simpl; intros Hp;
    try lia; try discriminate.
  destruct (ascii_dec a b); [|discriminate].
  apply IH in Hp. lia.
Qed.

Lemma length_append (s t : string) :
  String.length (s +:+ t) = String.length s + String.length t.
Proof. induction s as [|c s IH]; simpl; [reflexivity | now rewrite IH]. Qed.

Lemma versionPrefix_longer (key : string) :
  String.prefix (versionPrefix key) key = false.
Proof.
  destruct (String.prefix (versionPrefix key) key) eqn:Hp; [|reflexivity].
  apply prefix_length in Hp. unfold versionPrefix in Hp.
  rewrite length_append in Hp. simpl in Hp. lia.
Qed.

(** ** The task monad *)

Lemma bind_ok {A B} (m : Task A) (k : A -> Task B) w a w1 :
  m w = (Ok a, w1) -> bind m k w = k a w1.
Proof. unfold bind. now intros ->. Qed.

(** ** The order in which a plain object is walked *)

Lemma insertByIndex_perm {A} (entry : string * A) sorted :
  Js.insertByIndex entry sorted ≡ₚ entry :: sorted.
Proof.
  induction sorted as [|next rest IH]; cbn [Js.insertByIndex]; [reflexivity|].
  destruct (Js.indexOf entry <=? Js.indexOf next)%N; [reflexivity|].
  rewrite IH. apply Permutation_swap.
Qed.

Lemma sortByIndex_perm {A} (entries : list (string * A)) :
  Js.sortByIndex entries ≡ₚ entries.
Proof.
  induction entries as [|entry rest IH]; cbn [Js.sortByIndex foldr]; [reflexivity|].
  fold (Js.sortByIndex rest). now rewrite insertByIndex_perm, IH.
Qed.

Lemma elem_of_ownEntries {A} (entry : string * A) o :
  entry ∈ Js.ownEntries o <-> entry ∈ o.
Proof.
  unfold Js.ownEntries.
  rewrite elem_of_app, sortByIndex_perm, !list_elem_of_filter.
  split.
  - intros [[_ Hin] | [_ Hin]]; exact Hin.
  - intros Hin. destruct (Js.arrayIndex entry.1) eqn:Hindex.
    + left. split; [now eexists | exact Hin].
    + right. split; [reflexivity | exact Hin].
Qed.

Lemma ownEntries_singleton {A} (entry : string * A) : Js.ownEntries [entry] = [entry].
Proof.
  unfold Js.ownEntries. rewrite !filter_cons, !filter_nil.
  destruct (Js.arrayIndex entry.1) eqn:Hindex.
  - rewrite decide_True by (now eexists). rewrite decide_False by discriminate.
    reflexivity.
  - rewrite decide_False by (intros [? ?]; discriminate).
    rewrite decide_True by reflexivity. reflexivity.
Qed.

(** The entries that are array indices come out sorted, so walking the
    result of a walk changes nothing; and the order depends on the keys
    alone. *)
Lemma insertByIndex_sorted {A} (entry : string * A) sorted :
  StronglySorted byIndex sorted ->
  StronglySorted byIndex (Js.insertByIndex entry sorted).
Proof.
  induction 1 as [|next rest Hrest IH Hnext]; cbn [Js.insertByIndex].
  - repeat constructor.
  - destruct (Js.indexOf entry <=? Js.indexOf next)%N eqn:Hle.
    + apply N.leb_le in Hle. constructor; [now constructor|].
      constructor; [exact Hle|].
      eapply Forall_impl; [exact Hnext|]. unfold byIndex. intros; lia.
    + apply N.leb_gt in Hle. constructor; [exact IH|].
      rewrite insertByIndex_perm. constructor; [unfold byIndex; lia | exact Hnext].
Qed.

Lemma sortByIndex_sorted {A} (entries : list (string * A)) :
  StronglySorted byIndex (Js.sortByIndex entries).
Proof.
  induction entries as [|entry rest IH]; cbn [Js.sortByIndex foldr]; [constructor|].
  now apply insertByIndex_sorted.
Qed.

Lemma sortByIndex_of_sorted {A} (entries : list (string * A)) :
  StronglySorted byIndex entries -> Js.sortByIndex entries = entries.
Proof.
  induction 1 as [|entry rest Hrest IH Hentry]; [reflexivity|].
  cbn [Js.sortByIndex foldr]. fold (Js.sortByIndex rest). rewrite IH.
  destruct Hentry as [|next rest' Hnext _]; [reflexivity|].
  cbn [Js.insertByIndex]. now rewrite (proj2 (N.leb_le _ _) Hnext).
Qed.

Lemma filter_all {A} (P : A -> Prop) `{!forall x, Decision (P x)} (l : list A) :
  Forall P l -> filter P l = l.
Proof.
  induction 1 as [|x l Hx _ IH]; [reflexivity|].
  now rewrite filter_cons_True, IH.
Qed.

Lemma filter_none {A} (P : A -> Prop) `{!forall x, Decision (P x)} (l : list A) :
  Forall (fun x => ~ P x) l -> filter P l = [].
Proof.
  induction 1 as [|x l Hx _ IH]; [reflexivity|].
  now rewrite filter_cons_False.
Qed.

Lemma ownEntries_idemp {A} (o : list (string * A)) :
  Js.ownEntries (Js.ownEntries o) = Js.ownEntries o.
Proof.
  unfold Js.ownEntries.
  set (indexed := Js.sortByIndex (filter (fun entry => is_Some (Js.arrayIndex entry.1)) o)).
  set (others := filter (fun entry : string * A => Js.arrayIndex entry.1 = None) o).
  assert (Hindexed : Forall (fun entry : string * A => is_Some (Js.arrayIndex entry.1)) indexed).
  { unfold indexed. rewrite sortByIndex_perm. apply Forall_forall.
    now intros entry [? _]%list_elem_of_filter. }
  assert (Hothers : Forall (fun entry : string * A => Js.arrayIndex entry.1 = None) others).
  { apply Forall_forall. now intros entry [? _]%list_elem_of_filter. }
  rewrite !filter_app.
  rewrite (filter_all _ indexed Hindexed).
  rewrite (filter_none (fun entry : string * A => is_Some (Js.arrayIndex entry.1)) others).
  2:{ eapply Forall_impl; [exact Hothers|]. cbn. intros entry -> [? ?]. discriminate. }
  rewrite (filter_none (fun entry : string * A => Js.arrayIndex entry.1 = None) indexed).
  2:{ eapply Forall_impl; [exact Hindexed|]. cbn. intros entry [? Hsome] Hnone. congruence. }
  rewrite (filter_all _ others Hothers).
  rewrite app_nil_r. cbn [app].
  now rewrite (sortByIndex_of_sorted indexed (sortByIndex_sorted _)).
Qed.

Lemma insertByIndex_map {A B} (h : string * A -> string * B) entry sorted :
  (forall e, (h e).1 = e.1) ->
  Js.insertByIndex (h entry) (map h sorted) = map h (Js.insertByIndex entry sorted).
Proof.
  intros Hh. induction sorted as [|next rest IH]; cbn [Js.insertByIndex map]; [reflexivity|].
  unfold Js.indexOf. rewrite !Hh.
  destruct (_ <=? _)%N; [reflexivity|].
  cbn [map]. now rewrite <- IH.
Qed.

Lemma ownEntries_map {A B} (h : string * A -> string * B) o :
  (forall e, (h e).1 = e.1) ->
  Js.ownEntries (map h o) = map h (Js.ownEntries o).
Proof.
  intros Hh. unfold Js.ownEntries. rewrite map_app. f_equal.
  - induction o as [|entry rest IH]; [reflexivity|].
    cbn [map]. rewrite !filter_cons, Hh.
    destruct (decide (is_Some (Js.arrayIndex entry.1))); [|exact IH].
    cbn [Js.sortByIndex foldr map].
    fold (Js.sortByIndex (filter (fun entry : string * B => is_Some (Js.arrayIndex entry.1)) (map h rest))).
    fold (Js.sortByIndex (filter (fun entry : string * A => is_Some (Js.arrayIndex entry.1)) rest)).
    rewrite IH. now apply insertByIndex_map.
  - induction o as [|entry rest IH]; [reflexivity|].
    cbn [map]. rewrite !filter_cons, Hh.
    destruct (decide (Js.arrayIndex entry.1 = None)); [|exact IH].
    cbn [map]. now rewrite IH.
Qed.

Lemma ownEntries_perm {A} (o : list (string * A)) : Js.ownEntries o ≡ₚ o.
Proof.
  unfold Js.ownEntries. rewrite sortByIndex_perm.
  rewrite (list_filter_iff (fun entry : string * A => Js.arrayIndex entry.1 = None)
             (fun entry => ~ is_Some (Js.arrayIndex entry.1))).
  - apply filter_app_complement.
  - intros entry. rewrite <- eq_None_not_Some. reflexivity.
Qed.

Lemma ownKeys_perm keys : Js.ownKeys keys ≡ₚ keys.
Proof.
  unfold Js.ownKeys. rewrite ownEntries_perm, map_map. cbn [fst]. now rewrite map_id.
Qed.

Lemma ownEntries_keys {A} (o : list (string * A)) :
  map fst (Js.ownEntries o) = Js.ownKeys (map fst o).
Proof.
  unfold Js.ownKeys. rewrite map_map.
  rewrite (ownEntries_map (fun e : string * A => (e.1, tt)) o) by reflexivity.
  now rewrite map_map.
Qed.

Lemma ownKeys_idemp keys : Js.ownKeys (Js.ownKeys keys) = Js.ownKeys keys.
Proof.
  unfold Js.ownKeys at 1 2. rewrite map_map.
  replace (map (fun e : string * unit => (e.1, tt)) (Js.ownEntries (map (fun key => (key, tt)) keys)))
    with (Js.ownEntries (map (fun key : string => (key, tt)) keys)).
  - now rewrite ownEntries_idemp.
  - rewrite <- (map_id (Js.ownEntries _)) at 1. apply map_ext. now intros [k []].
Qed.

(** ** Placing one file *)

Section MoveFacts.
Context `{Collaborators}.

#[local] Abbreviation TFile := (Target.file Bucket.t).

Lemma s3ObjectExists_present w target o :
  S3.objects w !! target = Some o -> s3ObjectExists target w = (Ok true, w).
Proof.
  intros Ho. unfold s3ObjectExists.
  rewrite bool_decide_eq_true_2; [reflexivity | now exists o].
Qed.

Lemma duplicateOf_flag file : Target.duplicate_found (duplicateOf file) = Some true.
Proof. reflexivity. Qed.

Lemma moveFileRequest_error file sourceBucket w o :
  S3.objects w !! targetOf file = Some o ->
  moveFileRequest file sourceBucket "error" w
  = (Err (DuplicateFile (Target.filepath file +:+ " already exists in "
                         +:+ Bucket.name (Target.bucket file) +:+ " bucket")), w).
Proof.
  intros Ho. unfold moveFileRequest.
  rewrite (bind_ok _ _ _ _ _ (s3ObjectExists_present _ _ _ Ho)).
  reflexivity.
Qed.

Lemma moveFileRequest_skip file sourceBucket w o :
  S3.objects w !! targetOf file = Some o ->
  moveFileRequest file sourceBucket "skip" w = (Ok [duplicateOf file], w).
Proof.
  intros Ho. unfold moveFileRequest.
  rewrite (bind_ok _ _ _ _ _ (s3ObjectExists_present _ _ _ Ho)).
  reflexivity.
Qed.

Ltac enter_version Ht :=
  unfold moveFileRequest;
  rewrite (bind_ok _ _ _ _ _ (s3ObjectExists_present _ _ _ Ht));
  change (bool_decide ("version" = "error")) with false;
  change (bool_decide ("version" = "skip")) with false;
  change (bool_decide ("version" = "version")) with true;
  cbn [andb]; unfold bind, checksumS3Objects.

Lemma moveFileRequest_version_same file sourceBucket w existing staged :
  S3.objects w !! targetOf file = Some existing ->
  S3.objects w !! sourceOf file sourceBucket = Some staged ->
  cksum (S3.Body existing) = cksum (S3.Body staged) ->
  moveFileRequest file sourceBucket "version" w
  = (Ok (versionedFiles file (delete (sourceOf file sourceBucket) (S3.objects w))),
     discardedWorld file sourceBucket w).
Proof.
  intros Ht Hs Hsum. enter_version Ht.
  unfold discardedWorld, versionedFiles, sourceOf, targetOf in *. cbn [fst snd].
  rewrite Ht, Hs, Hsum, N.eqb_refl.
  reflexivity.
Qed.

Lemma moveFileRequest_version_differ file sourceBucket w existing staged :
  S3.objects w !! targetOf file = Some existing ->
  S3.objects w !! sourceOf file sourceBucket = Some staged ->
  cksum (S3.Body existing) <> cksum (S3.Body staged) ->
  sourceOf file sourceBucket
    <> ((targetOf file).1, renamedKey (targetOf file).2 existing) ->
  moveFileRequest file sourceBucket "version" w
  = (Ok (versionedFiles file (versionedStore file sourceBucket existing staged w)),
     versionedWorld file sourceBucket existing staged w).
Proof.
  intros Ht Hs Hsum Hfresh.
  assert (Hne : sourceOf file sourceBucket <> targetOf file).
  { intros Heq. rewrite Heq in Hs. congruence. }
  enter_version Ht.
  unfold versionedWorld, versionedStore, versionedFiles, sourceOf, targetOf in *.
  cbn [fst snd] in *.
  rewrite Ht, Hs, (proj2 (N.eqb_neq _ _) Hsum).
  unfold renameS3FileWithTimestamp, moveGranuleFile. rewrite Ht. cbn [S3.objects].
  rewrite lookup_delete_ne by congruence.
  rewrite lookup_insert_ne by congruence.
  rewrite Hs. reflexivity.
Qed.

(** *** Renamed siblings *)

Lemma target_not_sibling (bucket key : string) (o : S3.Object) :
  ~ isRenamedOf bucket key ((bucket, key), o).
Proof.
  unfold isRenamedOf. cbn [fst snd]. rewrite versionPrefix_longer.
  intros [_ Hp]. discriminate.
Qed.

Lemma renamed_is_sibling (bucket key : string) (existing o : S3.Object) :
  isRenamedOf bucket key ((bucket, renamedKey key existing), o).
Proof.
  unfold isRenamedOf, renamedKey. cbn [fst snd]. split; [reflexivity|].
  apply prefix_append.
Qed.

Lemma renamedKey_fresh (bucket key : string) (existing : S3.Object) :
  (bucket, renamedKey key existing) <> (bucket, key).
Proof.
  intros Heq.
  apply (target_not_sibling bucket key existing).
  rewrite <- Heq at 1. apply renamed_is_sibling.
Qed.

(** *** Every outcome of a placement onto an existing destination *)

Lemma moveFileRequest_returns_duplicate file sourceBucket duplicateHandling w existing moved w' :
  S3.objects w !! targetOf file = Some existing ->
  moveFileRequest file sourceBucket duplicateHandling w = (Ok moved, w') ->
  exists extras, moved = duplicateOf file :: extras.
Proof.
  intros Ht. unfold moveFileRequest.
  rewrite (bind_ok _ _ _ _ _ (s3ObjectExists_present _ _ _ Ht)).
  cbn [andb].
  destruct (bool_decide (duplicateHandling = "error")); [discriminate|].
  destruct (bool_decide (duplicateHandling = "skip")).
  { intros [= <- <-]. now exists []. }
  unfold bind at 1.
  match goal with |- context [let (_, _) := ?m w in _] => destruct (m w) as [[[]|e] w1] end;
    [|discriminate].
  unfold bind, ret.
  match goal with |- context [let (_, _) := ?m w1 in _] => destruct (m w1) as [[listed|e] w2] end;
    [|discriminate].
  intros [= <- <-]. now eexists.
Qed.

Lemma moveGranuleFile_present source target options w staged :
  S3.objects w !! source = Some staged ->
  exists w', moveGranuleFile source target options w = (Ok tt, w').
Proof. intros Hs. unfold moveGranuleFile. rewrite Hs. now eexists. Qed.

Lemma moveFileRequest_succeeds file sourceBucket duplicateHandling w existing staged :
  S3.objects w !! targetOf file = Some existing ->
  S3.objects w !! sourceOf file sourceBucket = Some staged ->
  duplicateHandling <> "error" ->
  exists moved w', moveFileRequest file sourceBucket duplicateHandling w = (Ok moved, w').
Proof.
  intros Ht Hs Hpolicy. unfold moveFileRequest.
  rewrite (bind_ok _ _ _ _ _ (s3ObjectExists_present _ _ _ Ht)).
  cbn [andb].
  rewrite (bool_decide_eq_false_2 _ Hpolicy).
  destruct (bool_decide (duplicateHandling = "skip")); [now eexists _, _|].
  destruct (bool_decide (duplicateHandling = "version")).
  - unfold bind, checksumS3Objects, ret, getRenamedS3File.
    unfold sourceOf, targetOf in *. cbn [fst snd] in *.
    rewrite Ht, Hs.
    destruct (N.eqb _ _) eqn:Hsum.
    + unfold deleteS3Object. now eexists _, _.
    + unfold renameS3FileWithTimestamp, moveGranuleFile. rewrite Ht. cbn [S3.objects].
      assert (Hne : (sourceBucket,
                     Js.or_else (Target.fileStagingDir file) "file-staging"
                       +:+ "/" +:+ Target.name file)
                    <> (Bucket.name (Target.bucket file), Target.filepath file)).
      { intros Heq. rewrite Heq in Hs. apply N.eqb_neq in Hsum. congruence. }
      rewrite lookup_delete_ne by congruence.
      rewrite lookup_insert. case_decide.
      * now eexists _, _.
      * rewrite Hs. now eexists _, _.
  - unfold bind, ret.
    destruct (moveGranuleFile_present _ (targetOf file)
                (if Js.includes "public" (Bucket.type (Target.bucket file))
                 then Some "public-read" else None) _ _ Hs) as [w1 ->].
    now eexists _, _.
Qed.

(** *** The four policies on an existing destination *)

Lemma siblings_of_versioned file sourceBucket existing staged w :
  sourceOf file sourceBucket
    <> ((targetOf file).1, renamedKey (targetOf file).2 existing) ->
  siblings (targetOf file).1 (targetOf file).2
           (versionedStore file sourceBucket existing staged w)
  = <[((targetOf file).1, renamedKey (targetOf file).2 existing)
      := {| S3.Body := S3.Body existing; S3.ACL := None;
            S3.LastModified := S3.clock w |}]>
      (delete (sourceOf file sourceBucket)
              (siblings (targetOf file).1 (targetOf file).2 (S3.objects w))).
Proof.
  intros Hfresh.
  unfold versionedStore, siblings in *.
  destruct (targetOf file) as [bucket key] eqn:Htarget. cbn [fst snd] in *.
  pose proof (renamedKey_fresh bucket key existing) as Hrenamed.
  rewrite map_filter_delete.
  rewrite map_filter_insert_False by apply target_not_sibling.
  rewrite !map_filter_delete.
  rewrite map_filter_insert_True by apply renamed_is_sibling.
  rewrite delete_delete_eq.
  rewrite (delete_id _ (bucket, key)).
  2:{ rewrite lookup_insert_ne by congruence.
      apply map_lookup_filter_None_2. right. intros o _. apply target_not_sibling. }
  now apply delete_insert_ne.
Qed.

(** C1, as amended.  Under the [version] policy, with the destination
    already there, what is returned is the placed file, flagged as a
    duplicate, and one extra file for each object then found in the
    destination bucket under a key that extends the destination key by
    the version marker.  When the two checksums agree the staged source
    is deleted and nothing else in the store changes, so the destination
    object is untouched unless it is the staged source itself; the
    objects under such keys are those that were there before, the staged
    source aside: no extra file when there was none.  When the checksums
    differ and the staged source does not lie under the key the existing
    object is renamed to, the existing object reappears under that key,
    the destination key holds the staged content (which is not the old
    content), the staged source is gone, and the objects under such keys
    are those that were there before, the staged source aside, and the
    renamed original: exactly one extra file, the renamed original, when
    there was none. *)
Theorem version_policy_checksum_semantics file sourceBucket w existing staged :
  S3.objects w !! targetOf file = Some existing ->
  S3.objects w !! sourceOf file sourceBucket = Some staged ->
  let earlier :=
    delete (sourceOf file sourceBucket)
           (siblings (targetOf file).1 (targetOf file).2 (S3.objects w)) in
  (cksum (S3.Body existing) = cksum (S3.Body staged) ->
   exists w',
     moveFileRequest file sourceBucket "version" w
     = (Ok (versionedFiles file (S3.objects w')), w')
     /\ S3.objects w' = delete (sourceOf file sourceBucket) (S3.objects w)
     /\ S3.objects w' !! sourceOf file sourceBucket = None
     /\ (sourceOf file sourceBucket <> targetOf file ->
         S3.objects w' !! targetOf file = Some existing)
     /\ siblings (targetOf file).1 (targetOf file).2 (S3.objects w') = earlier
     /\ (earlier = ∅ -> versionedFiles file (S3.objects w') = [duplicateOf file]))
  /\ (cksum (S3.Body existing) <> cksum (S3.Body staged) ->
      let renamed := ((targetOf file).1, renamedKey (targetOf file).2 existing) in
      sourceOf file sourceBucket <> renamed ->
      exists w',
        moveFileRequest file sourceBucket "version" w
        = (Ok (versionedFiles file (S3.objects w')), w')
        /\ S3.Body <$> S3.objects w' !! renamed = Some (S3.Body existing)
        /\ S3.Body <$> S3.objects w' !! targetOf file = Some (S3.Body staged)
        /\ S3.Body staged <> S3.Body existing
        /\ S3.objects w' !! sourceOf file sourceBucket = None
        /\ siblings (targetOf file).1 (targetOf file).2 (S3.objects w')
           = <[renamed := {| S3.Body := S3.Body existing; S3.ACL := None;
                             S3.LastModified := S3.clock w |}]> earlier
        /\ (earlier = ∅ ->
            versionedFiles file (S3.objects w')
            = [duplicateOf file;
               renamedFile file
                 {| Listed_Bucket := renamed.1;
                    Listed_Key := renamed.2;
                    Listed_fileSize := String.length (S3.Body existing) |}])).
Proof.
  intros Ht Hs earlier. split.
  - intros Hsum. exists (discardedWorld file sourceBucket w).
    rewrite (moveFileRequest_version_same _ _ _ _ _ Ht Hs Hsum).
    cbn [S3.objects discardedWorld].
    assert (Hsiblings :
              siblings (targetOf file).1 (targetOf file).2
                       (delete (sourceOf file sourceBucket) (S3.objects w))
              = earlier).
    { unfold siblings. apply map_filter_delete. }
    split; [reflexivity|]. split; [reflexivity|].
    split; [apply lookup_delete_eq|].
    split; [intros Hne; now rewrite lookup_delete_ne|].
    split; [exact Hsiblings|].
    intros Hnone. unfold versionedFiles, listRenamed.
    now rewrite Hsiblings, Hnone, map_to_list_empty.
  - intros Hsum renamed Hfresh.
    assert (Hne : sourceOf file sourceBucket <> targetOf file).
    { intros Heq. rewrite Heq in Hs. congruence. }
    assert (Hrenamed : renamed <> targetOf file).
    { unfold renamed. rewrite (surjective_pairing (targetOf file)) at 3.
      apply renamedKey_fresh. }
    exists (versionedWorld file sourceBucket existing staged w).
    rewrite (moveFileRequest_version_differ _ _ _ _ _ Ht Hs Hsum Hfresh).
    cbn [S3.objects versionedWorld].
    pose proof (siblings_of_versioned file sourceBucket existing staged w Hfresh)
      as Hsiblings.
    split; [reflexivity|].
    split; [|split; [|split; [|split; [|split]]]].
    + unfold versionedStore. fold renamed.
      rewrite lookup_delete_ne by congruence.
      rewrite lookup_insert_ne by congruence.
      rewrite lookup_delete_ne by congruence.
      now rewrite lookup_insert_eq.
    + unfold versionedStore.
      rewrite lookup_delete_ne by congruence.
      now rewrite lookup_insert_eq.
    + congruence.
    + apply lookup_delete_eq.
    + exact Hsiblings.
    + intros Hnone. unfold versionedFiles, listRenamed.
      rewrite Hsiblings. fold earlier. rewrite Hnone, insert_empty, map_to_list_singleton.
      reflexivity.
Qed.

Lemma moveFilesForAllGranules_error file sourceBucket w existing key id :
  S3.objects w !! targetOf file = Some existing ->
  isCmrFile (Target.name file) = false ->
  moveFilesForAllGranules [(key, {| granuleId := id; files := [file] |})]
                          sourceBucket "error" w
  = (Err (DuplicateFile (Target.filepath file +:+ " already exists in "
                         +:+ Bucket.name (Target.bucket file) +:+ " bucket")), w).
Proof.
  intros Ht Hname.
  unfold moveFilesForAllGranules, moveFilesOfGranule.
  rewrite ownEntries_singleton.
  cbn [map promiseAll snd files].
  rewrite !filter_cons, !filter_nil, Hname.
  cbn [negb]. rewrite decide_True by reflexivity. rewrite decide_False by discriminate.
  cbn [map promiseAll]. unfold bind.
  rewrite (moveFileRequest_error file sourceBucket w existing Ht). reflexivity.
Qed.

(** C7.  Under the [skip] policy a destination that is already there
    makes the request return the single descriptor of the file, flagged
    [duplicate_found]; the world is left as it was, so the destination
    object and the staged source are what they were and no request was
    issued. *)
Theorem skip_policy_leaves_storage_alone file sourceBucket w existing :
  S3.objects w !! targetOf file = Some existing ->
  exists fileMoved w',
    moveFileRequest file sourceBucket "skip" w = (Ok [fileMoved], w')
    /\ Target.duplicate_found fileMoved = Some true
    /\ w' = w
    /\ S3.objects w' !! targetOf file = Some existing
    /\ S3.objects w' !! sourceOf file sourceBucket
       = S3.objects w !! sourceOf file sourceBucket
    /\ S3.requests w' = S3.requests w.
Proof.
  intros Ht. exists (duplicateOf file), w.
  rewrite (moveFileRequest_skip _ _ _ _ Ht). repeat split. exact Ht.
Qed.

(** C10.  With the destination already there and the policy one of
    [skip], [replace] and [version], whatever the request returns starts
    with the descriptor of the file flagged [duplicate_found]; and the
    request does return when the staged source is in place. *)
Theorem duplicate_found_on_every_existing_destination
    file sourceBucket duplicateHandling w existing :
  S3.objects w !! targetOf file = Some existing ->
  duplicateHandling = "skip" \/ duplicateHandling = "replace"
    \/ duplicateHandling = "version" ->
  (forall moved w',
     moveFileRequest file sourceBucket duplicateHandling w = (Ok moved, w') ->
     exists fileMoved extras,
       moved = fileMoved :: extras /\ Target.duplicate_found fileMoved = Some true)
  /\ (forall staged,
        S3.objects w !! sourceOf file sourceBucket = Some staged ->
        exists moved w',
          moveFileRequest file sourceBucket duplicateHandling w = (Ok moved, w')).
Proof.
  intros Ht Hpolicy. split.
  - intros moved w' Hrun.
    destruct (moveFileRequest_returns_duplicate _ _ _ _ _ _ _ Ht Hrun) as [extras ->].
    exists (duplicateOf file), extras. split; [reflexivity | apply duplicateOf_flag].
  - intros staged Hs.
    apply (moveFileRequest_succeeds _ _ _ _ _ _ Ht Hs).
    destruct Hpolicy as [-> | [-> | ->]]; discriminate.
Qed.

End MoveFacts.

(** ** The placement properties on concrete stores *)

Section MoveExamples.
Import Sample Scenario.

Lemma version_policy_checksum_semantics_witness :
  (exists w',
     moveFileRequest granuleFile "staging" "version" identicalWithEarlierVersion
     = (Ok (versionedFiles granuleFile (S3.objects w')), w')
     /\ S3.objects w' = delete stagedSource (S3.objects identicalWithEarlierVersion)
     /\ S3.objects w' !! destination = Some (object "same bytes" 3)
     /\ siblings "archive" "data/A.hdf" (S3.objects w')
        = delete stagedSource
                 (siblings "archive" "data/A.hdf"
                           (S3.objects identicalWithEarlierVersion)))
  /\ (exists w',
        moveFileRequest granuleFile "staging" "version" changed
        = (Ok (versionedFiles granuleFile (S3.objects w')), w')
        /\ S3.Body <$> S3.objects w' !! ("archive", "data/A.hdf.vIII") = Some "old bytes"
        /\ S3.Body <$> S3.objects w' !! destination = Some "new bytes!"
        /\ S3.objects w' !! stagedSource = None
        /\ versionedFiles granuleFile (S3.objects w')
           = [duplicateOf granuleFile;
              renamedFile granuleFile
                {| Listed_Bucket := "archive";
                   Listed_Key := "data/A.hdf.vIII";
                   Listed_fileSize := 9 |}]).
Proof.
  assert (Hidentical : S3.objects identicalWithEarlierVersion !! targetOf granuleFile
                       = Some (object "same bytes" 3)) by (vm_compute; reflexivity).
  assert (Hstaged : S3.objects identicalWithEarlierVersion !! sourceOf granuleFile "staging"
                    = Some (object "same bytes" 5)) by (vm_compute; reflexivity).
  assert (Hchanged : S3.objects changed !! targetOf granuleFile
                     = Some (object "old bytes" 3)) by (vm_compute; reflexivity).
  assert (Hstaged' : S3.objects changed !! sourceOf granuleFile "staging"
                     = Some (object "new bytes!" 5)) by (vm_compute; reflexivity).
  assert (Hsum : cksum (S3.Body (object "old bytes" 3))
                 <> cksum (S3.Body (object "new bytes!" 5)))
    by (vm_compute; discriminate).
  assert (Hfresh : sourceOf granuleFile "staging"
                   <> ((targetOf granuleFile).1,
                       renamedKey (targetOf granuleFile).2 (object "old bytes" 3)))
    by (vm_compute; discriminate).
  split.
  - destruct (proj1 (version_policy_checksum_semantics granuleFile "staging"
                       identicalWithEarlierVersion
                       (object "same bytes" 3) (object "same bytes" 5)
                       Hidentical Hstaged)
                    eq_refl)
      as (w' & Hrun & Hstore & _ & Htarget & Hsiblings & _).
    exists w'. split; [exact Hrun|]. split; [exact Hstore|].
    split; [apply Htarget; vm_compute; discriminate | exact Hsiblings].
  - destruct (proj2 (version_policy_checksum_semantics granuleFile "staging" changed
                       (object "old bytes" 3) (object "new bytes!" 5)
                       Hchanged Hstaged')
                    Hsum Hfresh)
      as (w' & Hrun & Hrenamed & Htarget & _ & Hsource & _ & Hfiles).
    exists w'. repeat split; try assumption.
    apply Hfiles. vm_compute. reflexivity.
Defined.

(** C1 as first stated fails in three ways.  With an earlier renamed
    version in the bucket, identical checksums still return an extra
    file.  When the staged source is the destination object itself, the
    checksums are identical and the destination is deleted.  When the
    staged source lies under the very key the existing object is renamed
    to, the checksums differ, yet the destination ends up with its old
    content and no extra file is returned. *)
Lemma version_policy_fails_as_first_stated :
  (S3.objects identicalWithEarlierVersion !! targetOf granuleFile
     = Some (object "same bytes" 3)
   /\ S3.objects identicalWithEarlierVersion !! sourceOf granuleFile "staging"
      = Some (object "same bytes" 5)
   /\ cksum (S3.Body (object "same bytes" 3)) = cksum (S3.Body (object "same bytes" 5))
   /\ (moveFileRequest granuleFile "staging" "version" identicalWithEarlierVersion).1
      = Ok [duplicateOf granuleFile;
            renamedFile granuleFile
              {| Listed_Bucket := "archive";
                 Listed_Key := "data/A.hdf.vI";
                 Listed_fileSize := 11 |}]
   /\ ~ (exists w',
           moveFileRequest granuleFile "staging" "version" identicalWithEarlierVersion
           = (Ok [duplicateOf granuleFile], w')))
  /\ (S3.objects Cases.stagedInPlace !! targetOf Cases.fileStagedInPlace
        = Some (object "same bytes" 3)
      /\ sourceOf Cases.fileStagedInPlace "archive" = targetOf Cases.fileStagedInPlace
      /\ (moveFileRequest Cases.fileStagedInPlace "archive" "version"
                          Cases.stagedInPlace).1
         = Ok [duplicateOf Cases.fileStagedInPlace]
      /\ S3.objects (moveFileRequest Cases.fileStagedInPlace "archive" "version"
                                     Cases.stagedInPlace).2
           !! targetOf Cases.fileStagedInPlace
         = None)
  /\ (S3.objects Cases.stagedAsVersion !! targetOf Cases.fileStagedAsVersion
        = Some (object "old bytes" 3)
      /\ S3.objects Cases.stagedAsVersion !! sourceOf Cases.fileStagedAsVersion "archive"
         = Some (object "new bytes!" 5)
      /\ cksum (S3.Body (object "old bytes" 3)) <> cksum (S3.Body (object "new bytes!" 5))
      /\ (moveFileRequest Cases.fileStagedAsVersion "archive" "version"
                          Cases.stagedAsVersion).1
         = Ok [duplicateOf Cases.fileStagedAsVersion]
      /\ S3.Body <$> S3.objects (moveFileRequest Cases.fileStagedAsVersion "archive"
                                                 "version" Cases.stagedAsVersion).2
                       !! targetOf Cases.fileStagedAsVersion
         = Some "old bytes").
Proof.
  split; [|split].
  - repeat split; try reflexivity.
    intros [w' Hrun].
    apply (f_equal fst) in Hrun. vm_compute in Hrun. discriminate.
  - repeat split; vm_compute; reflexivity.
  - repeat split; try (vm_compute; reflexivity). vm_compute. discriminate.
Qed.

Lemma skip_policy_leaves_storage_alone_witness :
  exists fileMoved w',
    moveFileRequest granuleFile "staging" "skip" changed = (Ok [fileMoved], w')
    /\ Target.duplicate_found fileMoved = Some true
    /\ w' = changed
    /\ S3.objects w' !! destination = Some (object "old bytes" 3)
    /\ S3.objects w' !! stagedSource = S3.objects changed !! stagedSource
    /\ S3.requests w' = S3.requests changed.
Proof.
  apply (skip_policy_leaves_storage_alone granuleFile "staging" changed
           (object "old bytes" 3)).
  reflexivity.
Defined.

Lemma duplicate_found_on_every_existing_destination_witness :
  (forall moved w',
     moveFileRequest granuleFile "staging" "replace" changed = (Ok moved, w') ->
     exists fileMoved extras,
       moved = fileMoved :: extras /\ Target.duplicate_found fileMoved = Some true)
  /\ (forall staged,
        S3.objects changed !! stagedSource = Some staged ->
        exists moved w',
          moveFileRequest granuleFile "staging" "replace" changed = (Ok moved, w')).
Proof.
  apply (duplicate_found_on_every_existing_destination granuleFile "staging" "replace"
           changed (object "old bytes" 3)).
  - reflexivity.
  - right. left. reflexivity.
Defined.

End MoveExamples.

(** ** Planning *)

Section PlanFacts.
Context `{Collaborators}.

#[local] Abbreviation TFile := (Target.file Bucket.t).

Lemma validateMatch_none buckets :
  validateMatch [] buckets = Err (InvalidArgument DidNotMatchAny).
Proof. reflexivity. Qed.

Lemma validateMatch_many cf1 cf2 rest buckets :
  validateMatch (cf1 :: cf2 :: rest) buckets = Err (InvalidArgument MatchedMoreThanOne).
Proof. reflexivity. Qed.

Lemma validateMatch_one cf buckets :
  validateMatch [cf] buckets
  = match bucketProperty buckets (FileSpec.bucket cf) with
    | Js.Undefined => Err (InvalidArgument (UnknownBucketKey (FileSpec.bucket cf)))
    | Js.Own _ | Js.Inherited => Ok tt
    end.
Proof. reflexivity. Qed.

Lemma bucketProperty_own buckets key bucket :
  buckets !! key = Some bucket -> bucketProperty buckets key = Js.Own bucket.
Proof. unfold bucketProperty. now intros ->. Qed.

Lemma bucketProperty_inherited buckets key :
  buckets !! key = None -> Js.inherited key = true ->
  bucketProperty buckets key = Js.Inherited.
Proof. unfold bucketProperty, Js.property. now intros -> ->. Qed.

Lemma bucketProperty_undefined buckets key :
  buckets !! key = None -> Js.inherited key = false ->
  bucketProperty buckets key = Js.Undefined.
Proof. unfold bucketProperty, Js.property. now intros -> ->. Qed.

Lemma updateFileMetadata_one collection cmrFiles buckets id granule file cf bucket :
  matching (collection_files collection) file = [cf] ->
  buckets !! FileSpec.bucket cf = Some bucket ->
  updateFileMetadata collection cmrFiles buckets id granule file
  = rbind (urlPathTemplate (URLPathTemplate file cf collection) file granule
             (match List.find (fun f => bool_decide (cmr_granuleId f = id)) cmrFiles with
              | Some c => metadataObject c
              | None => noMetadata
              end))
          (fun urlPath => Ok (destinationOf file bucket urlPath)).
Proof.
  intros Hmatch Hbucket. unfold updateFileMetadata.
  rewrite Hmatch, validateMatch_one, (bucketProperty_own _ _ _ Hbucket). cbn [rbind].
  destruct (urlPathTemplate _ _ _ _); reflexivity.
Qed.

(** C4.  Resolving the destination of a file fails when more than one
    rule matches and when no rule matches, and a destination is only
    ever returned when exactly one rule matches.  With a single matching
    rule whose bucket key is not in the bucket map the resolution fails
    as well, unless the key is a name every object inherits, such as
    [toString]: there [validateMatch] lets the file through, and once
    the path template is expanded the file is planned into a bucket named
    after the inherited function. *)
Theorem classification_is_unique_or_an_error
    collection cmrFiles buckets id granule (file : Staged.file) :
  let matches := matching (collection_files collection) file in
  let resolved := updateFileMetadata collection cmrFiles buckets id granule file in
  (1 < length matches -> resolved = Err (InvalidArgument MatchedMoreThanOne))
  /\ (length matches = 0 -> resolved = Err (InvalidArgument DidNotMatchAny))
  /\ (forall cf, matches = [cf] -> buckets !! FileSpec.bucket cf = None ->
       Js.inherited (FileSpec.bucket cf) = false ->
       resolved = Err (InvalidArgument (UnknownBucketKey (FileSpec.bucket cf))))
  /\ (forall cf, matches = [cf] -> buckets !! FileSpec.bucket cf = None ->
       Js.inherited (FileSpec.bucket cf) = true ->
       validateMatch matches buckets = Ok tt
       /\ forall urlPath functionName,
            urlPathTemplate (URLPathTemplate file cf collection) file granule
                            (cmrMetadata cmrFiles id) = Ok urlPath ->
            Js.inheritedValueName (FileSpec.bucket cf) = Some functionName ->
            exists destination,
              resolved = Ok destination
              /\ Bucket.name (Target.bucket destination) = functionName
              /\ Target.filepath destination = path_join urlPath (Staged.name file))
  /\ (forall destination, resolved = Ok destination ->
       exists cf urlPath,
         matches = [cf]
         /\ (forall other, other ∈ collection_files collection ->
              regexp_match (unversionFilename (Staged.name file)) (FileSpec.regex other)
              = true -> other = cf)
         /\ urlPathTemplate (URLPathTemplate file cf collection) file granule
                            (cmrMetadata cmrFiles id) = Ok urlPath
         /\ Target.filepath destination = path_join urlPath (Staged.name file)
         /\ ((exists bucket,
                buckets !! FileSpec.bucket cf = Some bucket
                /\ destination = destinationOf file bucket urlPath)
             \/ (buckets !! FileSpec.bucket cf = None
                 /\ Js.inherited (FileSpec.bucket cf) = true
                 /\ Js.inheritedValueName (FileSpec.bucket cf)
                    = Some (Bucket.name (Target.bucket destination))))).
Proof.
  intros matches resolved. subst resolved. unfold updateFileMetadata. fold matches.
  split; [|split; [|split; [|split]]].
  - destruct matches as [|cf1 [|cf2 rest]]; cbn [length]; try lia. reflexivity.
  - destruct matches; cbn [length]; [reflexivity | lia].
  - intros cf -> Hbucket Hown.
    rewrite validateMatch_one, (bucketProperty_undefined _ _ Hbucket Hown). reflexivity.
  - intros cf -> Hbucket Hinherited.
    rewrite validateMatch_one, (bucketProperty_inherited _ _ Hbucket Hinherited).
    split; [reflexivity|].
    intros urlPath functionName Hpath Hname. cbn [rbind].
    fold (cmrMetadata cmrFiles id). rewrite Hpath, Hname. cbn [rbind].
    eexists. split; [reflexivity|]. cbn [Target.bucket Target.filepath].
    split; reflexivity.
  - intros destination.
    destruct matches as [|cf [|cf2 rest]] eqn:Hmatches; try discriminate.
    rewrite validateMatch_one. fold (cmrMetadata cmrFiles id).
    unfold bucketProperty, Js.property.
    destruct (buckets !! FileSpec.bucket cf) as [bucket|] eqn:Hbucket;
      [|destruct (Js.inherited (FileSpec.bucket cf)) eqn:Hinherited; [|discriminate]];
      cbn [rbind];
      (destruct (urlPathTemplate _ _ _ _) as [urlPath|e] eqn:Hpath; cbn [rbind];
       [|discriminate]).
    + intros [= <-]. exists cf, urlPath.
      split; [reflexivity|]. split; [|split; [exact Hpath|split; [reflexivity|]]].
      * intros other Hin Hother.
        assert (Hmem : other ∈ matches).
        { unfold matches, matching. apply list_elem_of_filter. now split. }
        rewrite Hmatches in Hmem. now apply list_elem_of_singleton in Hmem.
      * left. exists bucket. split; [exact Hbucket | reflexivity].
    + destruct (Js.inheritedValueName (FileSpec.bucket cf)) as [functionName|] eqn:Hname;
        [|discriminate].
      intros [= <-]. exists cf, urlPath.
      split; [reflexivity|]. split; [|split; [exact Hpath|split; [reflexivity|]]].
      * intros other Hin Hother.
        assert (Hmem : other ∈ matches).
        { unfold matches, matching. apply list_elem_of_filter. now split. }
        rewrite Hmatches in Hmem. now apply list_elem_of_singleton in Hmem.
      * right. split; [exact Hbucket|]. split; [exact Hinherited | exact Hname].
Qed.

Lemma URLPathTemplate_firstNonEmpty file cf collection :
  URLPathTemplate file cf collection
  = firstNonEmpty [Staged.url_path file; FileSpec.url_path cf;
                   collection_url_path collection].
Proof.
  unfold URLPathTemplate, Js.or_else, Js.or_opt. cbn [firstNonEmpty].
  destruct (Staged.url_path file) as [a|]; [destruct (Js.truthy a) eqn:Ha|];
    rewrite ?Ha; try reflexivity;
    (destruct (FileSpec.url_path cf) as [b|]; [destruct (Js.truthy b) eqn:Hb|]);
    rewrite ?Hb; try reflexivity;
    (destruct (collection_url_path collection) as [c|]; [destruct (Js.truthy c) eqn:Hc|]);
    rewrite ?Hc; reflexivity.
Qed.

Lemma firstNonEmpty_firstDefined candidates :
  Forall (fun c => c <> Some "") candidates ->
  firstNonEmpty candidates = firstDefined candidates.
Proof.
  induction 1 as [|[[|a s]|] rest Hc _ IH]; cbn; congruence.
Qed.

(** C8, as amended.  The template applied to a file is the first of the
    file's own [url_path], the matched rule's and the collection's that
    is defined and not the empty string, and the empty string when there
    is none; it is the first defined one whenever no defined one is
    empty.  That template is the one expanded for the destination. *)
Theorem path_template_precedence
    collection cmrFiles buckets id granule (file : Staged.file) cf bucket :
  matching (collection_files collection) file = [cf] ->
  buckets !! FileSpec.bucket cf = Some bucket ->
  let candidates := [Staged.url_path file; FileSpec.url_path cf;
                     collection_url_path collection] in
  URLPathTemplate file cf collection = firstNonEmpty candidates
  /\ (Forall (fun c => c <> Some "") candidates ->
      URLPathTemplate file cf collection = firstDefined candidates)
  /\ updateFileMetadata collection cmrFiles buckets id granule file
     = rbind (urlPathTemplate (firstNonEmpty candidates) file granule
                (match List.find (fun f => bool_decide (cmr_granuleId f = id)) cmrFiles with
                 | Some c => metadataObject c
                 | None => noMetadata
                 end))
             (fun urlPath => Ok (destinationOf file bucket urlPath)).
Proof.
  intros Hmatch Hbucket candidates. repeat split.
  - apply URLPathTemplate_firstNonEmpty.
  - intros Hnonempty. rewrite URLPathTemplate_firstNonEmpty.
    now apply firstNonEmpty_firstDefined.
  - rewrite (updateFileMetadata_one _ _ _ _ _ _ _ _ Hmatch Hbucket).
    now rewrite URLPathTemplate_firstNonEmpty.
Qed.

End PlanFacts.

(** ** Catalog metadata *)

Section CatalogFacts.
Context `{Collaborators}.

#[local] Abbreviation TFile := (Target.file Bucket.t).

Lemma obj_get_set {A} k (v : A) o : obj_get k (obj_set k v o) = Some v.
Proof.
  induction o as [|[k' v'] o IH]; cbn.
  - now rewrite decide_True.
  - destruct (decide (k' = k)) as [->|Hne]; cbn.
    + now rewrite decide_True.
    + now rewrite decide_False.
Qed.

Lemma accessURL_known distEndpoint (file : TFile) :
  knownBucketType file ->
  accessURL distEndpoint file
  = if decide (isPublished file) then Some (publishedURL distEndpoint file) else None.
Proof.
  unfold knownBucketType, isPublished, accessURL, publishedURL.
  rewrite !elem_of_cons, elem_of_nil.
  intros [-> | [-> | [-> | [-> | []]]]]; cbn;
    (rewrite decide_False by (intros [|]; discriminate)) ||
    (rewrite decide_True by (now left)) ||
    (rewrite decide_True by (now right)); reflexivity.
Qed.

Lemma accessURLs_known distEndpoint (granuleFiles : list TFile) :
  Forall knownBucketType granuleFiles ->
  accessURLs distEndpoint granuleFiles
  = map (publishedURL distEndpoint) (filter isPublished granuleFiles).
Proof.
  unfold accessURLs.
  induction 1 as [|file rest Hfile _ IH]; [reflexivity|].
  cbn [omap list_omap]. rewrite filter_cons, (accessURL_known _ _ Hfile).
  fold (omap (accessURL distEndpoint) rest). rewrite IH.
  now destruct (decide (isPublished file)).
Qed.

Lemma updatedMetadata_publishes cmrFile urls updated :
  updatedMetadata cmrFile urls = Ok updated ->
  exists updatedGranule,
    Granule_ updated = Some updatedGranule
    /\ onlineAccessURL updatedGranule = Some (JArr (map urlValue urls) []).
Proof.
  unfold updatedMetadata, setOnlineAccessURL, onlineAccessURL.
  destruct (Granule_ (metadataObject cmrFile)) as [metadataGranule|]; [|discriminate].
  destruct (obj_get "OnlineAccessURLs" _) as [[text | items props | fields]|];
    cbn [rbind]; try discriminate;
    intros [= <-]; eexists; (split; [reflexivity|]);
    rewrite obj_get_set; apply obj_get_set.
Qed.

(** C6.  With bucket types among the four of the data model, the access
    URLs built for a granule are, in file order, one entry for each file
    in a protected or public bucket and none for the others: the
    distribution-endpoint URL joined with bucket and key for a protected
    file, the direct storage URL for a public one.  One protected, one
    public and one internal file, in any order, give exactly two entries.
    When the rewrite of the metadata succeeds this list is what stands
    under [OnlineAccessURLs.OnlineAccessURL]. *)
Theorem access_url_visibility distEndpoint (granuleFiles : list TFile) :
  Forall knownBucketType granuleFiles ->
  accessURLs distEndpoint granuleFiles
  = map (publishedURL distEndpoint) (filter isPublished granuleFiles)
  /\ (forall file, file ∈ granuleFiles ->
       Bucket.type (Target.bucket file) = "protected" ->
       {| URL := urljoin distEndpoint
                   (urljoin (Bucket.name (Target.bucket file)) (Target.filepath file));
          URLDescription := "File to download" |}
       ∈ accessURLs distEndpoint granuleFiles)
  /\ (forall file, file ∈ granuleFiles ->
       Bucket.type (Target.bucket file) = "public" ->
       {| URL := "https://" +:+ Bucket.name (Target.bucket file)
                 +:+ ".s3.amazonaws.com/" +:+ Target.filepath file;
          URLDescription := "File to download" |}
       ∈ accessURLs distEndpoint granuleFiles)
  /\ (forall file,
       Bucket.type (Target.bucket file) = "internal"
       \/ Bucket.type (Target.bucket file) = "private" ->
       accessURL distEndpoint file = None)
  /\ (forall protected public internal,
       Bucket.type (Target.bucket protected) = "protected" ->
       Bucket.type (Target.bucket public) = "public" ->
       Bucket.type (Target.bucket internal) = "internal" ->
       granuleFiles ≡ₚ [protected; public; internal] ->
       length (accessURLs distEndpoint granuleFiles) = 2)
  /\ (forall cmrFile updated,
       updatedMetadata cmrFile (accessURLs distEndpoint granuleFiles) = Ok updated ->
       exists updatedGranule,
         Granule_ updated = Some updatedGranule
         /\ onlineAccessURL updatedGranule
            = Some (JArr (map urlValue (accessURLs distEndpoint granuleFiles)) [])).
Proof.
  intros Hknown. split; [now apply accessURLs_known|].
  split; [|split; [|split; [|split]]].
  - intros file Hin Htype. unfold accessURLs. apply list_elem_of_omap.
    exists file. split; [exact Hin|]. unfold accessURL. now rewrite Htype.
  - intros file Hin Htype. unfold accessURLs. apply list_elem_of_omap.
    exists file. split; [exact Hin|]. unfold accessURL. now rewrite Htype.
  - intros file [Htype | Htype]; unfold accessURL; now rewrite Htype.
  - intros protected public internal Hprotected Hpublic Hinternal Hperm.
    unfold accessURLs. rewrite Hperm. cbn [omap list_omap]. unfold accessURL.
    now rewrite Hprotected, Hpublic, Hinternal.
  - intros cmrFile updated. apply updatedMetadata_publishes.
Qed.

(** C9.  Rewriting one catalog file issues the upload to the
    destination key and then the deletion of the old object, in that
    order and nothing else.  When the old object lies elsewhere the
    destination afterwards holds the uploaded document; when the catalog
    file is not relocated, so that the destination is the old location,
    the deletion removes what was just uploaded and no copy is left. *)
Theorem catalog_rewrite_uploads_then_deletes
    granulesObject distEndpoint cmrFile w granule updated updatedCmrFile old :
  obj_get (cmr_granuleId cmrFile) granulesObject = Some granule ->
  updatedMetadata cmrFile (accessURLs distEndpoint (files granule)) = Ok updated ->
  List.find (fun f : TFile => isCmrFile (Target.filename f)) (files granule)
    = Some updatedCmrFile ->
  parseS3Uri (cmr_filename cmrFile) = Ok old ->
  let destination := targetOf updatedCmrFile in
  exists w',
    updateCmrFile granulesObject distEndpoint cmrFile w = (Ok tt, w')
    /\ S3.requests w'
       = (S3.requests w ++ [S3.PutObject destination; S3.DeleteObject old])%list
    /\ (old <> destination ->
        S3.Body <$> S3.objects w' !! destination = Some (buildObject updated))
    /\ (old = destination -> S3.objects w' !! destination = None).
Proof.
  intros Hgranule Hupdated Hfind Hparse destination.
  unfold updateCmrFile. rewrite Hgranule. cbn [Js.property].
  unfold bind at 1, lift at 1. rewrite Hupdated, Hfind.
  fold destination.
  assert (Hupload : forall acl,
             promiseS3Upload destination.1 destination.2 (buildObject updated)
               (s3TagSetToQueryString (s3Tags cmrFile)) acl w
             = (Ok tt,
                {| S3.objects :=
                     <[destination := {| S3.Body := buildObject updated; S3.ACL := acl;
                                         S3.LastModified := S3.clock w |}]> (S3.objects w);
                   S3.clock := S (S3.clock w);
                   S3.requests := S3.requests w ++ [S3.PutObject destination] |})).
  { intros acl. reflexivity. }
  unfold bind, lift. cbn [fst snd destination targetOf] in *.
  destruct (Js.includes "public" (Bucket.type (Target.bucket updatedCmrFile)));
    rewrite Hupload, Hparse; unfold deleteS3Object; destruct old as [oldBucket oldKey];
    cbn [fst snd]; eexists; (split; [reflexivity|]); cbn [S3.requests S3.objects];
    (split; [now rewrite <- app_assoc|]); split.
  all: try (intros Hne; rewrite lookup_delete_ne by congruence;
            now rewrite lookup_insert_eq).
  all: intros ->; apply lookup_delete_eq.
Qed.

End CatalogFacts.

(** ** The task entry point *)

Section TaskFacts.
Context `{Collaborators}.

(** What [duplicateHandlingType] computes: the force flag first, then
    the task configuration, then the [collection] found on the event
    itself, then [error]. *)
Lemma duplicateHandlingType_order event :
  duplicateHandlingType event
  = if bool_decide (forceDuplicateOverwrite event = Some true) then "replace"
    else match config event ≫= config_duplicateHandling with
         | Some policy => policy
         | None =>
             match event_collection event ≫= collection_duplicateHandling with
             | Some policy => policy
             | None => "error"
             end
         end.
Proof.
  unfold duplicateHandlingType, get_or.
  destruct (forceDuplicateOverwrite event) as [[|]|]; cbn;
    destruct (config event) as [cfg|]; cbn; try reflexivity;
    try (destruct (config_duplicateHandling cfg); cbn; try reflexivity);
    destruct (event_collection event) as [c|]; cbn; try reflexivity;
    destruct (collection_duplicateHandling c); reflexivity.
Qed.

(** C3.  The force flag and the task configuration are honoured in that
    order, but the collection of the task configuration is not consulted:
    without a force flag, without a policy in the task configuration and
    without a [collection] on the event itself, the policy is [error]
    whatever the configured collection asks for. *)
Theorem duplicateHandlingType_overlooks_configured_collection event cfg :
  config event = Some cfg ->
  (forceDuplicateOverwrite event = Some true -> duplicateHandlingType event = "replace")
  /\ (forceDuplicateOverwrite event <> Some true ->
      forall policy, config_duplicateHandling cfg = Some policy ->
      duplicateHandlingType event = policy)
  /\ (forceDuplicateOverwrite event <> Some true ->
      config_duplicateHandling cfg = None ->
      event_collection event = None ->
      duplicateHandlingType event = "error").
Proof.
  intros Hcfg. rewrite duplicateHandlingType_order, Hcfg. cbn. repeat split.
  - intros Hforce. now rewrite bool_decide_eq_true_2.
  - intros Hforce policy Hpolicy. now rewrite bool_decide_eq_false_2, Hpolicy.
  - intros Hforce Hpolicy Hcollection.
    now rewrite bool_decide_eq_false_2, Hpolicy, Hcollection.
Qed.

(** C5.  With [moveStagedFiles] set to false the task moves nothing and
    rewrites nothing, the world is left as it was, but the task does not
    return the planned granules: it throws, and when planning went
    through what it throws is the [TypeError] of reading the keys of a
    variable that was never assigned. *)
Theorem moveGranules_without_moving_throws event cfg w :
  config event = Some cfg ->
  moveStagedFiles cfg = Some false ->
  (exists e, moveGranules event w = (Err e, w))
  /\ (forall cmrFiles inputGranules allGranules targetedGranules,
       getCmrFiles (default [] (input event)) (default "(.*)" (granuleIdExtraction cfg))
                   (S3.objects w) = Ok cmrFiles ->
       input_granules cfg = Some inputGranules ->
       addInputFilesToGranules (default [] (input event)) inputGranules
                               (default "(.*)" (granuleIdExtraction cfg))
       = Ok allGranules ->
       updateGranuleMetadata allGranules (config_collection cfg) cmrFiles (buckets cfg)
       = Ok targetedGranules ->
       moveGranules event w
       = (Err (TypeError "Cannot convert undefined or null to object"), w)).
Proof.
  intros Hcfg Hflag. unfold moveGranules. rewrite Hcfg, Hflag. cbn [default].
  unfold bind, lift, throw, ret. split.
  - destruct (getCmrFiles _ _ _); [|now eexists].
    destruct (input_granules cfg); [|now eexists].
    destruct (addInputFilesToGranules _ _ _); [|now eexists].
    destruct (updateGranuleMetadata _ _ _ _); now eexists.
  - intros cmrFiles inputGranules allGranules targetedGranules Hcmr Hinput Hall Htargeted.
    now rewrite Hcmr, Hinput, Hall, Htargeted.
Qed.

(** An exception out of the move is the exception of the task. *)
Lemma moveGranules_rethrows event cfg w cmrFiles inputGranules allGranules
    targetedGranules e w' :
  config event = Some cfg ->
  moveStagedFiles cfg <> Some false ->
  getCmrFiles (default [] (input event)) (default "(.*)" (granuleIdExtraction cfg))
              (S3.objects w) = Ok cmrFiles ->
  input_granules cfg = Some inputGranules ->
  addInputFilesToGranules (default [] (input event)) inputGranules
                          (default "(.*)" (granuleIdExtraction cfg))
  = Ok allGranules ->
  updateGranuleMetadata allGranules (config_collection cfg) cmrFiles (buckets cfg)
  = Ok targetedGranules ->
  moveFilesForAllGranules targetedGranules (config_bucket cfg)
                          (duplicateHandlingType event) w = (Err e, w') ->
  moveGranules event w = (Err e, w').
Proof.
  intros Hcfg Hflag Hcmr Hinput Hall Htargeted Hmove.
  unfold moveGranules. rewrite Hcfg.
  unfold bind, lift. rewrite Hcmr, Hinput, Hall, Htargeted.
  assert (Hmoving : default true (moveStagedFiles cfg) = true).
  { destruct (moveStagedFiles cfg) as [[|]|]; [reflexivity | congruence | reflexivity]. }
  rewrite Hmoving. unfold bind. now rewrite Hmove.
Qed.

(** C2.  Under the [error] policy a destination that is already there
    makes the request throw [DuplicateFile], naming the key and the
    bucket; the world is left as it was (no object changed, no request
    issued); moving the files of a granule that holds this file rejects
    with that very error, and so does the task whose plan is that
    granule. *)
Theorem error_policy_throws_DuplicateFile file sourceBucket w existing :
  S3.objects w !! targetOf file = Some existing ->
  let thrown :=
    DuplicateFile (Target.filepath file +:+ " already exists in "
                   +:+ Bucket.name (Target.bucket file) +:+ " bucket") in
  moveFileRequest file sourceBucket "error" w = (Err thrown, w)
  /\ (forall key id,
        isCmrFile (Target.name file) = false ->
        moveFilesForAllGranules [(key, {| granuleId := id; files := [file] |})]
                                sourceBucket "error" w
        = (Err thrown, w))
  /\ (forall event cfg cmrFiles inputGranules allGranules key id,
        isCmrFile (Target.name file) = false ->
        config event = Some cfg ->
        moveStagedFiles cfg <> Some false ->
        config_bucket cfg = sourceBucket ->
        duplicateHandlingType event = "error" ->
        getCmrFiles (default [] (input event)) (default "(.*)" (granuleIdExtraction cfg))
                    (S3.objects w) = Ok cmrFiles ->
        input_granules cfg = Some inputGranules ->
        addInputFilesToGranules (default [] (input event)) inputGranules
                                (default "(.*)" (granuleIdExtraction cfg))
        = Ok allGranules ->
        updateGranuleMetadata allGranules (config_collection cfg) cmrFiles (buckets cfg)
        = Ok [(key, {| granuleId := id; files := [file] |})] ->
        moveGranules event w = (Err thrown, w)).
Proof.
  intros Ht thrown. split; [|split].
  - exact (moveFileRequest_error file sourceBucket w existing Ht).
  - intros key id Hname.
    exact (moveFilesForAllGranules_error file sourceBucket w existing key id Ht Hname).
  - intros event cfg cmrFiles inputGranules allGranules key id
           Hname Hcfg Hflag Hbucket Hpolicy Hcmr Hinput Hall Htargeted.
    apply (moveGranules_rethrows _ _ _ _ _ _ _ _ _ Hcfg Hflag Hcmr Hinput Hall Htargeted).
    rewrite Hbucket, Hpolicy.
    exact (moveFilesForAllGranules_error file sourceBucket w existing key id Ht Hname).
Qed.

End TaskFacts.

(** ** Planning, rewriting and the entry point on concrete inputs *)

Section TaskExamples.
Import Sample Scenario.

Lemma classification_is_unique_or_an_error_witness :
  bucketMap !! "toString" = None
  /\ validateMatch (matching (collection_files Cases.collectionIntoToString)
                              stagedWithEmptyPath) bucketMap = Ok tt
  /\ exists destination,
       updateFileMetadata Cases.collectionIntoToString [] bucketMap "A" stagedGranule
                          stagedWithEmptyPath = Ok destination
       /\ Bucket.name (Target.bucket destination) = "toString"
       /\ Target.filepath destination = "by-rule/A.hdf".
Proof.
  split; [reflexivity|].
  pose proof (proj1 (proj2 (proj2 (proj2
                (classification_is_unique_or_an_error Cases.collectionIntoToString []
                   bucketMap "A" stagedGranule stagedWithEmptyPath))))
                Cases.ruleIntoToString eq_refl eq_refl eq_refl) as [Hvalid Hplanned].
  split; [exact Hvalid|].
  exact (Hplanned "by-rule" "toString" eq_refl eq_refl).
Defined.

Lemma path_template_precedence_witness :
  let candidates := [Some ""; Some "by-rule"; Some "by-collection"] in
  URLPathTemplate stagedWithEmptyPath hdfRule collectionWithPath
  = firstNonEmpty candidates
  /\ (Forall (fun c => c <> Some "") candidates ->
      URLPathTemplate stagedWithEmptyPath hdfRule collectionWithPath
      = firstDefined candidates)
  /\ updateFileMetadata collectionWithPath [] bucketMap "A" stagedGranule
                        stagedWithEmptyPath
     = rbind (urlPathTemplate (firstNonEmpty candidates) stagedWithEmptyPath
                stagedGranule noMetadata)
             (fun urlPath => Ok (destinationOf stagedWithEmptyPath protectedBucket urlPath)).
Proof.
  apply (path_template_precedence collectionWithPath [] bucketMap "A" stagedGranule
           stagedWithEmptyPath hdfRule protectedBucket); reflexivity.
Defined.

(** C8 as first stated fails: an empty [url_path] on the file is
    defined, yet the rule's template is the one applied. *)
Lemma path_template_skips_empty_override :
  Staged.url_path stagedWithEmptyPath = Some ""
  /\ URLPathTemplate stagedWithEmptyPath hdfRule collectionWithPath = "by-rule"
  /\ firstDefined [Staged.url_path stagedWithEmptyPath; FileSpec.url_path hdfRule;
                   collection_url_path collectionWithPath] = ""
  /\ URLPathTemplate stagedWithEmptyPath hdfRule collectionWithPath
     <> firstDefined [Staged.url_path stagedWithEmptyPath; FileSpec.url_path hdfRule;
                      collection_url_path collectionWithPath].
Proof. repeat split; discriminate. Qed.

Lemma duplicateHandlingType_overlooks_configured_collection_witness :
  collection_duplicateHandling (config_collection dryRunConfig) = Some "skip"
  /\ duplicateHandlingType dryRunEvent = "error".
Proof.
  split; [reflexivity|].
  refine (proj2 (proj2 (duplicateHandlingType_overlooks_configured_collection
                          dryRunEvent dryRunConfig _)) _ _ _);
    [reflexivity | discriminate | reflexivity | reflexivity].
Defined.

Lemma moveGranules_without_moving_throws_witness :
  moveGranules dryRunEvent changed
  = (Err (TypeError "Cannot convert undefined or null to object"), changed).
Proof.
  eapply (proj2 (moveGranules_without_moving_throws dryRunEvent dryRunConfig changed
                   eq_refl eq_refl)); reflexivity.
Defined.

Lemma access_url_visibility_witness :
  accessURLs "https://distribution.example" movedFiles
  = [ {| URL := "https://distribution.example/archive/data/A.hdf";
         URLDescription := "File to download" |};
      {| URL := "https://browse.s3.amazonaws.com/data/A.jpg";
         URLDescription := "File to download" |} ].
Proof.
  rewrite (proj1 (access_url_visibility "https://distribution.example" movedFiles
                    ltac:(repeat constructor))).
  reflexivity.
Defined.

(** The plan can place a catalog file where it already lies. *)
Lemma catalog_file_planned_in_place :
  updateFileMetadata collectionInPlace [catalogFile] bucketMap "A"
    {| granuleId := "A"; files := [stagedCatalog] |} stagedCatalog
  = Ok catalogTarget
  /\ parseS3Uri (cmr_filename catalogFile) = Ok (targetOf catalogTarget).
Proof. split; reflexivity. Qed.

Lemma catalog_rewrite_uploads_then_deletes_witness :
  exists w',
    updateCmrFile movedGranules "https://distribution.example" catalogFile catalogInPlace
    = (Ok tt, w')
    /\ S3.requests w'
       = [S3.PutObject catalogLocation; S3.DeleteObject catalogLocation]
    /\ S3.objects w' !! catalogLocation = None.
Proof.
  destruct (catalog_rewrite_uploads_then_deletes movedGranules
              "https://distribution.example" catalogFile catalogInPlace
              {| granuleId := "A"; files := [granuleFile; catalogTarget] |}
              {| Granule_ :=
                   Some [("GranuleUR", JStr "A");
                         ("OnlineAccessURLs",
                          JObj [("OnlineAccessURL",
                                 JArr [urlValue
                                         {| URL := "https://distribution.example/archive/data/A.hdf";
                                            URLDescription := "File to download" |};
                                       urlValue
                                         {| URL := "https://distribution.example/archive/data/A.cmr.xml";
                                            URLDescription := "File to download" |}]
                                      [])]);
                         ("Orderable", JStr "true")] |}
              catalogTarget catalogLocation
              ltac:(reflexivity) ltac:(vm_compute; reflexivity)
              ltac:(reflexivity) ltac:(reflexivity))
    as (w' & Hrun & Hrequests & _ & Hgone).
  exists w'. split; [exact Hrun|]. split; [exact Hrequests|]. exact (Hgone eq_refl).
Defined.

Lemma error_policy_throws_DuplicateFile_witness :
  moveGranules errorEvent occupied
  = (Err (DuplicateFile "by-rule/A.hdf already exists in archive bucket"), occupied).
Proof.
  refine (proj2 (proj2 (error_policy_throws_DuplicateFile
                          (destinationOf stagedWithEmptyPath protectedBucket "by-rule")
                          "staging" occupied (object "old bytes" 3) _))
            errorEvent errorConfig [] [stagedGranule] [("A", stagedGranule)] "A" "A"
            _ _ _ _ _ _ _ _ _);
    try discriminate; vm_compute; reflexivity.
Defined.

End TaskExamples.

(** * Further properties of the task's functions *)

(** ** Literal patterns *)

Lemma prefix_iff (p s : string) :
  String.prefix p s = true <-> exists t, s = p +:+ t.
Proof.
  split.
  - revert s. induction p as [|a p IH]; intros s Hp.
    + now exists s.
    + destruct s as [|b s]; [discriminate|]. simpl in Hp.
      destruct (ascii_dec a b) as [->|]; [|discriminate].
      destruct (IH _ Hp) as [t ->]. now exists t.
  - intros [t ->]. apply prefix_append.
Qed.

Ltac unroll_append := cbv [String.append]; fold String.append.

Lemma append_assoc (a b c : string) : (a +:+ b) +:+ c = a +:+ b +:+ c.
Proof. induction a as [|x a IH]; unroll_append; [reflexivity | now rewrite IH]. Qed.

Lemma append_empty_r (a : string) : a +:+ "" = a.
Proof. induction a as [|x a IH]; unroll_append; [reflexivity | now rewrite IH]. Qed.

Lemma rev_app_append (s t : string) : String.rev_app s t = String.rev s +:+ t.
Proof.
  unfold String.rev. revert t. induction s as [|a s IH]; intros t; simpl.
  - reflexivity.
  - rewrite (IH (String a t)), (IH (String a "")), append_assoc. reflexivity.
Qed.

Lemma rev_append (s t : string) :
  String.rev (s +:+ t) = String.rev t +:+ String.rev s.
Proof.
  induction s as [|a s IH]; simpl.
  - now rewrite append_empty_r.
  - unfold String.rev at 1 3. simpl.
    rewrite !rev_app_append, IH, append_assoc. reflexivity.
Qed.

Lemma rev_involutive (s : string) : String.rev (String.rev s) = s.
Proof.
  induction s as [|a s IH]; [reflexivity|].
  unfold String.rev at 2. simpl. rewrite rev_app_append, rev_append, IH.
  reflexivity.
Qed.

Lemma ends_with_iff (lit s : string) :
  Js.ends_with lit s = true <-> exists a, s = a +:+ lit.
Proof.
  unfold Js.ends_with. rewrite prefix_iff. split.
  - intros [t Ht]. exists (String.rev t).
    rewrite <- (rev_involutive s), Ht, rev_append, rev_involutive. reflexivity.
  - intros [a ->]. exists (String.rev a). apply rev_append.
Qed.

Lemma includes_iff (lit s : string) :
  Js.includes lit s = true <-> exists a b, s = a +:+ lit +:+ b.
Proof.
  induction s as [|c s IH]; cbn [Js.includes].
  - rewrite orb_false_r, prefix_iff. split.
    + intros [t Ht]. now exists "", t.
    + intros (a & b & Hs). destruct a; [|discriminate]. now exists b.
  - rewrite orb_true_iff, IH, prefix_iff. split.
    + intros [[t Ht] | (a & b & ->)].
      * now exists "", t.
      * now exists (String c a), b.
    + intros ([|x a] & b & Hs).
      * left. now exists b.
      * right. injection Hs as _ ->. now exists a, b.
Qed.

(** X1.  A file counts as a catalog file exactly when its name ends in
    [.cmr.xml]; such a name is never among the files to move. *)
Theorem catalog_file_by_suffix (name : string) :
  isCmrFile name = true <-> exists stem, name = stem +:+ ".cmr.xml".
Proof. apply ends_with_iff. Qed.

(** ** Placing one file: the cases without a collision, the frame, the
    descriptors *)

Section MoveMore.
Context `{Collaborators}.

#[local] Abbreviation TFile := (Target.file Bucket.t).

Lemma s3ObjectExists_absent w target :
  S3.objects w !! target = None -> s3ObjectExists target w = (Ok false, w).
Proof.
  intros Ho. unfold s3ObjectExists.
  rewrite bool_decide_eq_false_2; [reflexivity|].
  rewrite Ho. now intros [? ?].
Qed.

(** X2.  When nothing lies at the destination the duplicate policy plays
    no part: whatever it is, the staged source is moved to the
    destination key (public-read exactly when the bucket type mentions
    [public]), the source key is emptied, one copy and one deletion are
    issued, and the descriptor comes back without a [duplicate_found] of
    its own; only under [version] is the listing of renamed siblings
    appended. *)
Theorem fresh_destination_receives_staged_file
    file sourceBucket duplicateHandling w staged :
  S3.objects w !! targetOf file = None ->
  S3.objects w !! sourceOf file sourceBucket = Some staged ->
  let source := sourceOf file sourceBucket in
  let target := targetOf file in
  let placed :=
    {| S3.Body := S3.Body staged;
       S3.ACL := if Js.includes "public" (Bucket.type (Target.bucket file))
                 then Some "public-read" else None;
       S3.LastModified := S3.clock w |} in
  exists w',
    moveFileRequest file sourceBucket duplicateHandling w
    = (Ok (withoutStagingDir file
             :: if bool_decide (duplicateHandling = "version")
                then map (renamedFile file) (listRenamed target.1 target.2 (S3.objects w'))
                else []),
       w')
    /\ S3.objects w' = delete source (<[target := placed]> (S3.objects w))
    /\ S3.objects w' !! target = Some placed
    /\ S3.objects w' !! source = None
    /\ S3.requests w'
       = (S3.requests w ++ [S3.CopyObject source target; S3.DeleteObject source])%list.
Proof.
  intros Ht Hs source target placed.
  assert (Hne : source <> target).
  { intros Heq. unfold source, target in *. rewrite Heq in Hs. congruence. }
  eexists {| S3.objects := delete source (<[target := placed]> (S3.objects w));
             S3.clock := S (S3.clock w);
             S3.requests := S3.requests w
                              ++ [S3.CopyObject source target; S3.DeleteObject source] |}.
  split; [|repeat split].
  - unfold moveFileRequest.
    rewrite (bind_ok _ _ _ _ _ (s3ObjectExists_absent _ _ Ht)).
    cbn [andb]. unfold bind, moveGranuleFile. rewrite Hs.
    destruct (bool_decide (duplicateHandling = "version")); reflexivity.
  - cbn [S3.objects]. rewrite lookup_delete_ne by congruence.
    apply lookup_insert_eq.
  - apply lookup_delete_eq.
Qed.

(** X3.  On a collision every policy other than [error], [skip] and
    [version] overwrites, [replace] being one of them: the destination
    key receives the staged content, the staged source is deleted,
    nothing is renamed and the one descriptor returned is flagged
    [duplicate_found]. *)
Theorem unrecognised_policy_overwrites
    file sourceBucket duplicateHandling w existing staged :
  S3.objects w !! targetOf file = Some existing ->
  S3.objects w !! sourceOf file sourceBucket = Some staged ->
  sourceOf file sourceBucket <> targetOf file ->
  duplicateHandling <> "error" ->
  duplicateHandling <> "skip" ->
  duplicateHandling <> "version" ->
  let source := sourceOf file sourceBucket in
  let target := targetOf file in
  let placed :=
    {| S3.Body := S3.Body staged;
       S3.ACL := if Js.includes "public" (Bucket.type (Target.bucket file))
                 then Some "public-read" else None;
       S3.LastModified := S3.clock w |} in
  exists w',
    moveFileRequest file sourceBucket duplicateHandling w = (Ok [duplicateOf file], w')
    /\ S3.objects w' = delete source (<[target := placed]> (S3.objects w))
    /\ S3.objects w' !! target = Some placed
    /\ S3.objects w' !! source = None.
Proof.
  intros Ht Hs Hne Herror Hskip Hversion source target placed.
  eexists {| S3.objects := delete source (<[target := placed]> (S3.objects w));
             S3.clock := S (S3.clock w);
             S3.requests := S3.requests w
                              ++ [S3.CopyObject source target; S3.DeleteObject source] |}.
  split; [|repeat split].
  - unfold moveFileRequest.
    rewrite (bind_ok _ _ _ _ _ (s3ObjectExists_present _ _ _ Ht)).
    cbn [andb].
    rewrite (bool_decide_eq_false_2 _ Herror), (bool_decide_eq_false_2 _ Hskip),
      (bool_decide_eq_false_2 _ Hversion).
    unfold bind, moveGranuleFile. rewrite Hs. reflexivity.
  - cbn [S3.objects]. rewrite lookup_delete_ne by (unfold source, target; congruence).
    apply lookup_insert_eq.
  - apply lookup_delete_eq.
Qed.

(** *** What a placement leaves alone *)

Lemma leavesAlone_ret {A} P (a : A) : leavesAlone P (ret a).
Proof. now intros w loc _. Qed.

Lemma leavesAlone_throw {A} P e : leavesAlone P (@throw A e).
Proof. now intros w loc _. Qed.

Lemma leavesAlone_lift {A} P (r : Result A) : leavesAlone P (lift r).
Proof. now intros w loc _. Qed.

Lemma leavesAlone_bind {A B} P (m : Task A) (k : A -> Task B) :
  leavesAlone P m -> (forall a, leavesAlone P (k a)) -> leavesAlone P (bind m k).
Proof.
  intros Hm Hk w loc Hloc. unfold bind.
  specialize (Hm w loc Hloc). destruct (m w) as [[a|e] w1]; cbn [snd] in *.
  - now rewrite (Hk a w1 loc Hloc).
  - exact Hm.
Qed.

Lemma leavesAlone_promiseAll {A} P (requests : list (Task A)) :
  Forall (leavesAlone P) requests -> leavesAlone P (promiseAll requests).
Proof.
  induction 1 as [|request rest Hrequest _ IH]; [apply leavesAlone_ret|].
  intros w loc Hloc. cbn [promiseAll].
  specialize (Hrequest w loc Hloc). destruct (request w) as [[a|e] w1]; cbn [snd] in *.
  - specialize (IH w1 loc Hloc).
    destruct (promiseAll rest w1) as [[others|e] w2]; cbn [snd] in *; congruence.
  - now rewrite (IH w1 loc Hloc).
Qed.

Lemma leavesAlone_weaken {A} (P Q : S3.Loc -> Prop) (m : Task A) :
  (forall loc, Q loc -> P loc) -> leavesAlone P m -> leavesAlone Q m.
Proof. intros HQP Hm w loc Hloc. apply Hm, HQP, Hloc. Qed.

Lemma leavesAlone_s3ObjectExists P target : leavesAlone P (s3ObjectExists target).
Proof. now intros w loc _. Qed.

Lemma leavesAlone_checksumS3Objects P bucket key :
  leavesAlone P (checksumS3Objects bucket key).
Proof.
  intros w loc _. unfold checksumS3Objects. now destruct (S3.objects w !! (bucket, key)).
Qed.

Lemma leavesAlone_getRenamedS3File P bucket key :
  leavesAlone P (getRenamedS3File bucket key).
Proof. now intros w loc _. Qed.

Lemma leavesAlone_deleteS3Object (P : S3.Loc -> Prop) bucket key :
  ~ P (bucket, key) -> leavesAlone P (deleteS3Object bucket key).
Proof.
  intros Hout w loc Hloc. cbn. apply lookup_delete_ne. now intros <-.
Qed.

Lemma leavesAlone_moveGranuleFile (P : S3.Loc -> Prop) source target options :
  ~ P source -> ~ P target -> leavesAlone P (moveGranuleFile source target options).
Proof.
  intros Hsource Htarget w loc Hloc. unfold moveGranuleFile.
  destruct (S3.objects w !! source); [|reflexivity]. cbn.
  rewrite lookup_delete_ne by (now intros <-).
  apply lookup_insert_ne. now intros <-.
Qed.

Lemma leavesAlone_renameS3FileWithTimestamp (P : S3.Loc -> Prop) bucket key :
  ~ P (bucket, key) ->
  (forall suffix, ~ P (bucket, versionPrefix key +:+ suffix)) ->
  leavesAlone P (renameS3FileWithTimestamp bucket key).
Proof.
  intros Hkey Hrenamed w loc Hloc. unfold renameS3FileWithTimestamp.
  destruct (S3.objects w !! (bucket, key)) as [o|]; [|reflexivity].
  apply (leavesAlone_moveGranuleFile P _ _ None Hkey (Hrenamed _) w loc Hloc).
Qed.

Lemma moveFileRequest_leavesAlone file sourceBucket duplicateHandling :
  leavesAlone (fun loc => ~ writableBy file sourceBucket loc)
              (moveFileRequest file sourceBucket duplicateHandling).
Proof.
  assert (Hsource : ~ ~ writableBy file sourceBucket (sourceOf file sourceBucket)).
  { intros Hout. apply Hout. now left. }
  assert (Htarget : ~ ~ writableBy file sourceBucket (targetOf file)).
  { intros Hout. apply Hout. right. now left. }
  assert (Hrenamed : forall suffix,
             ~ ~ writableBy file sourceBucket
                   ((targetOf file).1, versionPrefix (targetOf file).2 +:+ suffix)).
  { intros suffix Hout. apply Hout. right. right. cbn [fst snd].
    split; [reflexivity | apply prefix_append]. }
  unfold moveFileRequest.
  apply leavesAlone_bind; [apply leavesAlone_s3ObjectExists|]. intros s3ObjAlreadyExists.
  destruct (s3ObjAlreadyExists && bool_decide (duplicateHandling = "error"));
    [apply leavesAlone_throw|].
  destruct (s3ObjAlreadyExists && bool_decide (duplicateHandling = "skip"));
    [apply leavesAlone_ret|].
  apply leavesAlone_bind.
  - destruct (s3ObjAlreadyExists && bool_decide (duplicateHandling = "version")).
    + apply leavesAlone_bind; [apply leavesAlone_checksumS3Objects|]. intros existingFileSum.
      apply leavesAlone_bind; [apply leavesAlone_checksumS3Objects|]. intros stagedFileSum.
      destruct (N.eqb existingFileSum stagedFileSum).
      * apply leavesAlone_deleteS3Object.
        now rewrite <- surjective_pairing.
      * apply leavesAlone_bind.
        -- apply leavesAlone_renameS3FileWithTimestamp; [|exact Hrenamed].
           now rewrite <- surjective_pairing.
        -- intros _. now apply leavesAlone_moveGranuleFile.
    + now apply leavesAlone_moveGranuleFile.
  - intros _. apply leavesAlone_bind.
    + destruct (bool_decide (duplicateHandling = "version"));
        [apply leavesAlone_getRenamedS3File | apply leavesAlone_ret].
    + intros renamedFiles. apply leavesAlone_ret.
Qed.

(** *** The descriptors a placement returns *)

Lemma listed_siblings file store :
  Forall (describesSibling file store)
         (map (renamedFile file)
              (listRenamed (targetOf file).1 (targetOf file).2 store)).
Proof.
  apply Forall_forall. intros f Hf.
  apply list_elem_of_fmap in Hf as (listed & -> & Hlisted).
  unfold listRenamed in Hlisted.
  apply list_elem_of_fmap in Hlisted as ([[bucket key] o] & -> & Hentry).
  apply elem_of_map_to_list in Hentry. unfold siblings in Hentry.
  apply map_lookup_filter_Some in Hentry as [Hlookup [Hbucket Hprefix]].
  cbn [fst snd targetOf] in *. subst bucket.
  unfold describesSibling, renamedFile. cbn.
  repeat split; try assumption. now exists o.
Qed.

Lemma moveFileRequest_descriptors
    file sourceBucket duplicateHandling w moved w' :
  moveFileRequest file sourceBucket duplicateHandling w = (Ok moved, w') ->
  exists fileMoved extras,
    moved = fileMoved :: extras
    /\ Target.name fileMoved = Target.name file
    /\ Target.bucket fileMoved = Target.bucket file
    /\ Target.filepath fileMoved = Target.filepath file
    /\ Target.filename fileMoved = Target.filename file
    /\ Target.url_path fileMoved = Target.url_path file
    /\ Target.fileSize fileMoved = Target.fileSize file
    /\ Target.fileStagingDir fileMoved = None
    /\ (duplicateHandling <> "version" -> extras = [])
    /\ Forall (describesSibling file (S3.objects w')) extras.
Proof.
  unfold moveFileRequest, bind at 1, s3ObjectExists.
  set (present := bool_decide (is_Some (S3.objects w !! targetOf file))).
  set (fileMoved := if present then markDuplicate (withoutStagingDir file)
                    else withoutStagingDir file).
  assert (Hshape : Target.name fileMoved = Target.name file
                   /\ Target.bucket fileMoved = Target.bucket file
                   /\ Target.filepath fileMoved = Target.filepath file
                   /\ Target.filename fileMoved = Target.filename file
                   /\ Target.url_path fileMoved = Target.url_path file
                   /\ Target.fileSize fileMoved = Target.fileSize file
                   /\ Target.fileStagingDir fileMoved = None).
  { unfold fileMoved. destruct present; repeat split. }
  destruct (present && bool_decide (duplicateHandling = "error")); [discriminate|].
  destruct (present && bool_decide (duplicateHandling = "skip")).
  { intros [= <- <-]. exists fileMoved, []. repeat split; try apply Hshape.
    constructor. }
  unfold bind at 1.
  match goal with |- context [let (_, _) := ?m w in _] => destruct (m w) as [[[]|e] w1] end;
    [|discriminate].
  unfold bind, ret, getRenamedS3File.
  case_bool_decide as Hversion.
  - intros [= <- <-]. eexists fileMoved, _. split; [reflexivity|].
    repeat split; try apply Hshape; [congruence | apply listed_siblings].
  - intros [= <- <-]. exists fileMoved, []. repeat split; try apply Hshape.
    constructor.
Qed.

(** X4.  Versions accumulate.  Under [version], when the checksums differ
    and the key the existing object is renamed to is still free, the
    request returns the placed file, the renamed original and every
    earlier renamed version: two descriptors more than there were renamed
    siblings before. *)
Theorem versions_accumulate file sourceBucket w existing staged moved w' :
  S3.objects w !! targetOf file = Some existing ->
  S3.objects w !! sourceOf file sourceBucket = Some staged ->
  cksum (S3.Body existing) <> cksum (S3.Body staged) ->
  S3.objects w !! ((targetOf file).1, renamedKey (targetOf file).2 existing) = None ->
  ~ isRenamedOf (targetOf file).1 (targetOf file).2 (sourceOf file sourceBucket, staged) ->
  moveFileRequest file sourceBucket "version" w = (Ok moved, w') ->
  length moved
  = 2 + size (siblings (targetOf file).1 (targetOf file).2 (S3.objects w))
  /\ siblings (targetOf file).1 (targetOf file).2 (S3.objects w')
     = <[((targetOf file).1, renamedKey (targetOf file).2 existing)
         := {| S3.Body := S3.Body existing; S3.ACL := None;
               S3.LastModified := S3.clock w |}]>
         (siblings (targetOf file).1 (targetOf file).2 (S3.objects w)).
Proof.
  intros Ht Hs Hsum Hfree Hsource Hrun.
  assert (Hfresh : sourceOf file sourceBucket
                   <> ((targetOf file).1, renamedKey (targetOf file).2 existing)).
  { intros Heq. rewrite Heq in Hs. congruence. }
  assert (Hne : sourceOf file sourceBucket <> targetOf file).
  { intros Heq. rewrite Heq in Hs. congruence. }
  rewrite (moveFileRequest_version_differ _ _ _ _ _ Ht Hs Hsum Hfresh) in Hrun.
  injection Hrun as <- <-.
  assert (Hsiblings :
            siblings (targetOf file).1 (targetOf file).2
                     (versionedStore file sourceBucket existing staged w)
            = <[((targetOf file).1, renamedKey (targetOf file).2 existing)
                := {| S3.Body := S3.Body existing; S3.ACL := None;
                      S3.LastModified := S3.clock w |}]>
                (siblings (targetOf file).1 (targetOf file).2 (S3.objects w))).
  { unfold versionedStore, siblings in *.
    destruct (targetOf file) as [bucket key] eqn:Htarget. cbn [fst snd] in *.
    pose proof (renamedKey_fresh bucket key existing) as Hrenamed.
    rewrite map_filter_delete.
    rewrite map_filter_insert_False by apply target_not_sibling.
    rewrite !map_filter_delete.
    rewrite map_filter_insert_True by apply renamed_is_sibling.
    rewrite delete_delete_eq.
    rewrite (delete_id _ (bucket, key)).
    2:{ rewrite lookup_insert_ne by congruence.
        apply map_lookup_filter_None_2. right. intros o _. apply target_not_sibling. }
    rewrite delete_id; [reflexivity|].
    rewrite lookup_insert_ne by congruence.
    apply map_lookup_filter_None_2. right. intros o Ho.
    rewrite Hs in Ho. injection Ho as <-. exact Hsource. }
  split; [|exact Hsiblings].
  unfold versionedFiles, listRenamed. cbn [length S3.objects versionedWorld].
  rewrite !length_map, length_map_to_list, Hsiblings.
  rewrite map_size_insert_None; [reflexivity|].
  apply map_lookup_filter_None_2. now left.
Qed.

(** X5.  A placement whose staged source is missing changes nothing:
    the world afterwards is the world before, and the request either
    threw or, under [skip] on an existing destination, returned the
    flagged descriptor alone. *)
Theorem missing_source_changes_nothing file sourceBucket duplicateHandling w :
  S3.objects w !! sourceOf file sourceBucket = None ->
  (moveFileRequest file sourceBucket duplicateHandling w).2 = w
  /\ (forall moved,
        (moveFileRequest file sourceBucket duplicateHandling w).1 = Ok moved ->
        duplicateHandling = "skip" /\ moved = [duplicateOf file]
        /\ is_Some (S3.objects w !! targetOf file)).
Proof.
  intros Hs.
  assert (Hrun : exists r,
             moveFileRequest file sourceBucket duplicateHandling w = (r, w)
             /\ forall moved, r = Ok moved ->
                  duplicateHandling = "skip" /\ moved = [duplicateOf file]
                  /\ is_Some (S3.objects w !! targetOf file)).
  { unfold moveFileRequest, bind at 1, s3ObjectExists.
    destruct (S3.objects w !! targetOf file) as [existing|] eqn:Ht.
    - rewrite bool_decide_eq_true_2 by now eexists. cbn [andb].
      case_bool_decide as Herror; [eexists; split; [reflexivity | discriminate]|].
      case_bool_decide as Hskip.
      { eexists. split; [reflexivity|]. intros moved [= <-].
        repeat split; [exact Hskip|]. now eexists. }
      case_bool_decide as Hversion; unfold bind, checksumS3Objects, moveGranuleFile;
        unfold sourceOf, targetOf in *; cbn [fst snd] in *; rewrite ?Ht, Hs;
        (eexists; split; [reflexivity | discriminate]).
    - rewrite bool_decide_eq_false_2 by (now intros [? ?]). cbn [andb].
      unfold bind, moveGranuleFile. rewrite Hs.
      eexists; split; [reflexivity | discriminate]. }
  destruct Hrun as (r & -> & Hr). split; [reflexivity | exact Hr].
Qed.

(** X6.  Whatever the policy and the outcome, failure included, a
    placement changes no object other than the staged source, the
    destination and the renamed siblings of the destination. *)
Theorem placement_touches_only_its_own_keys file sourceBucket duplicateHandling :
  leavesAlone (fun loc => ~ writableBy file sourceBucket loc)
              (moveFileRequest file sourceBucket duplicateHandling).
Proof. apply moveFileRequest_leavesAlone. Qed.

(** X7.  Whenever a placement returns, the first descriptor is the file
    itself, with name, bucket, key, URI, [url_path] and size as planned
    and without [fileStagingDir]; no other descriptor is returned unless
    the policy is [version], and then each further one describes a
    renamed sibling of the destination present in the store: same bucket
    and [url_path] as the file, a key extending the destination key by
    the version marker, the size of that object. *)
Theorem placement_returns_file_then_siblings
    file sourceBucket duplicateHandling w moved w' :
  moveFileRequest file sourceBucket duplicateHandling w = (Ok moved, w') ->
  exists fileMoved extras,
    moved = fileMoved :: extras
    /\ Target.name fileMoved = Target.name file
    /\ Target.bucket fileMoved = Target.bucket file
    /\ Target.filepath fileMoved = Target.filepath file
    /\ Target.filename fileMoved = Target.filename file
    /\ Target.url_path fileMoved = Target.url_path file
    /\ Target.fileSize fileMoved = Target.fileSize file
    /\ Target.fileStagingDir fileMoved = None
    /\ (duplicateHandling <> "version" -> extras = [])
    /\ Forall (describesSibling file (S3.objects w')) extras.
Proof. apply moveFileRequest_descriptors. Qed.

End MoveMore.

(** ** Moving the files of every granule *)

Section MoveAllMore.
Context `{Collaborators}.

#[local] Abbreviation TFile := (Target.file Bucket.t).

Lemma promiseAll_ok {A} (requests : list (Task A)) w results w' :
  promiseAll requests w = (Ok results, w') ->
  Forall2 (fun request result => exists w0 w1, request w0 = (Ok result, w1))
          requests results.
Proof.
  revert w results. induction requests as [|request rest IH]; intros w results.
  - intros [= <- <-]. constructor.
  - cbn [promiseAll]. destruct (request w) as [[a|e] w1] eqn:Hrequest; [|discriminate].
    destruct (promiseAll rest w1) as [[others|e] w2] eqn:Hrest; [|discriminate].
    intros [= <- <-]. constructor; [now exists w, w1 | now apply (IH w1)].
Qed.

Lemma promiseAll_err {A} (requests : list (Task A)) w e w' :
  promiseAll requests w = (Err e, w') ->
  exists request w0 w1, request ∈ requests /\ request w0 = (Err e, w1).
Proof.
  revert w. induction requests as [|request rest IH]; intros w; [discriminate|].
  cbn [promiseAll]. destruct (request w) as [[a|e1] w1] eqn:Hrequest.
  - destruct (promiseAll rest w1) as [[others|e2] w2] eqn:Hrest; [discriminate|].
    intros [= <- <-]. destruct (IH _ Hrest) as (r & w0 & w3 & Hin & Hr).
    exists r, w0, w3. split; [now right | exact Hr].
  - intros [= <- _]. exists request, w, w1. split; [now left | exact Hrequest].
Qed.

Lemma listed_siblingOf file store :
  Forall (siblingOf file)
         (map (renamedFile file)
              (listRenamed (targetOf file).1 (targetOf file).2 store)).
Proof.
  apply Forall_forall. intros f Hf.
  apply list_elem_of_fmap in Hf as (listed & -> & Hlisted).
  unfold listRenamed in Hlisted.
  apply list_elem_of_fmap in Hlisted as ([[bucket key] o] & -> & Hentry).
  apply elem_of_map_to_list in Hentry. unfold siblings in Hentry.
  apply map_lookup_filter_Some in Hentry as [Hlookup [Hbucket Hprefix]].
  cbn [fst snd targetOf] in *. subst bucket.
  unfold siblingOf, renamedFile. cbn.
  repeat split; try assumption. now eexists.
Qed.

Lemma moveFileRequest_placed file sourceBucket duplicateHandling w moved w' :
  moveFileRequest file sourceBucket duplicateHandling w = (Ok moved, w') ->
  placedFor duplicateHandling file moved.
Proof.
  unfold moveFileRequest, bind at 1, s3ObjectExists, placedFor.
  set (present := bool_decide (is_Some (S3.objects w !! targetOf file))).
  set (fileMoved := if present then markDuplicate (withoutStagingDir file)
                    else withoutStagingDir file).
  assert (Hshape : fileMoved = withoutStagingDir file \/ fileMoved = duplicateOf file).
  { unfold fileMoved. destruct present; [now right | now left]. }
  destruct (present && bool_decide (duplicateHandling = "error")); [discriminate|].
  destruct (present && bool_decide (duplicateHandling = "skip")).
  { intros [= <- <-]. exists fileMoved, []. repeat split; [exact Hshape | constructor]. }
  unfold bind at 1.
  match goal with |- context [let (_, _) := ?m w in _] => destruct (m w) as [[[]|e] w1] end;
    [|discriminate].
  unfold bind, ret, getRenamedS3File.
  case_bool_decide as Hversion.
  - intros [= <- <-]. eexists fileMoved, _. split; [reflexivity|].
    split; [exact Hshape|]. split; [congruence | apply listed_siblingOf].
  - intros [= <- <-]. exists fileMoved, []. repeat split; [exact Hshape | constructor].
Qed.

Lemma moveFileRequest_throws file sourceBucket duplicateHandling w e w' :
  moveFileRequest file sourceBucket duplicateHandling w = (Err e, w') ->
  placementError duplicateHandling file e.
Proof.
  unfold moveFileRequest, bind at 1, s3ObjectExists, placementError.
  set (present := bool_decide (is_Some (S3.objects w !! targetOf file))).
  destruct present; cbn [andb].
  - case_bool_decide as Herror; [intros [= <- _]; now left|].
    case_bool_decide as Hskip; [discriminate|].
    intros Hrun. right. revert Hrun.
    unfold bind, ret, getRenamedS3File, checksumS3Objects, deleteS3Object,
      renameS3FileWithTimestamp, moveGranuleFile, missing.
    repeat (match goal with
            | |- context [match ?x with _ => _ end] =>
                lazymatch x with
                | context [match _ with _ => _ end] => fail
                | _ => destruct x eqn:?
                end
            end; cbn; try discriminate);
      intros; simplify_eq; try reflexivity.
  - intros Hrun. right. revert Hrun.
    unfold bind, ret, getRenamedS3File, moveGranuleFile, missing.
    repeat (match goal with
            | |- context [match ?x with _ => _ end] =>
                lazymatch x with
                | context [match _ with _ => _ end] => fail
                | _ => destruct x eqn:?
                end
            end; cbn; try discriminate);
      intros; simplify_eq; try reflexivity.
Qed.

(** The files of a granule that are moved, and those that are kept. *)
Lemma moveFilesOfGranule_ok granule sourceBucket duplicateHandling w moved w' :
  moveFilesOfGranule granule sourceBucket duplicateHandling w = (Ok moved, w') ->
  granuleId moved = granuleId granule
  /\ exists chunks,
      files moved
      = (concat chunks
           ++ filter (fun file => isCmrFile (Target.name file) = true) (files granule))%list
      /\ Forall2 (placedFor duplicateHandling)
                (filter (fun file => negb (isCmrFile (Target.name file)) = true)
                        (files granule))
                chunks.
Proof.
  unfold moveFilesOfGranule, bind, ret.
  destruct (promiseAll _ w) as [[chunks|e] w1] eqn:Hall; [|discriminate].
  intros [= <- <-]. split; [reflexivity|]. exists chunks. split; [reflexivity|].
  apply promiseAll_ok in Hall. apply Forall2_fmap_l in Hall.
  eapply Forall2_impl; [exact Hall|].
  intros file chunk (w0 & w2 & Hrun). cbn in Hrun.
  exact (moveFileRequest_placed _ _ _ _ _ _ Hrun).
Qed.

Lemma moveFilesForAllGranules_ok
    granulesObject sourceBucket duplicateHandling w movedGranules w' :
  moveFilesForAllGranules granulesObject sourceBucket duplicateHandling w
  = (Ok movedGranules, w') ->
  Forall2 (movedGranule duplicateHandling) (Js.ownEntries granulesObject) movedGranules.
Proof.
  unfold moveFilesForAllGranules. intros Hall.
  apply promiseAll_ok in Hall. apply Forall2_fmap_l in Hall.
  eapply Forall2_impl; [exact Hall|].
  intros entry moved (w0 & w1 & Hrun). cbn in Hrun. unfold bind, ret in Hrun.
  destruct (moveFilesOfGranule _ _ _ w0) as [[granule|e] w2] eqn:Hgranule;
    [|discriminate].
  injection Hrun as <- _. cbn [fst snd].
  split; [reflexivity|]. now apply (moveFilesOfGranule_ok _ _ _ _ _ _ Hgranule).
Qed.

(** X8.  When the move of all granules succeeds it returns one granule
    for each key of the granules object, in the order [Object.keys]
    lists them and with the granule ids unchanged; each granule's new
    file list is, for every file that is not a catalog file and in the
    original order, the file itself without its staging directory,
    flagged as a duplicate or not, followed under the [version] policy
    only by descriptors of renamed siblings, each with the bucket and
    [url_path] of the file, a key extending the destination key by the
    version marker, the name and URI of that key and a size; and then
    the granule's catalog files, untouched and in their original
    order. *)
Theorem moved_granules_keep_keys_and_catalog_files
    granulesObject sourceBucket duplicateHandling w movedGranules w' :
  moveFilesForAllGranules granulesObject sourceBucket duplicateHandling w
  = (Ok movedGranules, w') ->
  Forall2 (movedGranule duplicateHandling) (Js.ownEntries granulesObject) movedGranules.
Proof. apply moveFilesForAllGranules_ok. Qed.

(** X9.  The move of all granules throws nothing of its own: whatever it
    throws is a [DuplicateFile] that names the destination key and
    bucket of one of the granules' files that are not catalog files,
    which happens under the [error] policy only, or the storage's error
    for an object that is not there. *)
Theorem move_failure_is_a_placement_failure
    granulesObject sourceBucket duplicateHandling w e w' :
  moveFilesForAllGranules granulesObject sourceBucket duplicateHandling w = (Err e, w') ->
  exists entry file,
    entry ∈ granulesObject
    /\ file ∈ files entry.2
    /\ isCmrFile (Target.name file) = false
    /\ placementError duplicateHandling file e.
Proof.
  unfold moveFilesForAllGranules. intros Hall.
  apply promiseAll_err in Hall as (request & w0 & w1 & Hin & Hrun).
  apply list_elem_of_fmap in Hin as (entry & -> & Hentry).
  apply (proj1 (elem_of_ownEntries _ _)) in Hentry.
  unfold moveFilesOfGranule, bind, ret in Hrun.
  destruct (promiseAll _ w0) as [[chunks|e1] w2] eqn:Hfiles; [discriminate|].
  injection Hrun as <- _.
  apply promiseAll_err in Hfiles as (request & w3 & w4 & Hin & Hrun).
  apply list_elem_of_fmap in Hin as (file & -> & Hfile).
  apply list_elem_of_filter in Hfile as [Hname Hfile].
  exists entry, file. repeat split; try assumption.
  - now apply negb_true_iff.
  - exact (moveFileRequest_throws _ _ _ _ _ _ Hrun).
Qed.

(** X10.  Moving the files of all granules changes no object other than
    the staged sources, destinations and renamed siblings of the files
    that are not catalog files; whether it succeeds or fails. *)
Theorem move_touches_only_the_keys_of_moved_files
    granulesObject sourceBucket duplicateHandling :
  leavesAlone
    (fun loc =>
       forall entry file,
         entry ∈ granulesObject -> file ∈ files entry.2 ->
         isCmrFile (Target.name file) = false ->
         ~ writableBy file sourceBucket loc)
    (moveFilesForAllGranules granulesObject sourceBucket duplicateHandling).
Proof.
  unfold moveFilesForAllGranules. apply leavesAlone_promiseAll.
  apply Forall_fmap, Forall_forall. intros entry Hentry. cbn.
  apply (proj1 (elem_of_ownEntries _ _)) in Hentry.
  apply leavesAlone_bind; [|intros granule; apply leavesAlone_ret].
  unfold moveFilesOfGranule.
  apply leavesAlone_bind; [|intros chunks; apply leavesAlone_ret].
  apply leavesAlone_promiseAll, Forall_fmap, Forall_forall. intros file Hfile. cbn.
  apply list_elem_of_filter in Hfile as [Hname Hfile].
  eapply leavesAlone_weaken; [|apply moveFileRequest_leavesAlone].
  intros loc Hloc. apply (Hloc entry file Hentry Hfile). now apply negb_true_iff.
Qed.

End MoveAllMore.

(** ** Merging the staged files into the roster *)

Section RosterMore.
Context `{Collaborators}.

Lemma obj_get_set_ne {A} k k' (v : A) o :
  k <> k' -> obj_get k' (obj_set k v o) = obj_get k' o.
Proof.
  intros Hne. induction o as [|[k0 v0] o IH]; cbn.
  - now rewrite decide_False.
  - destruct (decide (k0 = k)) as [->|Hk0]; cbn.
    + now rewrite !decide_False.
    + now rewrite IH.
Qed.

Lemma obj_get_None {A} k (o : list (string * A)) :
  obj_get k o = None <-> k ∉ map fst o.
Proof.
  induction o as [|[k0 v0] o IH]; cbn.
  - split; [intros _; apply not_elem_of_nil | reflexivity].
  - rewrite not_elem_of_cons. destruct (decide (k0 = k)) as [->|Hne].
    + split; [discriminate | now intros [[] _]].
    + rewrite IH. split; [now split; [congruence|] | now intros [_ ?]].
Qed.

Lemma obj_get_elem {A} k (v : A) o :
  NoDup (map fst o) -> (k, v) ∈ o -> obj_get k o = Some v.
Proof.
  induction o as [|[k0 v0] o IH]; cbn; [now intros _ ?%elem_of_nil|].
  intros [Hfresh Hnodup]%NoDup_cons [[= -> ->] | Hin]%elem_of_cons.
  - now rewrite decide_True.
  - rewrite decide_False; [now apply IH|].
    intros ->. apply Hfresh. apply list_elem_of_fmap. now exists (k, v).
Qed.

Lemma obj_set_keys {A} k (v : A) o :
  map fst (obj_set k v o)
  = if decide (k ∈ map fst o) then map fst o else (map fst o ++ [k])%list.
Proof.
  induction o as [|[k0 v0] o IH]; cbn.
  - rewrite decide_False; [reflexivity | apply not_elem_of_nil].
  - destruct (decide (k0 = k)) as [->|Hne]; cbn.
    + rewrite decide_True; [reflexivity | now left].
    + rewrite IH. destruct (decide (k ∈ map fst o)) as [Hin|Hout].
      * rewrite decide_True; [reflexivity | now right].
      * rewrite decide_False; [reflexivity|].
        rewrite not_elem_of_cons. split; congruence.
Qed.

Lemma obj_set_elem {A} k (v : A) o entry :
  entry ∈ obj_set k v o -> entry = (k, v) \/ entry ∈ o.
Proof.
  induction o as [|[k0 v0] o IH]; cbn.
  - intros ?%list_elem_of_singleton. now left.
  - destruct (decide (k0 = k)) as [->|Hne].
    + intros [-> | Hin]%elem_of_cons; [now left | right; now right].
    + intros [-> | Hin]%elem_of_cons; [right; now left|].
      destruct (IH Hin); [now left | right; now right].
Qed.

Lemma keyedById_set {F} (granulesObject : Granules F) k g :
  granuleId g = k -> keyedById granulesObject -> keyedById (obj_set k g granulesObject).
Proof.
  intros Hid [Hnodup Hkeyed]. split.
  - rewrite obj_set_keys. case_decide; [exact Hnodup|].
    apply NoDup_app. repeat split; [exact Hnodup | | apply NoDup_singleton].
    intros x Hx ?%list_elem_of_singleton. congruence.
  - apply Forall_forall. intros entry [-> | Hin]%obj_set_elem; [exact Hid|].
    now apply (proj1 (Forall_forall _ _) Hkeyed).
Qed.

Lemma obj_set_key_set {A} k (v : A) o x :
  x ∈ map fst (obj_set k v o) <-> x = k \/ x ∈ map fst o.
Proof.
  rewrite obj_set_keys. case_decide as Hin.
  - split; [now right | now intros [-> | ?]].
  - rewrite elem_of_app, list_elem_of_singleton. tauto.
Qed.

(** The roster hashed: keys are the roster's granule ids. *)
Lemma hashGranules_keyed granules :
  keyedById (hashGranules granules).1
  /\ forall id, id ∈ map fst (hashGranules granules).1 <-> id ∈ map granuleId granules.
Proof.
  unfold hashGranules.
  assert (Hgen : forall (acc : Granules Staged.file * gmap string string) done,
             keyedById acc.1 ->
             (forall id, id ∈ map fst acc.1 <-> id ∈ map granuleId done) ->
             let result :=
               fold_left
                 (fun (acc : Granules Staged.file * gmap string string) g =>
                    (obj_set (granuleId g) g acc.1,
                     fold_left (fun (filesHash : gmap string string) f =>
                                  <[Staged.filename f := granuleId g]> filesHash)
                               (files g) acc.2))
                 granules acc in
             keyedById result.1
             /\ forall id, id ∈ map fst result.1
                          <-> id ∈ map granuleId (done ++ granules)).
  { induction granules as [|g rest IH]; intros acc done Hkeyed Hkeys; cbn.
    - rewrite app_nil_r. now split.
    - replace (done ++ g :: rest)%list with ((done ++ [g]) ++ rest)%list
        by now rewrite <- app_assoc.
      apply IH; cbn [fst].
      + now apply keyedById_set.
      + intros id. rewrite obj_set_key_set, Hkeys, map_app, elem_of_app.
        cbn. rewrite list_elem_of_singleton. tauto. }
  apply (Hgen ([], ∅) []).
  - split; [constructor | constructor].
  - intros id. cbn. reflexivity.
Qed.

Lemma addInputFiles_failed filesHash regex input e :
  fold_left (fun acc f => granulesHash <-? acc ;; addInputFile filesHash regex granulesHash f)
            input (Err e)
  = Err e.
Proof. induction input as [|f rest IH]; [reflexivity | exact IH]. Qed.

(** What the first loop leaves in the two hashes. *)
Lemma hashGranules_get granules id :
  obj_get id (hashGranules granules).1 = rosterGranule granules id.
Proof.
  unfold hashGranules, rosterGranule.
  assert (Hgen : forall acc : Granules Staged.file * gmap string string,
             obj_get id
               (fold_left
                  (fun (acc : Granules Staged.file * gmap string string) g =>
                     (obj_set (granuleId g) g acc.1,
                      fold_left (fun (filesHash : gmap string string) f =>
                                   <[Staged.filename f := granuleId g]> filesHash)
                                (files g) acc.2))
                  granules acc).1
             = match last (filter (fun g => granuleId g = id) granules) with
               | Some g => Some g
               | None => obj_get id acc.1
               end).
  { induction granules as [|g rest IH]; intros acc; cbn [fold_left]; [reflexivity|].
    rewrite IH. cbn [fst]. rewrite filter_cons.
    destruct (decide (granuleId g = id)) as [Hid|Hne].
    - rewrite last_cons. destruct (last _); [reflexivity|].
      rewrite <- Hid. apply obj_get_set.
    - destruct (last _); [reflexivity|]. now apply obj_get_set_ne. }
  rewrite Hgen. cbn. now destruct (last _).
Qed.

Lemma filesHash_granule (fs : list Staged.file) id (acc : gmap string string) f :
  fold_left (fun (filesHash : gmap string string) file =>
               <[Staged.filename file := id]> filesHash) fs acc !! f
  = if decide (f ∈ map Staged.filename fs) then Some id else acc !! f.
Proof.
  revert acc. induction fs as [|file rest IH]; intros acc; cbn.
  - rewrite decide_False; [reflexivity | apply not_elem_of_nil].
  - rewrite IH. destruct (decide (f ∈ map Staged.filename rest)) as [Hin|Hout].
    + rewrite decide_True; [reflexivity | now right].
    + destruct (decide (f = Staged.filename file)) as [->|Hne].
      * rewrite decide_True by now left. apply lookup_insert_eq.
      * rewrite decide_False by (rewrite not_elem_of_cons; now split).
        now apply lookup_insert_ne.
Qed.

Lemma hashGranules_recorded granules f :
  (hashGranules granules).2 !! f = recordedId granules f.
Proof.
  unfold hashGranules, recordedId.
  assert (Hgen : forall acc : Granules Staged.file * gmap string string,
             (fold_left
                (fun (acc : Granules Staged.file * gmap string string) g =>
                   (obj_set (granuleId g) g acc.1,
                    fold_left (fun (filesHash : gmap string string) file =>
                                 <[Staged.filename file := granuleId g]> filesHash)
                              (files g) acc.2))
                granules acc).2 !! f
             = match last (filter (fun g => f ∈ map Staged.filename (files g))
                                  granules) with
               | Some g => Some (granuleId g)
               | None => acc.2 !! f
               end).
  { induction granules as [|g rest IH]; intros acc; cbn [fold_left]; [reflexivity|].
    rewrite IH. cbn [snd]. rewrite filter_cons, filesHash_granule.
    destruct (decide (f ∈ map Staged.filename (files g))) as [Hin|Hout].
    - rewrite last_cons. now destruct (last _).
    - now destruct (last _). }
  rewrite Hgen. cbn. rewrite lookup_empty. now destruct (last _).
Qed.

Lemma rosterGranule_id granules id g :
  rosterGranule granules id = Some g -> granuleId g = id /\ g ∈ granules.
Proof.
  unfold rosterGranule. intros Hlast%last_Some_elem_of.
  now apply list_elem_of_filter in Hlast.
Qed.

Lemma knownFile_skipped granules f :
  Js.truthy f && negb (knownFile (hashGranules granules).2 f)
  = negb (skipped granules f).
Proof.
  unfold knownFile, skipped, Js.property. rewrite hashGranules_recorded.
  destruct (Js.truthy f); cbn [negb andb orb]; [|reflexivity].
  destruct (bool_decide (f = "__proto__")); cbn [negb orb]; [reflexivity|].
  destruct (recordedId granules f); [reflexivity|].
  now destruct (Js.inherited f).
Qed.

(** One step of the second loop keeps the keys and appends one file
    object under one key, or nothing. *)
Lemma addInputFile_merges granules regex done granulesHash f later :
  (forall id,
     obj_get id granulesHash
     = (fun g => {| granuleId := granuleId g;
                    files := (files g ++ additions done granules regex id)%list |})
         <$> rosterGranule granules id) ->
  addInputFile (hashGranules granules).2 regex granulesHash f = Ok later ->
  map fst later = map fst granulesHash
  /\ forall id,
       obj_get id later
       = (fun g => {| granuleId := granuleId g;
                      files := (files g ++ additions (done ++ [f]) granules regex id)%list |})
           <$> rosterGranule granules id.
Proof.
  intros Hinv. unfold addInputFile. rewrite knownFile_skipped.
  assert (Hstep : forall id,
             additions (done ++ [f]) granules regex id
             = (additions done granules regex id
                  ++ additions [f] granules regex id)%list).
  { intros id. unfold additions. apply omap_app. }
  destruct (skipped granules f) eqn:Hskipped; cbn [negb].
  { intros [= <-]. split; [reflexivity|]. intros id. rewrite Hstep.
    unfold additions at 2. cbn [omap list_omap]. rewrite Hskipped, app_nil_r.
    apply Hinv. }
  destruct (getGranuleId f regex) as [id0|e] eqn:Hid; cbn [rbind]; [|discriminate].
  unfold Js.property.
  destruct (obj_get id0 granulesHash) as [g0|] eqn:Hg0;
    [|destruct (Js.inherited id0); discriminate].
  destruct (fileObjectFromS3URI f) as [fileObject|e] eqn:Hobject; cbn [rbind];
    [|discriminate].
  intros [= <-]. split.
  - rewrite obj_set_keys. rewrite decide_True; [reflexivity|].
    apply dec_stable. rewrite <- obj_get_None. congruence.
  - intros id. rewrite Hstep. unfold additions at 2. cbn [omap list_omap].
    rewrite Hskipped, Hid, Hobject.
    destruct (decide (id0 = id)) as [<-|Hne].
    + rewrite bool_decide_eq_true_2 by reflexivity.
      rewrite obj_get_set. rewrite Hinv in Hg0.
      destruct (rosterGranule granules id0) as [g|]; [|discriminate].
      injection Hg0 as <-. cbn. now rewrite app_assoc.
    + rewrite bool_decide_eq_false_2 by exact Hne.
      rewrite obj_get_set_ne by exact Hne. rewrite app_nil_r. apply Hinv.
Qed.

Lemma addInputFiles_merge granules regex input done granulesHash later :
  (forall id,
     obj_get id granulesHash
     = (fun g => {| granuleId := granuleId g;
                    files := (files g ++ additions done granules regex id)%list |})
         <$> rosterGranule granules id) ->
  fold_left (fun acc f =>
               granulesHash <-? acc ;;
               addInputFile (hashGranules granules).2 regex granulesHash f)
            input (Ok granulesHash)
  = Ok later ->
  map fst later = map fst granulesHash
  /\ forall id,
       obj_get id later
       = (fun g => {| granuleId := granuleId g;
                      files := (files g ++ additions (done ++ input) granules regex id)%list |})
           <$> rosterGranule granules id.
Proof.
  revert done granulesHash. induction input as [|f rest IH]; intros done granulesHash Hinv.
  - intros [= <-]. rewrite app_nil_r. now split.
  - cbn [fold_left rbind].
    destruct (addInputFile _ regex granulesHash f) as [next|e] eqn:Hstep.
    + intros Hrest.
      destruct (addInputFile_merges _ _ _ _ _ _ Hinv Hstep) as [Hkeys Hnext].
      destruct (IH (done ++ [f])%list next Hnext Hrest) as [Hkeys' Hlater].
      split; [congruence|]. intros id. rewrite Hlater.
      now rewrite <- app_assoc.
    + now rewrite addInputFiles_failed.
Qed.

(** The merge as a whole, said from the roster. *)
Lemma addInputFilesToGranules_merged input granules regex result :
  addInputFilesToGranules input granules regex = Ok result ->
  map fst result = map fst (hashGranules granules).1
  /\ forall id,
       obj_get id result
       = (fun g => {| granuleId := granuleId g;
                      files := (files g ++ additions input granules regex id)%list |})
           <$> rosterGranule granules id.
Proof.
  unfold addInputFilesToGranules. intros Hresult.
  apply (addInputFiles_merge granules regex input []) in Hresult; [exact Hresult|].
  intros id. rewrite hashGranules_get.
  destruct (rosterGranule granules id) as [[gid gfiles]|]; [|reflexivity].
  cbn. now rewrite app_nil_r.
Qed.

Lemma addInputFilesToGranules_keyed input granules regex result :
  addInputFilesToGranules input granules regex = Ok result ->
  keyedById result
  /\ (forall id, id ∈ map fst result <-> id ∈ map granuleId granules)
  /\ map fst result = map fst (hashGranules granules).1.
Proof.
  intros Hresult.
  apply addInputFilesToGranules_merged in Hresult as [Hsame Hfiles].
  destruct (hashGranules_keyed granules) as [[Hnodup Hkeyed] Hkeys].
  split; [split|split].
  - now rewrite Hsame.
  - apply Forall_forall. intros [id g'] Hin. cbn [fst snd].
    assert (Hget : obj_get id result = Some g').
    { apply obj_get_elem; [now rewrite Hsame | exact Hin]. }
    rewrite Hfiles in Hget.
    destruct (rosterGranule granules id) as [g|] eqn:Hg; [|discriminate].
    injection Hget as <-. cbn. now apply (rosterGranule_id granules).
  - intros id. now rewrite Hsame.
  - exact Hsame.
Qed.

(** X11.  When the staged files are merged into the roster, and no
    granule of the roster is called [__proto__], the result has one
    entry for each distinct granule id of the roster and no key twice;
    what lies under an id is the last granule the roster has with that
    id, its files first, unchanged and in order, followed by one file
    object for each staged URI that is not skipped and whose extracted
    granule id is that id, in the order of the input.  A URI is skipped
    when it is empty, when the roster lists it as a file name (for a
    granule with a non-empty id), or when the roster does not list it
    and it is a name every object inherits. *)
Theorem merged_roster_is_keyed_and_only_appended input granules regex result :
  "__proto__" ∉ map granuleId granules ->
  addInputFilesToGranules input granules regex = Ok result ->
  NoDup (map fst result)
  /\ (forall id, id ∈ map fst result <-> id ∈ map granuleId granules)
  /\ forall id,
       obj_get id result
       = (fun g => {| granuleId := granuleId g;
                      files := (files g ++ additions input granules regex id)%list |})
           <$> rosterGranule granules id.
Proof.
  intros _ Hresult.
  destruct (addInputFilesToGranules_keyed _ _ _ _ Hresult) as ([Hnodup _] & Hkeys & _).
  destruct (addInputFilesToGranules_merged _ _ _ _ Hresult) as [_ Hfiles].
  split; [exact Hnodup|]. split; [exact Hkeys | exact Hfiles].
Qed.

(** *** Which staged URIs are passed over *)

Lemma filesHash_lookup granules f :
  match (hashGranules granules).2 !! f with
  | Some id => exists g, g ∈ granules /\ f ∈ map Staged.filename (files g)
                        /\ granuleId g = id
  | None => forall g, g ∈ granules -> f ∉ map Staged.filename (files g)
  end.
Proof.
  unfold hashGranules.
  assert (Hgen : forall (acc : Granules Staged.file * gmap string string) done,
             match acc.2 !! f with
             | Some id => exists g, g ∈ done /\ f ∈ map Staged.filename (files g)
                                   /\ granuleId g = id
             | None => forall g, g ∈ done -> f ∉ map Staged.filename (files g)
             end ->
             let result :=
               fold_left
                 (fun (acc : Granules Staged.file * gmap string string) g =>
                    (obj_set (granuleId g) g acc.1,
                     fold_left (fun (filesHash : gmap string string) file =>
                                  <[Staged.filename file := granuleId g]> filesHash)
                               (files g) acc.2))
                 granules acc in
             match result.2 !! f with
             | Some id => exists g, g ∈ (done ++ granules)%list
                                   /\ f ∈ map Staged.filename (files g)
                                   /\ granuleId g = id
             | None => forall g, g ∈ (done ++ granules)%list ->
                                 f ∉ map Staged.filename (files g)
             end).
  { induction granules as [|g rest IH]; intros acc done Hacc; cbn.
    - now rewrite app_nil_r.
    - replace (done ++ g :: rest)%list with ((done ++ [g]) ++ rest)%list
        by now rewrite <- app_assoc.
      apply IH. cbn [snd]. rewrite filesHash_granule.
      destruct (decide (f ∈ map Staged.filename (files g))) as [Hin|Hout].
      + exists g. repeat split; [|exact Hin]. apply elem_of_app. right. now left.
      + destruct (acc.2 !! f) as [id|].
        * destruct Hacc as (g0 & Hg0 & Hrest). exists g0.
          split; [apply elem_of_app; now left | exact Hrest].
        * intros g0 [Hg0 | ->%list_elem_of_singleton]%elem_of_app;
            [now apply Hacc | exact Hout]. }
  apply (Hgen ([], ∅) []). cbn. rewrite lookup_empty. now intros g ?%elem_of_nil.
Qed.

Lemma truthy_nonempty s : Js.truthy s = true <-> s <> "".
Proof. destruct s; cbn; split; congruence. Qed.

(** X12.  With no empty granule id in the roster, staged URIs that are
    empty or already the file name of a roster file add nothing: the
    merge returns the hashed roster as it is, and asks neither for a
    granule id nor for a file object. *)
Theorem listed_and_empty_uris_are_passed_over input granules regex :
  Forall (fun g => granuleId g <> "") granules ->
  Forall (passedOver granules) input ->
  addInputFilesToGranules input granules regex = Ok (hashGranules granules).1.
Proof.
  intros Hids Hinput. unfold addInputFilesToGranules.
  induction Hinput as [|f rest Hf _ IH]; [reflexivity|].
  cbn [fold_left rbind].
  replace (addInputFile (hashGranules granules).2 regex (hashGranules granules).1 f)
    with (Ok (A := Granules Staged.file) (hashGranules granules).1); [exact IH|].
  unfold addInputFile, knownFile, Js.property.
  destruct Hf as [-> | (g & file & Hg & Hfile & <-)]; [reflexivity|].
  case_bool_decide as Hproto; [now rewrite andb_false_r|].
  pose proof (filesHash_lookup granules (Staged.filename file)) as Hlookup.
  destruct ((hashGranules granules).2 !! Staged.filename file) as [id|].
  - destruct Hlookup as (g0 & Hg0 & _ & <-).
    rewrite (proj2 (truthy_nonempty _)
               (proj1 (Forall_forall _ _) Hids g0 Hg0)).
    now rewrite andb_false_r.
  - exfalso. apply (Hlookup g Hg). apply list_elem_of_fmap. now exists file.
Qed.

Lemma inherited_proto f : Js.inherited f = false -> f <> "__proto__".
Proof. intros Hf ->. discriminate. Qed.

(** X13.  Take a roster without a granule called [__proto__] and a
    staged URI that is neither empty nor a file name of the roster, and
    whose extracted granule id is not an id of the roster.  If the URI
    is a name every object inherits, such as [toString], it is passed
    over without an error.  Otherwise the merge throws a [TypeError],
    whatever follows in the input: that of reading [push] of undefined
    when the granule id is an inherited name, that of reading [files] of
    undefined when it is not. *)
Theorem uri_of_unknown_granule_throws f rest granules regex id :
  "__proto__" ∉ map granuleId granules ->
  f <> "" ->
  (forall g, g ∈ granules -> f ∉ map Staged.filename (files g)) ->
  getGranuleId f regex = Ok id ->
  id ∉ map granuleId granules ->
  addInputFilesToGranules (f :: rest) granules regex
  = if Js.inherited f then addInputFilesToGranules rest granules regex
    else if Js.inherited id
         then Err (TypeError "Cannot read property 'push' of undefined")
         else Err (TypeError "Cannot read property 'files' of undefined").
Proof.
  intros _ Hf Hnew Hid Hunknown. unfold addInputFilesToGranules.
  cbn [fold_left rbind].
  assert (Hlookup : (hashGranules granules).2 !! f = None).
  { pose proof (filesHash_lookup granules f) as Hlookup.
    destruct ((hashGranules granules).2 !! f) as [id0|]; [|reflexivity].
    destruct Hlookup as (g & Hg & Hin & _). now destruct (Hnew g Hg). }
  assert (Hget : obj_get id (hashGranules granules).1 = None).
  { apply obj_get_None. now rewrite (proj2 (hashGranules_keyed granules)). }
  unfold addInputFile at 2, knownFile, Js.property.
  rewrite (proj2 (truthy_nonempty f) Hf), Hlookup.
  destruct (Js.inherited f) eqn:Hinherited.
  { now destruct (bool_decide (f = "__proto__")). }
  rewrite (bool_decide_eq_false_2 _ (inherited_proto f Hinherited)).
  cbn [negb andb]. rewrite Hid. cbn [rbind]. rewrite Hget.
  destruct (Js.inherited id); apply addInputFiles_failed.
Qed.

End RosterMore.

(** ** The plan as a whole *)

Section PlanMore.
Context `{Collaborators}.

#[local] Abbreviation TFile := (Target.file Bucket.t).

Lemma forEach_ok {A B} (f : A -> Result B) l bs :
  forEach f l = Ok bs -> Forall2 (fun a b => f a = Ok b) l bs.
Proof.
  revert bs. induction l as [|a rest IH]; intros bs; cbn.
  - intros [= <-]. constructor.
  - destruct (f a) as [b|e] eqn:Ha; cbn [rbind]; [|discriminate].
    destruct (forEach f rest) as [bs'|e]; cbn [rbind]; [|discriminate].
    intros [= <-]. constructor; [exact Ha | now apply IH].
Qed.

Lemma forEach_err {A B} (f : A -> Result B) l e :
  forEach f l = Err e -> exists a, a ∈ l /\ f a = Err e.
Proof.
  induction l as [|a rest IH]; cbn; [discriminate|].
  destruct (f a) as [b|e1] eqn:Ha; cbn [rbind].
  - destruct (forEach f rest) as [bs'|e2]; cbn [rbind]; [discriminate|].
    intros [= <-]. destruct (IH eq_refl) as (a' & Hin & Ha').
    exists a'. split; [now right | exact Ha'].
  - intros [= <-]. exists a. split; [now left | exact Ha].
Qed.

Lemma forEach_fails {A B} (f : A -> Result B) l a e :
  a ∈ l -> f a = Err e -> exists e', forEach f l = Err e'.
Proof.
  induction l as [|a0 rest IH]; [now intros ?%elem_of_nil|].
  intros [-> | Hin]%elem_of_cons Ha; cbn.
  - rewrite Ha. now eexists.
  - destruct (f a0); cbn [rbind]; [|now eexists].
    destruct (IH Hin Ha) as [e' ->]. now eexists.
Qed.

Lemma updateFileMetadata_ok collection cmrFiles buckets id granule file target :
  updateFileMetadata collection cmrFiles buckets id granule file = Ok target ->
  plannedFile collection cmrFiles buckets id granule file target.
Proof.
  unfold updateFileMetadata, plannedFile.
  destruct (matching (collection_files collection) file) as [|cf [|cf2 rest]];
    try discriminate.
  rewrite validateMatch_one. fold (cmrMetadata cmrFiles id).
  unfold bucketProperty, Js.property.
  destruct (buckets !! FileSpec.bucket cf) as [bucket|] eqn:Hbucket;
    [|destruct (Js.inherited (FileSpec.bucket cf)) eqn:Hinherited; [|discriminate]];
    cbn [rbind];
    (destruct (urlPathTemplate _ _ _ _) as [urlPath|e] eqn:Hpath; cbn [rbind];
     [|discriminate]).
  - intros [= <-]. cbn. repeat split. exists cf, urlPath.
    rewrite Hbucket. now repeat split.
  - destruct (Js.inheritedValueName (FileSpec.bucket cf)) as [functionName|] eqn:Hname;
      [|discriminate].
    intros [= <-]. cbn. repeat split. exists cf, urlPath.
    rewrite Hbucket. now repeat split.
Qed.

Lemma updateGranuleMetadata_ok granulesObject collection cmrFiles buckets planned :
  updateGranuleMetadata granulesObject collection cmrFiles buckets = Ok planned ->
  Forall2 (plannedGranule collection cmrFiles buckets)
          (Js.ownEntries granulesObject) planned.
Proof.
  unfold updateGranuleMetadata. intros Hplan. apply forEach_ok in Hplan.
  eapply Forall2_impl; [exact Hplan|].
  intros entry target. cbn.
  destruct (forEach _ (files entry.2)) as [updatedFiles|e] eqn:Hfiles; cbn [rbind];
    [|discriminate].
  intros [= <-]. split; [reflexivity|]. split; [reflexivity|]. cbn [snd files].
  apply forEach_ok in Hfiles.
  eapply Forall2_impl; [exact Hfiles|].
  intros file targeted. apply updateFileMetadata_ok.
Qed.

(** X14.  A plan that succeeds has one granule for each key of the
    granules object, in the order [Object.keys] lists them and with the
    granule ids unchanged, and gives every granule as many files as it
    had, in the same order; each planned file keeps the name,
    [url_path], [fileStagingDir], [duplicate_found] and size of the file
    it was planned for; its key is the expansion of the path template
    chosen for the file (against the file, its granule and the catalog
    metadata of the granule) joined with its name, and its URI is [s3://]
    followed by the bucket name joined with that key; its bucket is the
    one the bucket map holds under the key of the single matching rule,
    or, when the map holds none and the key is a name every object
    inherits, a bucket named after the inherited value. *)
Theorem plan_keeps_granules_and_files
    granulesObject collection cmrFiles buckets planned :
  updateGranuleMetadata granulesObject collection cmrFiles buckets = Ok planned ->
  Forall2 (plannedGranule collection cmrFiles buckets)
          (Js.ownEntries granulesObject) planned.
Proof. apply updateGranuleMetadata_ok. Qed.

(** X15.  Planning is all or nothing: the plan fails exactly when the
    destination of some file of some granule cannot be resolved, and
    what it then throws is what resolving one of those files threw. *)
Theorem plan_fails_iff_some_file_fails granulesObject collection cmrFiles buckets :
  ((exists e, updateGranuleMetadata granulesObject collection cmrFiles buckets = Err e)
   <-> (exists entry file e,
          entry ∈ granulesObject /\ file ∈ files entry.2
          /\ updateFileMetadata collection cmrFiles buckets entry.1 entry.2 file = Err e))
  /\ (forall e,
        updateGranuleMetadata granulesObject collection cmrFiles buckets = Err e ->
        exists entry file,
          entry ∈ granulesObject /\ file ∈ files entry.2
          /\ updateFileMetadata collection cmrFiles buckets entry.1 entry.2 file = Err e).
Proof.
  assert (Horigin : forall e,
             updateGranuleMetadata granulesObject collection cmrFiles buckets = Err e ->
             exists entry file,
               entry ∈ granulesObject /\ file ∈ files entry.2
               /\ updateFileMetadata collection cmrFiles buckets entry.1 entry.2 file
                  = Err e).
  { unfold updateGranuleMetadata. intros e Hplan.
    apply forEach_err in Hplan as (entry & Hentry & Hfiles). cbn in Hfiles.
    apply (proj1 (elem_of_ownEntries _ _)) in Hentry.
    destruct (forEach _ (files entry.2)) as [updatedFiles|e1] eqn:Hgranule;
      cbn [rbind] in Hfiles; [discriminate|].
    injection Hfiles as <-.
    apply forEach_err in Hgranule as (file & Hfile & Hrun).
    now exists entry, file. }
  split; [split|exact Horigin].
  - intros [e Hplan]. destruct (Horigin e Hplan) as (entry & file & Hrest).
    now exists entry, file, e.
  - intros (entry & file & e & Hentry & Hfile & Hrun).
    unfold updateGranuleMetadata.
    destruct (forEach_fails
                (updateFileMetadata collection cmrFiles buckets entry.1 entry.2)
                _ _ _ Hfile Hrun) as [e' Hfiles].
    eapply forEach_fails; [exact (proj2 (elem_of_ownEntries _ _) Hentry)|].
    cbn. rewrite Hfiles. reflexivity.
Qed.

End PlanMore.

(** ** Rewriting the catalog metadata *)

Section CatalogMore.
Context `{Collaborators}.

#[local] Abbreviation TFile := (Target.file Bucket.t).

(** X16.  Bucket types are matched by occurrence, not by equality: a
    file gets the distribution-endpoint URL whenever its bucket type
    mentions [protected], also when it mentions [public] as well; it gets
    the direct storage URL when the type mentions [public] and not
    [protected]; and it gets no URL exactly when the type mentions
    neither. *)
Theorem access_url_by_occurrence distEndpoint (file : TFile) :
  (mentions "protected" (Bucket.type (Target.bucket file)) ->
   accessURL distEndpoint file
   = Some {| URL := urljoin distEndpoint
                      (urljoin (Bucket.name (Target.bucket file)) (Target.filepath file));
             URLDescription := "File to download" |})
  /\ (~ mentions "protected" (Bucket.type (Target.bucket file)) ->
      mentions "public" (Bucket.type (Target.bucket file)) ->
      accessURL distEndpoint file
      = Some {| URL := "https://" +:+ Bucket.name (Target.bucket file)
                       +:+ ".s3.amazonaws.com/" +:+ Target.filepath file;
                URLDescription := "File to download" |})
  /\ (accessURL distEndpoint file = None
      <-> ~ mentions "protected" (Bucket.type (Target.bucket file))
          /\ ~ mentions "public" (Bucket.type (Target.bucket file))).
Proof.
  unfold accessURL, mentions.
  pose proof (includes_iff "protected" (Bucket.type (Target.bucket file))) as Hprotected.
  pose proof (includes_iff "public" (Bucket.type (Target.bucket file))) as Hpublic.
  split; [|split; [|split]].
  - intros Hm. now rewrite (proj2 Hprotected Hm).
  - intros Hnone Hm.
    destruct (Js.includes "protected" _) eqn:Hp; [now destruct Hnone; apply Hprotected|].
    now rewrite (proj2 Hpublic Hm).
  - destruct (Js.includes "protected" _) eqn:Hp; [discriminate|].
    destruct (Js.includes "public" _) eqn:Hq; [discriminate|].
    intros _. split; intros Hm.
    + apply Hprotected in Hm. discriminate.
    + apply Hpublic in Hm. discriminate.
  - intros [Hnone1 Hnone2].
    destruct (Js.includes "protected" _) eqn:Hp; [now destruct Hnone1; apply Hprotected|].
    destruct (Js.includes "public" _) eqn:Hq; [now destruct Hnone2; apply Hpublic|].
    reflexivity.
Qed.

(** *** The splice *)

Lemma copyKey_get k (updatedGranule : list (string * JsVal)) entry :
  k <> "OnlineAccessURLs" ->
  obj_get k (copyKey updatedGranule entry)
  = if decide (entry.1 = k) then Some entry.2 else obj_get k updatedGranule.
Proof.
  intros Hk. unfold copyKey.
  destruct (decide (entry.1 = k)) as [<-|Hne]; [apply obj_get_set|].
  rewrite obj_get_set_ne by exact Hne.
  destruct (_ || _); [|reflexivity].
  now rewrite obj_get_set_ne by congruence.
Qed.

Lemma copied_keys_get k metadataGranule (updatedGranule : list (string * JsVal)) :
  k <> "OnlineAccessURLs" ->
  NoDup (map fst metadataGranule) ->
  obj_get k (fold_left copyKey metadataGranule updatedGranule)
  = match obj_get k metadataGranule with
    | Some v => Some v
    | None => obj_get k updatedGranule
    end.
Proof.
  intros Hk. revert updatedGranule.
  induction metadataGranule as [|[k0 v0] rest IH]; intros updatedGranule Hnodup;
    [reflexivity|].
  apply NoDup_cons in Hnodup as [Hfresh Hnodup]. cbn [fold_left obj_get].
  rewrite IH by exact Hnodup. rewrite copyKey_get by exact Hk. cbn [fst snd].
  destruct (decide (k0 = k)) as [->|Hne]; [|reflexivity].
  now rewrite (proj2 (obj_get_None k rest) Hfresh).
Qed.

Lemma copied_keys_without_anchor metadataGranule (updatedGranule : list (string * JsVal)) :
  Forall (fun key => key <> "OnlineResources" /\ key <> "Orderable"
                     /\ key <> "OnlineAccessURLs")
         (map fst metadataGranule) ->
  obj_get "OnlineAccessURLs" (fold_left copyKey metadataGranule updatedGranule)
  = obj_get "OnlineAccessURLs" updatedGranule.
Proof.
  revert updatedGranule.
  induction metadataGranule as [|[k0 v0] rest IH]; intros updatedGranule Hkeys;
    [reflexivity|].
  apply Forall_cons in Hkeys as [(Hresources & Horderable & Hurls) Hkeys].
  cbn [fold_left]. rewrite IH by exact Hkeys. unfold copyKey. cbn [fst snd].
  rewrite !bool_decide_eq_false_2 by assumption. cbn [orb].
  now apply obj_get_set_ne.
Qed.

(** X17.  The splice changes nothing but [OnlineAccessURLs]: when the
    rewrite of the metadata succeeds, every other element of the
    metadata granule is found in the updated granule with the value it
    had, and no other element is. *)
Theorem splice_keeps_other_elements cmrFile urls updated metadataGranule :
  Granule_ (metadataObject cmrFile) = Some metadataGranule ->
  NoDup (map fst metadataGranule) ->
  updatedMetadata cmrFile urls = Ok updated ->
  exists updatedGranule,
    Granule_ updated = Some updatedGranule
    /\ forall key, key <> "OnlineAccessURLs" ->
                   obj_get key updatedGranule = obj_get key metadataGranule.
Proof.
  intros Hgranule Hnodup. unfold updatedMetadata, setOnlineAccessURL. rewrite Hgranule.
  destruct (obj_get "OnlineAccessURLs" _) as [[text | items props | fields]|];
    cbn [rbind]; try discriminate;
    intros [= <-]; eexists; (split; [reflexivity|]); intros key Hkey;
    rewrite obj_get_set_ne by congruence;
    rewrite copied_keys_get by assumption;
    now destruct (obj_get key metadataGranule).
Qed.

(** X18.  A metadata granule with none of the elements
    [OnlineResources], [Orderable] and [OnlineAccessURLs] cannot be
    rewritten: the callback throws the [TypeError] of setting a property
    of undefined before anything is uploaded or deleted, and the world
    is left as it was. *)
Theorem metadata_without_anchor_is_not_rewritten
    granulesObject distEndpoint cmrFile w granule metadataGranule :
  obj_get (cmr_granuleId cmrFile) granulesObject = Some granule ->
  Granule_ (metadataObject cmrFile) = Some metadataGranule ->
  Forall (fun key => key <> "OnlineResources" /\ key <> "Orderable"
                     /\ key <> "OnlineAccessURLs")
         (map fst metadataGranule) ->
  updateCmrFile granulesObject distEndpoint cmrFile w
  = (Err (TypeError "Cannot set property 'OnlineAccessURL' of undefined"), w).
Proof.
  intros Hgranule Hmetadata Hkeys.
  unfold updateCmrFile. rewrite Hgranule. cbn [Js.property].
  unfold bind, lift, updatedMetadata, setOnlineAccessURL. rewrite Hmetadata.
  now rewrite (copied_keys_without_anchor _ [] Hkeys).
Qed.

(** X19.  A rewrite that fails has deleted nothing: either the world is
    as it was, or the one thing that happened is the upload to the
    destination of the granule's catalog file. *)
Theorem failed_rewrite_deletes_nothing granulesObject distEndpoint cmrFile w e w' :
  updateCmrFile granulesObject distEndpoint cmrFile w = (Err e, w') ->
  w' = w
  \/ exists granule updatedCmrFile uploaded,
       obj_get (cmr_granuleId cmrFile) granulesObject = Some granule
       /\ List.find (fun f : TFile => isCmrFile (Target.filename f)) (files granule)
          = Some updatedCmrFile
       /\ parseS3Uri (cmr_filename cmrFile) = Err e
       /\ S3.objects w' = <[targetOf updatedCmrFile := uploaded]> (S3.objects w)
       /\ S3.requests w' = (S3.requests w ++ [S3.PutObject (targetOf updatedCmrFile)])%list.
Proof.
  unfold updateCmrFile.
  destruct (obj_get (cmr_granuleId cmrFile) granulesObject) as [granule|] eqn:Hgranule;
    cbn [Js.property];
    [|destruct (Js.inherited _); intros [= _ <-]; now left].
  unfold bind at 1, lift at 1.
  destruct (updatedMetadata _ _) as [updated|e1]; [|intros [= _ <-]; now left].
  destruct (List.find _ (files granule)) as [updatedCmrFile|] eqn:Hfind;
    [|intros [= _ <-]; now left].
  unfold bind, lift, deleteS3Object.
  destruct (Js.includes "public" _); cbn;
    (destruct (parseS3Uri (cmr_filename cmrFile)) as [old|e2] eqn:Hparse;
     [discriminate|]);
    intros [= <- <-]; right; eexists granule, updatedCmrFile, _;
    repeat split; try reflexivity; assumption.
Qed.

End CatalogMore.

(** ** The task as a whole *)

Section TaskMore.
Context `{Collaborators}.

#[local] Abbreviation TFile := (Target.file Bucket.t).

Lemma Forall2_same_ids {F G} (earlier : Granules F) (later : Granules G)
    (R : string * Granule F -> string * Granule G -> Prop) :
  (forall entry target, R entry target ->
     target.1 = entry.1 /\ granuleId target.2 = granuleId entry.2) ->
  Forall2 R earlier later ->
  map fst later = map fst earlier
  /\ map (fun entry => granuleId entry.2) later
     = map (fun entry => granuleId entry.2) earlier.
Proof.
  intros HR. induction 1 as [|entry target earlier later Hhead _ [IH1 IH2]]; [now split|].
  destruct (HR _ _ Hhead) as [Hkey Hid]. cbn. now rewrite Hkey, Hid, IH1, IH2.
Qed.

Lemma Forall_ids {F} (granulesObject : Granules F) :
  Forall (fun entry => granuleId entry.2 = entry.1) granulesObject ->
  map (fun entry => granuleId entry.2) granulesObject = map fst granulesObject.
Proof.
  induction 1 as [|entry rest Hentry _ IH]; [reflexivity|].
  cbn. now rewrite Hentry, IH.
Qed.

Lemma ownEntries_ids {F} (granulesObject : Granules F) :
  Forall (fun entry => granuleId entry.2 = entry.1) granulesObject ->
  map (fun entry => granuleId entry.2) (Js.ownEntries granulesObject)
  = Js.ownKeys (map fst granulesObject).
Proof.
  intros Hkeyed. rewrite <- ownEntries_keys. apply Forall_ids.
  apply Forall_forall. intros entry Hentry.
    apply (proj1 (elem_of_ownEntries _ _)) in Hentry.
  now apply (proj1 (Forall_forall _ _) Hkeyed).
Qed.

Lemma Forall2_keyed {F G} (earlier : Granules F) (later : Granules G)
    (R : string * Granule F -> string * Granule G -> Prop) :
  (forall entry target, R entry target ->
     target.1 = entry.1 /\ granuleId target.2 = granuleId entry.2) ->
  Forall (fun entry => granuleId entry.2 = entry.1) earlier ->
  Forall2 R earlier later ->
  Forall (fun entry => granuleId entry.2 = entry.1) later.
Proof.
  intros HR Hkeyed Hall. induction Hall as [|entry target earlier later Hhead _ IH];
    [constructor|].
  apply Forall_cons in Hkeyed as [Hentry Hkeyed].
  destruct (HR _ _ Hhead) as [Hkey Hid].
  constructor; [congruence | now apply IH].
Qed.

(** The keys of the hashed roster are the distinct ids of the roster,
    each where it first occurs. *)
Lemma hashGranules_keys granules :
  map fst (hashGranules granules).1 = firstSeen (map granuleId granules).
Proof.
  unfold hashGranules.
  assert (Hgen : forall acc : Granules Staged.file * gmap string string,
             map fst
               (fold_left
                  (fun (acc : Granules Staged.file * gmap string string) g =>
                     (obj_set (granuleId g) g acc.1,
                      fold_left (fun (filesHash : gmap string string) f =>
                                   <[Staged.filename f := granuleId g]> filesHash)
                                (files g) acc.2))
                  granules acc).1
             = (map fst acc.1
                  ++ filter (fun id => id ∉ map fst acc.1)
                            (firstSeen (map granuleId granules)))%list).
  { induction granules as [|g rest IH]; intros acc; cbn [fold_left map firstSeen].
    - now rewrite filter_nil, app_nil_r.
    - rewrite IH. cbn [fst]. rewrite obj_set_keys.
      destruct (decide (granuleId g ∈ map fst acc.1)) as [Hin|Hout].
      + rewrite filter_cons_False by (intros Hout; now apply Hout).
        rewrite list_filter_filter. f_equal. apply list_filter_iff.
        intros id. split; [|tauto]. intros Hid. split; [exact Hid | congruence].
      + rewrite filter_cons_True by exact Hout.
        rewrite <- app_assoc. cbn [app]. do 2 f_equal.
        rewrite list_filter_filter. apply list_filter_iff.
        intros id. rewrite elem_of_app, list_elem_of_singleton. tauto. }
  rewrite Hgen. cbn [fst map app]. apply filter_all.
  apply Forall_forall. intros id _. apply not_elem_of_nil.
Qed.

Lemma movedGranule_ids duplicateHandling (entry target : string * Granule TFile) :
  movedGranule duplicateHandling entry target ->
  target.1 = entry.1 /\ granuleId target.2 = granuleId entry.2.
Proof. intros (Hkey & Hid & _). now split. Qed.

Lemma plannedGranule_ids collection cmrFiles buckets
    (entry : string * Granule Staged.file) (target : string * Granule TFile) :
  plannedGranule collection cmrFiles buckets entry target ->
  target.1 = entry.1 /\ granuleId target.2 = granuleId entry.2.
Proof. intros (Hkey & Hid & _). now split. Qed.

(** X20.  When the task returns, it returns one granule for each
    distinct granule id of the roster and no other: provided no granule
    of the roster is called [__proto__], the ids of the returned
    granules are the distinct ids of the roster in the order
    [Object.keys] gives them, those that are array indices first in
    ascending order and then the others by first occurrence in the
    roster. *)
Theorem task_returns_one_granule_per_roster_id event w returned w' :
  moveGranules event w = (Ok returned, w') ->
  exists cfg roster,
    config event = Some cfg
    /\ input_granules cfg = Some roster
    /\ ("__proto__" ∉ map granuleId roster ->
        map granuleId returned = Js.ownKeys (firstSeen (map granuleId roster))
        /\ NoDup (map granuleId returned)
        /\ forall id, id ∈ map granuleId returned <-> id ∈ map granuleId roster).
Proof.
  unfold moveGranules.
  destruct (config event) as [cfg|] eqn:Hcfg; [|discriminate].
  unfold bind at 1.
  destruct (getCmrFiles _ _ _) as [cmrFiles|e]; [|discriminate].
  destruct (input_granules cfg) as [roster|] eqn:Hroster; [|discriminate].
  unfold bind at 1, lift at 1.
  destruct (addInputFilesToGranules _ roster _) as [allGranules|e] eqn:Hall;
    [|discriminate].
  unfold bind at 1, lift at 1.
  destruct (updateGranuleMetadata allGranules _ _ _) as [targetedGranules|e] eqn:Hplan;
    [|discriminate].
  unfold bind at 1.
  destruct (default true (moveStagedFiles cfg)).
  2:{ unfold ret, lift, output. discriminate. }
  unfold bind at 1.
  destruct (moveFilesForAllGranules targetedGranules _ _ w)
    as [[movedGranules|e] w1] eqn:Hmove; [|discriminate].
  unfold bind at 1.
  destruct (updateCmrFileAccessURLs cmrFiles movedGranules _ w1) as [[[]|e] w2];
    [|discriminate].
  unfold ret, lift, output. intros [= <- <-].
  exists cfg, roster. split; [reflexivity|]. split; [exact Hroster|]. intros _.
  apply addInputFilesToGranules_keyed in Hall as ([Hnodup Hkeyed] & Hkeys & Hsame).
  apply updateGranuleMetadata_ok in Hplan.
  apply moveFilesForAllGranules_ok in Hmove.
  assert (Hkeyed1 : Forall (fun entry : string * Granule Staged.file =>
                              granuleId entry.2 = entry.1) (Js.ownEntries allGranules)).
  { apply Forall_forall. intros entry Hentry.
    apply (proj1 (elem_of_ownEntries _ _)) in Hentry.
    now apply (proj1 (Forall_forall _ _) Hkeyed). }
  pose proof (Forall2_keyed _ _ _ (plannedGranule_ids _ _ _) Hkeyed1 Hplan) as Hkeyed2.
  assert (Hkeyed3 : Forall (fun entry : string * Granule TFile =>
                              granuleId entry.2 = entry.1) (Js.ownEntries targetedGranules)).
  { apply Forall_forall. intros entry Hentry.
    apply (proj1 (elem_of_ownEntries _ _)) in Hentry.
    now apply (proj1 (Forall_forall _ _) Hkeyed2). }
  pose proof (Forall2_keyed _ _ _ (movedGranule_ids _) Hkeyed3 Hmove) as Hkeyed4.
  apply (Forall2_same_ids _ _ _ (plannedGranule_ids _ _ _)) in Hplan as [Hplan _].
  apply (Forall2_same_ids _ _ _ (movedGranule_ids _)) in Hmove as [Hmove _].
  assert (Hids : map granuleId
                     (map (fun entry : string * Granule TFile =>
                             {| granuleId := granuleId entry.2;
                                files := map bucketNameOnly (files entry.2) |})
                          (Js.ownEntries movedGranules))
                 = Js.ownKeys (firstSeen (map granuleId roster))).
  { rewrite map_map. cbn [granuleId].
    rewrite (ownEntries_ids _ Hkeyed4), Hmove, ownEntries_keys, Hplan, ownEntries_keys.
    now rewrite !ownKeys_idemp, Hsame, hashGranules_keys. }
  rewrite Hids.
  assert (Hperm : Js.ownKeys (firstSeen (map granuleId roster)) ≡ₚ map fst allGranules).
  { now rewrite Hsame, hashGranules_keys, ownKeys_perm. }
  split; [reflexivity|]. split.
  - now rewrite Hperm.
  - intros id. now rewrite Hperm.
Qed.

(** X21.  Nothing is moved unless the whole plan stands: when merging
    the staged files or resolving the destinations throws, the task
    throws the same and the world is left as it was. *)
Theorem failed_plan_moves_nothing event cfg w cmrFiles roster e :
  config event = Some cfg ->
  getCmrFiles (default [] (input event)) (default "(.*)" (granuleIdExtraction cfg))
              (S3.objects w) = Ok cmrFiles ->
  input_granules cfg = Some roster ->
  addInputFilesToGranules (default [] (input event)) roster
                          (default "(.*)" (granuleIdExtraction cfg)) = Err e
  \/ (exists allGranules,
        addInputFilesToGranules (default [] (input event)) roster
                                (default "(.*)" (granuleIdExtraction cfg))
        = Ok allGranules
        /\ updateGranuleMetadata allGranules (config_collection cfg) cmrFiles
                                 (buckets cfg) = Err e) ->
  moveGranules event w = (Err e, w).
Proof.
  intros Hcfg Hcmr Hroster Hplan. unfold moveGranules. rewrite Hcfg.
  unfold bind, lift. rewrite Hcmr, Hroster.
  destruct Hplan as [-> | (allGranules & -> & ->)]; reflexivity.
Qed.

End TaskMore.

(** ** The further properties on concrete inputs *)

Section MoreExamples.
Import Sample Scenario Cases.

Lemma fresh_destination_receives_staged_file_witness :
  exists w',
    moveFileRequest granuleFile "staging" "error" fresh
    = (Ok [withoutStagingDir granuleFile], w')
    /\ S3.objects w' !! destination
       = Some {| S3.Body := "new bytes!"; S3.ACL := None; S3.LastModified := 7 |}
    /\ S3.objects w' !! stagedSource = None.
Proof.
  destruct (fresh_destination_receives_staged_file granuleFile "staging" "error" fresh
              (object "new bytes!" 5)
              ltac:(vm_compute; reflexivity) ltac:(vm_compute; reflexivity))
    as (w' & Hrun & _ & Htarget & Hsource & _).
  exists w'. split; [exact Hrun|]. split; [exact Htarget | exact Hsource].
Defined.

Lemma unrecognised_policy_overwrites_witness :
  exists w',
    moveFileRequest granuleFile "staging" "overwrite" changed
    = (Ok [duplicateOf granuleFile], w')
    /\ S3.objects w' !! destination
       = Some {| S3.Body := "new bytes!"; S3.ACL := None; S3.LastModified := 7 |}
    /\ S3.objects w' !! stagedSource = None.
Proof.
  destruct (unrecognised_policy_overwrites granuleFile "staging" "overwrite" changed
              (object "old bytes" 3) (object "new bytes!" 5)
              ltac:(vm_compute; reflexivity) ltac:(vm_compute; reflexivity)
              ltac:(discriminate) ltac:(discriminate) ltac:(discriminate)
              ltac:(discriminate))
    as (w' & Hrun & _ & Htarget & Hsource).
  exists w'. split; [exact Hrun|]. split; [exact Htarget | exact Hsource].
Defined.

Lemma placement_touches_only_its_own_keys_witness :
  S3.objects (moveFileRequest granuleFile "staging" "version" changedWithBystander).2
    !! bystander
  = S3.objects changedWithBystander !! bystander.
Proof.
  apply (placement_touches_only_its_own_keys granuleFile "staging" "version"
           changedWithBystander bystander).
  intros [Hloc | [Hloc | [_ Hloc]]]; discriminate.
Defined.

Lemma placement_returns_file_then_siblings_witness :
  exists fileMoved extras,
    [duplicateOf granuleFile;
     renamedFile granuleFile
       {| Listed_Bucket := "archive"; Listed_Key := "data/A.hdf.vI";
          Listed_fileSize := 11 |}]
    = fileMoved :: extras
    /\ Target.name fileMoved = "A.hdf"
    /\ Target.bucket fileMoved = protectedBucket
    /\ Target.filepath fileMoved = "data/A.hdf"
    /\ Target.filename fileMoved = "s3://archive/data/A.hdf"
    /\ Target.url_path fileMoved = None
    /\ Target.fileSize fileMoved = None
    /\ Target.fileStagingDir fileMoved = None
    /\ ("version" <> "version" -> extras = [])
    /\ Forall (describesSibling granuleFile
                 (S3.objects
                    (moveFileRequest granuleFile "staging" "version"
                                     identicalWithEarlierVersion).2))
              extras.
Proof.
  apply (placement_returns_file_then_siblings granuleFile "staging" "version"
           identicalWithEarlierVersion).
  vm_compute. reflexivity.
Defined.

Lemma versions_accumulate_witness :
  length [duplicateOf granuleFile;
          renamedFile granuleFile
            {| Listed_Bucket := "archive"; Listed_Key := "data/A.hdf.vIII";
               Listed_fileSize := 9 |};
          renamedFile granuleFile
            {| Listed_Bucket := "archive"; Listed_Key := "data/A.hdf.vI";
               Listed_fileSize := 11 |}]
  = 2 + size (siblings "archive" "data/A.hdf" (S3.objects changedWithEarlierVersion)).
Proof.
  refine (proj1 (versions_accumulate granuleFile "staging" changedWithEarlierVersion
                   (object "old bytes" 3) (object "new bytes!" 5) _
                   (moveFileRequest granuleFile "staging" "version"
                                    changedWithEarlierVersion).2
                   _ _ _ _ _ _)).
  - vm_compute. reflexivity.
  - vm_compute. reflexivity.
  - vm_compute. discriminate.
  - vm_compute. reflexivity.
  - intros [Hbucket _]. discriminate.
  - vm_compute. reflexivity.
Defined.

Lemma missing_source_changes_nothing_witness :
  (moveFileRequest granuleFile "staging" "replace" unstaged).2 = unstaged
  /\ (forall moved,
        (moveFileRequest granuleFile "staging" "replace" unstaged).1 = Ok moved ->
        "replace" = "skip" /\ moved = [duplicateOf granuleFile]
        /\ is_Some (S3.objects unstaged !! targetOf granuleFile)).
Proof.
  apply (missing_source_changes_nothing granuleFile "staging" "replace" unstaged).
  vm_compute. reflexivity.
Defined.

Lemma moved_granules_keep_keys_and_catalog_files_witness :
  Forall2 (movedGranule "version") (Js.ownEntries movedGranules)
          [("A", {| granuleId := "A";
                    files := [duplicateOf granuleFile;
                              renamedFile granuleFile
                                {| Listed_Bucket := "archive";
                                   Listed_Key := "data/A.hdf.vI";
                                   Listed_fileSize := 11 |};
                              catalogTarget] |})].
Proof.
  apply (moved_granules_keep_keys_and_catalog_files movedGranules "staging" "version"
           identicalWithEarlierVersion _
           (moveFilesForAllGranules movedGranules "staging" "version"
                                    identicalWithEarlierVersion).2).
  vm_compute. reflexivity.
Defined.

Lemma move_failure_is_a_placement_failure_witness :
  exists entry file,
    entry ∈ movedGranules
    /\ file ∈ files entry.2
    /\ isCmrFile (Target.name file) = false
    /\ placementError "error" file
         (DuplicateFile "data/A.hdf already exists in archive bucket").
Proof.
  apply (move_failure_is_a_placement_failure movedGranules "staging" "error" changed
           (DuplicateFile "data/A.hdf already exists in archive bucket")
           (moveFilesForAllGranules movedGranules "staging" "error" changed).2).
  vm_compute. reflexivity.
Defined.

Lemma move_touches_only_the_keys_of_moved_files_witness :
  S3.objects (moveFilesForAllGranules movedGranules "staging" "version"
                                      changedWithBystander).2 !! bystander
  = S3.objects changedWithBystander !! bystander.
Proof.
  apply (move_touches_only_the_keys_of_moved_files movedGranules "staging" "version"
           changedWithBystander bystander).
  intros entry file ->%list_elem_of_singleton Hfile Hname.
  apply elem_of_cons in Hfile as [-> | ->%list_elem_of_singleton]; [|discriminate].
  intros [Hloc | [Hloc | [_ Hloc]]]; discriminate.
Defined.

Lemma merged_roster_is_keyed_and_only_appended_witness :
  let result :=
    [("A", {| granuleId := "A"; files := [stagedWithEmptyPath; extraObject] |});
     ("B.hdf", {| granuleId := "B.hdf"; files := [stagedObject] |})] in
  NoDup (map fst result)
  /\ (forall id, id ∈ map fst result <-> id ∈ map granuleId [stagedGranule; emptyGranule])
  /\ forall id,
       obj_get id result
       = (fun g => {| granuleId := granuleId g;
                      files := (files g
                                  ++ additions
                                       ["s3://staging/file-staging/A.hdf"; extraUri; "";
                                        stagedUri]
                                       [stagedGranule; emptyGranule] "(.*)" id)%list |})
           <$> rosterGranule [stagedGranule; emptyGranule] id.
Proof.
  apply (merged_roster_is_keyed_and_only_appended
           ["s3://staging/file-staging/A.hdf"; extraUri; ""; stagedUri]
           [stagedGranule; emptyGranule] "(.*)").
  - intros Hin. repeat (apply elem_of_cons in Hin as [Hin | Hin]; [discriminate|]).
    now apply elem_of_nil in Hin.
  - vm_compute. reflexivity.
Defined.

Lemma listed_and_empty_uris_are_passed_over_witness :
  addInputFilesToGranules [""; "s3://staging/file-staging/A.hdf"] [stagedGranule] "(.*)"
  = Ok (hashGranules [stagedGranule]).1.
Proof.
  apply (listed_and_empty_uris_are_passed_over
           [""; "s3://staging/file-staging/A.hdf"] [stagedGranule] "(.*)").
  - repeat constructor. discriminate.
  - constructor; [now left|]. constructor; [|constructor].
    right. exists stagedGranule, stagedWithEmptyPath.
    repeat split; now left.
Defined.

Lemma uri_of_unknown_granule_throws_witness :
  addInputFilesToGranules ["s3://staging/file-staging/Z.hdf"; stagedUri]
                          [stagedGranule] "(.*)"
  = Err (TypeError "Cannot read property 'files' of undefined").
Proof.
  apply (uri_of_unknown_granule_throws "s3://staging/file-staging/Z.hdf" [stagedUri]
           [stagedGranule] "(.*)" "Z.hdf").
  - intros [Hin | Hin%elem_of_nil]%elem_of_cons; [discriminate | exact Hin].
  - discriminate.
  - intros g ->%list_elem_of_singleton [Hin | Hin%elem_of_nil]%elem_of_cons;
      [discriminate | exact Hin].
  - reflexivity.
  - intros [Hin | Hin%elem_of_nil]%elem_of_cons; [discriminate | exact Hin].
Defined.

(** The two other cases on the same roster: a staged URI that is a
    method name is passed over, and one whose granule id is a method
    name fails on [push]. *)
Lemma inherited_names_among_the_staged_uris :
  addInputFilesToGranules ["toString"] [stagedGranule] "(.*)"
  = Ok (hashGranules [stagedGranule]).1
  /\ addInputFilesToGranules ["s3://staging/file-staging/constructor"]
                             [stagedGranule] "(.*)"
     = Err (TypeError "Cannot read property 'push' of undefined").
Proof. split; vm_compute; reflexivity. Qed.

Lemma plan_keeps_granules_and_files_witness :
  Forall2 (plannedGranule collectionWithPath [] bucketMap)
          (Js.ownEntries [("A", stagedGranule)]) plannedGranules.
Proof.
  apply (plan_keeps_granules_and_files [("A", stagedGranule)] collectionWithPath []
           bucketMap plannedGranules).
  vm_compute. reflexivity.
Defined.

Lemma splice_keeps_other_elements_witness :
  exists updatedGranule,
    Some splicedGranule = Some updatedGranule
    /\ forall key, key <> "OnlineAccessURLs" ->
                   obj_get key updatedGranule
                   = obj_get key [("GranuleUR", JStr "A"); ("Orderable", JStr "true")].
Proof.
  apply (splice_keeps_other_elements catalogFile
           [{| URL := "https://distribution.example/archive/data/A.hdf";
               URLDescription := "File to download" |}]
           {| Granule_ := Some splicedGranule |}
           [("GranuleUR", JStr "A"); ("Orderable", JStr "true")]).
  - reflexivity.
  - constructor; [|apply NoDup_singleton].
    intros Hin%list_elem_of_singleton. discriminate.
  - vm_compute. reflexivity.
Defined.

Lemma metadata_without_anchor_is_not_rewritten_witness :
  updateCmrFile movedGranules "https://distribution.example" catalogFileBare catalogInPlace
  = (Err (TypeError "Cannot set property 'OnlineAccessURL' of undefined"),
     catalogInPlace).
Proof.
  apply (metadata_without_anchor_is_not_rewritten movedGranules
           "https://distribution.example" catalogFileBare catalogInPlace
           {| granuleId := "A"; files := [granuleFile; catalogTarget] |}
           [("GranuleUR", JStr "A")]).
  - reflexivity.
  - reflexivity.
  - constructor; [|constructor]. repeat split; discriminate.
Defined.

Lemma failed_rewrite_deletes_nothing_witness :
  (updateCmrFile movedGranules "https://distribution.example" catalogFileAstray
                 catalogInPlace).2 = catalogInPlace
  \/ exists granule updatedCmrFile uploaded,
       obj_get "A" movedGranules = Some granule
       /\ List.find (fun f : Target.file Bucket.t => isCmrFile (Target.filename f))
                    (files granule)
          = Some updatedCmrFile
       /\ parseS3Uri "A.cmr.xml" = Err (TypeError "uri must be a S3 uri")
       /\ S3.objects (updateCmrFile movedGranules "https://distribution.example"
                                    catalogFileAstray catalogInPlace).2
          = <[targetOf updatedCmrFile := uploaded]> (S3.objects catalogInPlace)
       /\ S3.requests (updateCmrFile movedGranules "https://distribution.example"
                                     catalogFileAstray catalogInPlace).2
          = (S3.requests catalogInPlace ++ [S3.PutObject (targetOf updatedCmrFile)])%list.
Proof.
  apply (failed_rewrite_deletes_nothing movedGranules "https://distribution.example"
           catalogFileAstray catalogInPlace (TypeError "uri must be a S3 uri")).
  vm_compute. reflexivity.
Defined.

Lemma task_returns_one_granule_per_roster_id_witness :
  (moveGranules numberedEvent changed).1
  = Ok [{| granuleId := "9"; files := [] |}; {| granuleId := "10"; files := [] |}]
  /\ ["9"; "10"] = Js.ownKeys (firstSeen ["10"; "9"; "10"]).
Proof.
  split; [vm_compute; reflexivity|].
  assert (Hrun : moveGranules numberedEvent changed
                 = (Ok [{| granuleId := "9"; files := [] |};
                        {| granuleId := "10"; files := [] |}],
                    (moveGranules numberedEvent changed).2))
    by (vm_compute; reflexivity).
  destruct (task_returns_one_granule_per_roster_id numberedEvent changed _ _ Hrun)
    as (cfg & roster & Hcfg & Hroster & Hids).
  injection Hcfg as <-. injection Hroster as <-.
  apply Hids.
  intros Hin. repeat (apply elem_of_cons in Hin as [Hin | Hin]; [discriminate|]).
  now apply elem_of_nil in Hin.
Defined.

Lemma failed_plan_moves_nothing_witness :
  moveGranules unplannableEvent changed = (Err (InvalidArgument DidNotMatchAny), changed).
Proof.
  apply (failed_plan_moves_nothing unplannableEvent unplannableConfig changed []
           [stagedGranule] (InvalidArgument DidNotMatchAny));
    try reflexivity.
  right. exists [("A", stagedGranule)]. split; reflexivity.
Defined.

End MoreExamples.
